(** * Gene-identity assignment of [spagrn/benchmark/receptor_simulation.py]

    A shallow embedding of [get_dir], [assign_gene_names_og] and of the part
    of the script's entry point that calls them, followed by the properties
    of the identifier-to-name table they build.

    Conventions of the embedding.
    - A gene identifier is a Python value, an [int] (as [pandas.read_csv]
      yields for a numeric column) or a [str] (the noise identifiers, and
      every identifier once a frame went through [astype(str)]).
    - A Python list that the code mutates is an object of a store, named by a
      reference; the dataframes the caller passes are objects of the store
      too.  [tfs] and [noise_ids] are read only and are passed by value (the
      script passes [tfs.copy()] as [total_id], so that they are different
      objects).
    - What the code leaves to its runtime is a parameter: the order in which
      a [set] is iterated ([Hashing]), the order pandas' default sort gives
      to equal keys ([Sorting]), the state of the [random] module (a field of
      the store). *)

From Stdlib Require Import ZArith List String Ascii QArith Permutation Sorted Lia Bool Arith.
From Stdlib Require Import DecimalString.
Import ListNotations.
Close Scope Q_scope.
Local Open Scope string_scope.
Local Open Scope list_scope.

(** ** Python values and exceptions *)

Module Py.

Inductive value : Type :=
| Int (z : Z)
| Str (s : string).

(** [a == b]: an [int] never equals a [str]. *)
Definition eqb (a b : value) : bool :=
  match a, b with
  | Int x, Int y => Z.eqb x y
  | Str x, Str y => String.eqb x y
  | _, _ => false
  end.

(** [str(v)] *)
Definition str (v : value) : string :=
  match v with
  | Int z => NilZero.string_of_int (Z.to_int z)
  | Str s => s
  end.

Inductive exn : Type :=
| KeyError
| IndexError
| ValueError
| AssertionError
| BadReference. (* a reference outside the store: no Python caller has one *)

(** [x in l] on a list of values, and on a list of strings. *)
Definition mem (x : value) (l : list value) : bool := existsb (eqb x) l.
Definition mem_str (x : string) (l : list string) : bool := existsb (String.eqb x) l.

(** [set(s)] for a string [s]: the one-character strings of [s]. *)
Fixpoint chars (s : string) : list string :=
  match s with
  | EmptyString => []
  | String c s' => String c EmptyString :: chars s'
  end.

(** [needle in s] on strings. *)
Fixpoint contains (needle s : string) : bool :=
  if String.prefix needle s then true
  else match s with
       | EmptyString => false
       | String _ s' => contains needle s'
       end.

End Py.

(** ** Dictionaries: the last binding of a key wins *)

Section Dict.
Context {K V : Type} (keq : K -> K -> bool).

Definition dict : Type := list (K * V).

Definition dict_set (d : dict) (k : K) (v : V) : dict := (k, v) :: d.

Fixpoint dict_get (d : dict) (k : K) : option V :=
  match d with
  | [] => None
  | (k', v) :: d' => if keq k' k then Some v else dict_get d' k
  end.

(** [dict(zip(ks, vs))] *)
Definition dict_zip (ks : list K) (vs : list V) : dict :=
  fold_left (fun d kv => dict_set d (fst kv) (snd kv)) (combine ks vs) [].
End Dict.

Arguments dict : clear implicits.

(** ** The dataframes *)

(** A row of the regulatory ground truth (columns [regulator.gene],
    [regulated.gene], [regulator.effect]); the effect is a finite float, whose
    order is that of the rational it denotes. *)
Record GrnRecord : Type := mkGrn {
  regulator_gene : Py.value;
  regulated_gene : Py.value;
  regulator_effect : Q
}.

(** A row of the ligand-receptor ground truth. *)
Record LrRecord : Type := mkLr {
  ligand : Py.value;
  receptor : Py.value
}.

(** A row of the ranking database: the motif and the rank of every gene. *)
Record RankRow : Type := mkRankRow {
  motifs : string;
  rank : string -> Z
}.

(** The ranking database: its gene columns, in file order, and the [motifs]
    column. *)
Record RankingDB : Type := mkRdb {
  gene_columns : list string;
  rank_rows : list RankRow
}.

Definition columns (rdb : RankingDB) : list string :=
  gene_columns rdb ++ ["motifs"].

(** The identifier-name frame before and after [astype(str)]. *)
Definition RawTable : Type := list (Py.value * string).
Definition Table : Type := list (string * string).

(** [pd.DataFrame({'id': ids, 'name': names})] raises when the two lists
    differ in length. *)
Definition DataFrame (ids : list Py.value) (names : list string)
  : Py.exn + RawTable :=
  if Nat.eqb (List.length ids) (List.length names)
  then inr (combine ids names)
  else inl Py.ValueError.

(** [df.drop_duplicates(subset='id', keep='first')] *)
Fixpoint drop_duplicates_seen (seen : list Py.value) (df : RawTable) : RawTable :=
  match df with
  | [] => []
  | (i, n) :: rest =>
      if Py.mem i seen then drop_duplicates_seen seen rest
      else (i, n) :: drop_duplicates_seen (i :: seen) rest
  end.

Definition drop_duplicates (df : RawTable) : RawTable :=
  drop_duplicates_seen [] df.

(** [df.astype(str)] *)
Definition astype_str (df : RawTable) : Table :=
  map (fun r => (Py.str (fst r), snd r)) df.

(** [df[~df['id'].isin(values)]] on a frame that went through [astype(str)]:
    its identifiers are [str] objects, compared with the values as Python
    compares them. *)
Definition drop_isin (values : list Py.value) (df : Table) : Table :=
  filter (fun r => negb (Py.mem (Py.Str (fst r)) values)) df.

(** [df.duplicated().sum().sum() == 0]: no row occurs twice. *)
Fixpoint no_duplicated (df : Table) : bool :=
  match df with
  | [] => true
  | r :: rest =>
      negb (existsb (fun r' => String.eqb (fst r) (fst r') && String.eqb (snd r) (snd r')) rest)
      && no_duplicated rest
  end.

(** ** What the runtime decides *)

(** pandas sorts one column through [argsort] with [kind='quicksort'], which
    numpy documents as not stable: any order of the rows that is sorted by
    the key is a possible result. *)
Record Sorting : Type := mkSorting {
  argsort : forall A : Type, (A -> Q) -> list A -> list A;
  argsort_perm : forall A (key : A -> Q) l, Permutation l (argsort A key l);
  argsort_sorted : forall A (key : A -> Q) l,
      StronglySorted (fun x y => Qle (key x) (key y)) (argsort A key l)
}.

(** [sort_values(by=key, ascending=...)]: for a descending sort pandas
    reverses the rows, sorts them in ascending order and reverses the
    result. *)
Definition sort_values {A : Type} (S : Sorting) (key : A -> Q) (ascending : bool)
  (l : list A) : list A :=
  if ascending then argsort S A key l
  else rev (argsort S A key (rev l)).

(** The order in which a [set] is iterated depends on the hashes of its
    elements (for [str], on the hash seed of the process). *)
Record Hashing : Type := mkHashing {
  iter_names : list string -> list string;
  iter_names_perm : forall l, Permutation l (iter_names l);
  iter_ids : list Py.value -> list Py.value;
  iter_ids_perm : forall l, Permutation l (iter_ids l)
}.

Definition value_eq_dec (a b : Py.value) : {a = b} + {a <> b}.
Proof. decide equality; [apply Z.eq_dec | apply string_dec]. Defined.

(** Sets are kept as duplicate-free lists. *)
Definition set_names (l : list string) : list string := nodup string_dec l.
Definition set_ids (l : list Py.value) : list Py.value := nodup value_eq_dec l.
Definition set_minus (a b : list string) : list string :=
  filter (fun x => negb (Py.mem_str x b)) a.

(** ** Insertion sorts, as instances of [Sorting] *)

Section Insertion.
Context {A : Type} (key : A -> Q) (before : Q -> Q -> bool).

Fixpoint insert_by (x : A) (l : list A) : list A :=
  match l with
  | [] => [x]
  | y :: l' => if before (key x) (key y) then x :: y :: l' else y :: insert_by x l'
  end.

Definition insertion_sort (l : list A) : list A := fold_right insert_by [] l.
End Insertion.

(** ** [get_dir] *)

Definition get_dir (S : Sorting) (gt : list GrnRecord) (regulators : list Py.value)
  : dict Py.value (list Py.value) :=
  fold_left
    (fun dir reg =>
       let sub := filter (fun r => Py.eqb (regulator_gene r) reg) gt in
       let sorted_sub := sort_values S regulator_effect false sub in
       dict_set dir reg (map regulated_gene sorted_sub))
    regulators [].

(** ** The store and the monad of the code *)

Definition ref : Type := nat.

(** The objects the code works on: the lists of names and of identifiers it
    mutates, the dataframes it is given, and the state of the [random]
    module, a tape of the numbers it will produce. *)
Record Store : Type := mkStore {
  name_lists : list (list string);
  id_lists : list (list Py.value);
  rdb_frames : list RankingDB;
  grn_frames : list (list GrnRecord);
  lr_frames : list (list LrRecord);
  random_state : list nat
}.

(** A computation returns a value or raises, and leaves a store. *)
Definition M (A : Type) : Type := Store -> (Py.exn + A) * Store.

Definition ret {A : Type} (a : A) : M A := fun s => (inr a, s).

Definition raise {A : Type} (e : Py.exn) : M A := fun s => (inl e, s).

Definition bind {A B : Type} (m : M A) (k : A -> M B) : M B :=
  fun s =>
    match m s with
    | (inl e, s') => (inl e, s')
    | (inr a, s') => k a s'
    end.

Notation "x <- m ;; k" := (bind m (fun x => k))
  (at level 61, m at next level, right associativity).
Notation "m ;; k" := (bind m (fun _ => k))
  (at level 61, right associativity).

Definition lift {A : Type} (r : Py.exn + A) : M A := fun s => (r, s).

Definition lookup {A : Type} (o : option A) (e : Py.exn) : M A :=
  match o with
  | Some a => ret a
  | None => raise e
  end.

Fixpoint set_nth {A : Type} (n : nat) (x : A) (l : list A) : list A :=
  match l, n with
  | [], _ => []
  | _ :: l', O => x :: l'
  | y :: l', S n' => y :: set_nth n' x l'
  end.

Definition load_names (r : ref) : M (list string) :=
  fun s => (match nth_error (name_lists s) r with
            | Some l => inr l
            | None => inl Py.BadReference
            end, s).

Definition store_names (r : ref) (l : list string) : M unit :=
  fun s => (inr tt,
            mkStore (set_nth r l (name_lists s)) (id_lists s) (rdb_frames s)
                    (grn_frames s) (lr_frames s) (random_state s)).

(** [total_name.append(x)] and [total_name += xs]: the object is changed. *)
Definition append_name (r : ref) (x : string) : M unit :=
  l <- load_names r ;; store_names r (l ++ [x]).

Definition extend_names (r : ref) (xs : list string) : M unit :=
  l <- load_names r ;; store_names r (l ++ xs).

(** [list(...)]: a new object. *)
Definition new_names (l : list string) : M ref :=
  fun s => (inr (List.length (name_lists s)),
            mkStore (name_lists s ++ [l]) (id_lists s) (rdb_frames s)
                    (grn_frames s) (lr_frames s) (random_state s)).

Definition load_ids (r : ref) : M (list Py.value) :=
  fun s => (match nth_error (id_lists s) r with
            | Some l => inr l
            | None => inl Py.BadReference
            end, s).

Definition store_ids (r : ref) (l : list Py.value) : M unit :=
  fun s => (inr tt,
            mkStore (name_lists s) (set_nth r l (id_lists s)) (rdb_frames s)
                    (grn_frames s) (lr_frames s) (random_state s)).

Definition extend_ids (r : ref) (xs : list Py.value) : M unit :=
  l <- load_ids r ;; store_ids r (l ++ xs).

Definition new_ids (l : list Py.value) : M ref :=
  fun s => (inr (List.length (id_lists s)),
            mkStore (name_lists s) (id_lists s ++ [l]) (rdb_frames s)
                    (grn_frames s) (lr_frames s) (random_state s)).

Definition load_rdb (r : ref) : M RankingDB :=
  fun s => (match nth_error (rdb_frames s) r with
            | Some f => inr f
            | None => inl Py.BadReference
            end, s).

Definition load_grn (r : ref) : M (list GrnRecord) :=
  fun s => (match nth_error (grn_frames s) r with
            | Some f => inr f
            | None => inl Py.BadReference
            end, s).

Definition load_lr (r : ref) : M (list LrRecord) :=
  fun s => (match nth_error (lr_frames s) r with
            | Some f => inr f
            | None => inl Py.BadReference
            end, s).

(** ** [random.sample] *)

(** The next number of the generator, below [n]. *)
Definition randbelow (n : nat) : M nat :=
  fun s =>
    match random_state s with
    | [] => (inr O, s)
    | r :: tape =>
        (inr (Nat.modulo r n),
         mkStore (name_lists s) (id_lists s) (rdb_frames s)
                 (grn_frames s) (lr_frames s) tape)
    end.

Fixpoint remove_nth {A : Type} (n : nat) (l : list A) : list A :=
  match l, n with
  | [], _ => []
  | _ :: l', O => l'
  | y :: l', S n' => y :: remove_nth n' l'
  end.

(** [k] draws without replacement. *)
Fixpoint draw {A : Type} (pool : list A) (k : nat) : M (list A) :=
  match k with
  | O => ret []
  | S k' =>
      j <- randbelow (List.length pool) ;;
      match nth_error pool j with
      | None => ret []
      | Some x => rest <- draw (remove_nth j pool) k' ;; ret (x :: rest)
      end
  end.

(** [sample(population, k)] is library code, embedded by its contract: it
    raises [ValueError] when [k] exceeds the population, and otherwise
    returns the elements at [k] different positions, chosen by the
    generator. *)
Definition sample {A : Type} (population : list A) (k : nat) : M (list A) :=
  if Nat.ltb (List.length population) k then raise Py.ValueError
  else draw population k.

(** ** [assign_gene_names_og] *)

Section Assign.
Variable S : Sorting.
Variable H : Hashing.

(** Names the function reads and does not receive: the module-level
    dictionary [tf_id_dir] that the script defines before the call, and the
    rows (columns [from], [to]) of the file [lr_network_mouse.csv]. *)
Variable tf_id_dir : dict Py.value string.
Variable niche_mouse : list (string * string).

(** [rdb[rdb.motifs == one_motif].drop('motifs', axis=1)] sorted along its
    columns by the row of label [sub.index.values[0]]: the gene columns in
    the order of their ranks in the first row of the motif. *)
Definition sorted_columns (rdb : RankingDB) (one_motif : string)
  : Py.exn + list string :=
  let sub := filter (fun row => String.eqb (motifs row) one_motif) (rank_rows rdb) in
  let sub_columns := filter (fun c => negb (String.eqb c "motifs")) (columns rdb) in
  match sub with
  | [] => inl Py.IndexError
  | first :: _ =>
      inr (sort_values S (fun c => inject_Z (rank first c)) true sub_columns)
  end.

(** [for tg in sorted_sub.columns: ...] with [stop = current_len + top_num] *)
Fixpoint for_tg (total_name : ref) (stop : nat) (cols : list string) : M unit :=
  match cols with
  | [] => ret tt
  | tg :: cols' =>
      names <- load_names total_name ;;
      (if Py.mem_str tg names then ret tt else append_name total_name tg) ;;
      names <- load_names total_name ;;
      if Nat.eqb (List.length names) stop then ret tt
      else for_tg total_name stop cols'
  end.

(** [for tf in tfs: ...] *)
Fixpoint for_tf (rdb : ref) (tf_motif_dir : dict string string)
  (grn_dir : dict Py.value (list Py.value)) (total_name total_id : ref)
  (tfs : list Py.value) : M unit :=
  match tfs with
  | [] => ret tt
  | tf :: tfs' =>
      names <- load_names total_name ;;
      let current_len := List.length names in
      tf_name <- lookup (dict_get Py.eqb tf_id_dir tf) Py.KeyError ;;
      one_motif <- lookup (dict_get String.eqb tf_motif_dir tf_name) Py.KeyError ;;
      db <- load_rdb rdb ;;
      sorted_sub <- lift (sorted_columns db one_motif) ;;
      targets <- lookup (dict_get Py.eqb grn_dir tf) Py.KeyError ;;
      let top_num := List.length targets in
      extend_ids total_id targets ;;
      for_tg total_name (current_len + top_num) sorted_sub ;;
      for_tf rdb tf_motif_dir grn_dir total_name total_id tfs'
  end.

(** The target loop and the first frame, up to the rebinding of
    [total_name] and [total_id] to new lists (source lines 317-343). *)
Definition part_one (tfs : list Py.value) (rdb : ref)
  (tf_motif_dir : dict string string) (grn_gt lr_gt : ref)
  (total_name total_id : ref) : M (ref * ref) :=
  gt <- load_grn grn_gt ;;
  let grn_dir := get_dir S gt tfs in
  for_tf rdb tf_motif_dir grn_dir total_name total_id tfs ;;
  ids <- load_ids total_id ;;
  names <- load_names total_name ;;
  raw <- lift (DataFrame ids names) ;;
  let name_df1 := astype_str (drop_duplicates raw) in
  lr <- load_lr lr_gt ;;
  let name_df1 := drop_isin (iter_ids H (set_ids (map receptor lr))) name_df1 in
  total_name <- new_names (map snd name_df1) ;;
  total_id <- new_ids (map (fun r => Py.Str (fst r)) name_df1) ;;
  ret (total_name, total_id).

(** [rest_rdb_names], the pool of the noise names. *)
Definition rest_rdb_names (db : RankingDB) (names : list string) : list string :=
  let total_rdb_names := set_minus (set_names (columns db)) (Py.chars "motifs") in
  iter_names H (set_minus total_rdb_names (set_names names)).

(** The noise, ligand and receptor names and the final frame ("PART TWO",
    source lines 346-386), on the rebound [total_name] and [total_id]. *)
Definition part_two (rdb lr_gt : ref) (total_name total_id : ref)
  (noise_ids : list Py.value) : M Table :=
  db <- load_rdb rdb ;;
  names <- load_names total_name ;;
  noise_genes_names <- sample (rest_rdb_names db names) (List.length noise_ids) ;;
  extend_names total_name noise_genes_names ;;
  extend_ids total_id noise_ids ;;
  let ligand_names := set_names (map fst niche_mouse) in
  names <- load_names total_name ;;
  let rest_names := iter_names H (set_minus ligand_names (set_names names)) in
  lr <- load_lr lr_gt ;;
  let ligand_ids := iter_ids H (set_ids (map ligand lr)) in
  ligand_genes_names <- sample rest_names (List.length ligand_ids) ;;
  extend_names total_name ligand_genes_names ;;
  extend_ids total_id ligand_ids ;;
  let receptor_names := set_names (map snd niche_mouse) in
  names <- load_names total_name ;;
  let rest_names := iter_names H (set_minus receptor_names (set_names names)) in
  lr <- load_lr lr_gt ;;
  let receptor_ids := iter_ids H (set_ids (map receptor lr)) in
  receptor_names <- sample rest_names (List.length receptor_ids) ;;
  extend_names total_name receptor_names ;;
  extend_ids total_id receptor_ids ;;
  ids <- load_ids total_id ;;
  names <- load_names total_name ;;
  raw <- lift (DataFrame ids names) ;;
  let name_df := astype_str (drop_duplicates raw) in
  if no_duplicated name_df then ret name_df else raise Py.AssertionError.

Definition assign_gene_names_og (tfs : list Py.value) (rdb : ref)
  (tf_motif_dir : dict string string) (grn_gt lr_gt : ref)
  (total_name total_id : ref) (noise_ids : list Py.value) : M Table :=
  rebound <- part_one tfs rdb tf_motif_dir grn_gt lr_gt total_name total_id ;;
  part_two rdb lr_gt (fst rebound) (snd rebound) noise_ids.

End Assign.

(** ** The entry point of the script *)

(** The files the script reads. *)
Record Inputs : Type := mkInputs {
  counts_index : list string;           (* the index of counts_5types_100genes.csv *)
  GRN_parameter : list GrnRecord;       (* GRN_parameter.csv *)
  LR_parameter : list LrRecord;         (* LR_parameter_100.csv *)
  rankings : RankingDB;                 (* the feather ranking database *)
  lr_network_mouse : list (string * string)
}.

(** The files written, newest first. *)
Definition Files : Type := list (string * Table).

(** [name_df = call(...); name_df.to_csv('name_df.csv', index=False)]
    (source lines 445-446): the file is written when the call returns. *)
Definition save_name_df (call : M Table) (s : Store) (files : Files) : Files :=
  match call s with
  | (inr name_df, _) => ("name_df.csv", name_df) :: files
  | (inl _, _) => files
  end.

Definition tf_names : list string := ["Adf1"; "Aef1"; "grh"; "kn"; "tll"].

Definition motif_names : list string :=
  ["bergman__Adf1"; "bergman__Aef1"; "bergman__grh"; "metacluster_172.20";
   "metacluster_140.5"].

(** The script up to the file it writes (source lines 413-446); what follows
    in the source builds the annotated data and the plots from that file. *)
Definition script (S : Sorting) (H : Hashing) (inp : Inputs) (seed : list nat)
  (files : Files) : Files :=
  let grn_gt :=
    filter (fun r => negb (Py.eqb (regulator_gene r) (Py.Int 10))) (GRN_parameter inp) in
  let lr_gt := LR_parameter inp in
  let noise_ids :=
    map Py.Str (filter (fun i => Py.contains "gene" i) (counts_index inp)) in
  let tfs := iter_ids H (set_ids (map regulator_gene grn_gt)) in
  let rdb := rankings inp in
  let tf_motif_dir := dict_zip tf_names motif_names in
  let tf_id_dir := dict_zip tfs tf_names in
  let total_name := tf_names in
  let total_id := tfs in
  let s := mkStore [total_name] [total_id] [rdb] [grn_gt] [lr_gt] seed in
  save_name_df
    (assign_gene_names_og S H tf_id_dir (lr_network_mouse inp) tfs 0 tf_motif_dir
       0 0 0 0 noise_ids)
    s files.

(** * Properties *)

(** ** Python equality and membership *)

Lemma py_eqb_eq (a b : Py.value) : Py.eqb a b = true <-> a = b.
Proof.
  destruct a as [x|x], b as [y|y]; simpl; split; intro E; try discriminate.
  - apply Z.eqb_eq in E. now subst.
  - injection E as ->. apply Z.eqb_refl.
  - apply String.eqb_eq in E. now subst.
  - injection E as ->. apply String.eqb_refl.
Qed.

Lemma py_eqb_refl (a : Py.value) : Py.eqb a a = true.
Proof. now apply py_eqb_eq. Qed.

Lemma py_eqb_neq (a b : Py.value) : Py.eqb a b = false <-> a <> b.
Proof.
  split.
  - intros E Heq. apply py_eqb_eq in Heq. congruence.
  - intro N. destruct (Py.eqb a b) eqn:E; [|reflexivity].
    apply py_eqb_eq in E. contradiction.
Qed.

Lemma mem_In (x : Py.value) (l : list Py.value) : Py.mem x l = true <-> In x l.
Proof.
  unfold Py.mem. rewrite existsb_exists. split.
  - intros [y [Hy E]]. apply py_eqb_eq in E. now subst.
  - intro Hin. exists x. split; [assumption | apply py_eqb_refl].
Qed.

Lemma mem_not_In (x : Py.value) (l : list Py.value) : Py.mem x l = false <-> ~ In x l.
Proof.
  rewrite <- mem_In. destruct (Py.mem x l); split; congruence.
Qed.

Lemma mem_str_In (x : string) (l : list string) : Py.mem_str x l = true <-> In x l.
Proof.
  unfold Py.mem_str. rewrite existsb_exists. split.
  - intros [y [Hy E]]. apply String.eqb_eq in E. now subst.
  - intro Hin. exists x. split; [assumption | apply String.eqb_refl].
Qed.

Lemma mem_str_not_In (x : string) (l : list string) :
  Py.mem_str x l = false <-> ~ In x l.
Proof.
  rewrite <- mem_str_In. destruct (Py.mem_str x l); split; congruence.
Qed.

Lemma set_minus_In (a b : list string) (x : string) :
  In x (set_minus a b) <-> In x a /\ ~ In x b.
Proof.
  unfold set_minus. rewrite filter_In, negb_true_iff, mem_str_not_In. tauto.
Qed.

Lemma set_minus_NoDup (a b : list string) : NoDup a -> NoDup (set_minus a b).
Proof. apply NoDup_filter. Qed.

Lemma set_names_In (l : list string) (x : string) : In x (set_names l) <-> In x l.
Proof. apply nodup_In. Qed.

Lemma set_ids_In (l : list Py.value) (x : Py.value) : In x (set_ids l) <-> In x l.
Proof. apply nodup_In. Qed.

Lemma iter_names_In (H : Hashing) (l : list string) (x : string) :
  In x (iter_names H l) <-> In x l.
Proof.
  split; apply Permutation_in;
    [apply Permutation_sym |]; apply iter_names_perm.
Qed.

Lemma iter_ids_In (H : Hashing) (l : list Py.value) (x : Py.value) :
  In x (iter_ids H l) <-> In x l.
Proof.
  split; apply Permutation_in;
    [apply Permutation_sym |]; apply iter_ids_perm.
Qed.

(** ** Insertion sort *)

Section InsertionFacts.
Context {A : Type} (key : A -> Q) (before : Q -> Q -> bool).
Hypothesis before_le : forall a b, before a b = true -> Qle a b.
Hypothesis not_before_ge : forall a b, before a b = false -> Qle b a.

Let R (x y : A) : Prop := Qle (key x) (key y).

Lemma insert_by_perm (x : A) (l : list A) :
  Permutation (x :: l) (insert_by key before x l).
Proof.
  induction l as [|y l IH]; simpl.
  - apply Permutation_refl.
  - destruct (before (key x) (key y)).
    + apply Permutation_refl.
    + eapply perm_trans; [apply perm_swap | apply perm_skip, IH].
Qed.

Lemma insertion_sort_perm (l : list A) :
  Permutation l (insertion_sort key before l).
Proof.
  induction l as [|x l IH]; simpl.
  - apply perm_nil.
  - eapply perm_trans; [apply perm_skip, IH | apply insert_by_perm].
Qed.

Lemma insert_by_sorted (x : A) (l : list A) :
  StronglySorted R l -> StronglySorted R (insert_by key before x l).
Proof.
  induction l as [|y l IH]; simpl; intro Hs.
  - constructor; constructor.
  - inversion Hs as [|? ? Hl Hy]; subst.
    destruct (before (key x) (key y)) eqn:E.
    + constructor; [assumption|].
      constructor.
      * apply before_le, E.
      * rewrite Forall_forall in *. intros z Hz.
        unfold R. eapply Qle_trans; [apply before_le, E | apply Hy, Hz].
    + constructor; [apply IH, Hl|].
      rewrite Forall_forall in *. intros z Hz.
      apply Permutation_in with (l' := x :: l) in Hz;
        [| apply Permutation_sym, insert_by_perm].
      destruct Hz as [<- | Hz].
      * apply not_before_ge, E.
      * apply Hy, Hz.
Qed.

Lemma insertion_sort_sorted (l : list A) :
  StronglySorted R (insertion_sort key before l).
Proof.
  induction l as [|x l IH]; simpl.
  - constructor.
  - apply insert_by_sorted, IH.
Qed.
End InsertionFacts.

Lemma Qle_bool_false_ge (a b : Q) : Qle_bool a b = false -> Qle b a.
Proof.
  intro E. apply Qlt_le_weak, Qnot_le_lt. intro L.
  apply Qle_bool_iff in L. congruence.
Qed.

(** [x] goes before the first row whose key is strictly greater: rows of
    equal key end in the reverse of their input order. *)
Definition strictly_before (a b : Q) : bool := negb (Qle_bool b a).

Lemma strictly_before_le (a b : Q) : strictly_before a b = true -> Qle a b.
Proof.
  unfold strictly_before. rewrite negb_true_iff. apply Qle_bool_false_ge.
Qed.

Lemma not_strictly_before_ge (a b : Q) : strictly_before a b = false -> Qle b a.
Proof.
  unfold strictly_before. rewrite negb_false_iff. apply Qle_bool_iff.
Qed.

(** A stable sort, and a sort that is not. *)
Definition stable_sorting : Sorting :=
  mkSorting
    (fun A key => insertion_sort key Qle_bool)
    (fun A key => insertion_sort_perm key Qle_bool)
    (fun A key =>
       insertion_sort_sorted key Qle_bool
         (fun a b => proj1 (Qle_bool_iff a b)) Qle_bool_false_ge).

Definition unstable_sorting : Sorting :=
  mkSorting
    (fun A key => insertion_sort key strictly_before)
    (fun A key => insertion_sort_perm key strictly_before)
    (fun A key =>
       insertion_sort_sorted key strictly_before
         strictly_before_le not_strictly_before_ge).

(** Two iteration orders of sets. *)
Definition insertion_order : Hashing :=
  mkHashing (fun l => l) (fun l => Permutation_refl l)
            (fun l => l) (fun l => Permutation_refl l).

Definition reverse_order : Hashing :=
  mkHashing (@rev string) (@Permutation_rev string)
            (@rev Py.value) (@Permutation_rev Py.value).

(** ** [get_dir] *)

(** The rows of the ground truth whose regulator is [reg], in input order. *)
Definition records_of (gt : list GrnRecord) (reg : Py.value) : list GrnRecord :=
  filter (fun r => Py.eqb (regulator_gene r) reg) gt.

(** A sort is stable when it keeps the rows of any one key in their order. *)
Definition stable (S : Sorting) : Prop :=
  forall A (key : A -> Q) (l : list A) (v : Q),
    filter (fun x => Qeq_bool (key x) v) (argsort S A key l)
    = filter (fun x => Qeq_bool (key x) v) l.

Lemma StronglySorted_snoc {A : Type} (R : A -> A -> Prop) (l : list A) (x : A) :
  StronglySorted R l -> Forall (fun y => R y x) l -> StronglySorted R (l ++ [x]).
Proof.
  induction l as [|y l IH]; simpl; intros Hs Hf.
  - constructor; constructor.
  - inversion Hs as [|? ? Hl Hy]; subst.
    inversion Hf as [|? ? Hyx Hlx]; subst.
    constructor; [now apply IH|].
    apply Forall_app. split; [assumption | now constructor].
Qed.

Lemma StronglySorted_rev {A : Type} (R : A -> A -> Prop) (l : list A) :
  StronglySorted R l -> StronglySorted (fun x y => R y x) (rev l).
Proof.
  induction 1 as [|x l Hl IH Hx]; simpl.
  - constructor.
  - apply StronglySorted_snoc; [assumption|].
    apply Forall_rev. exact Hx.
Qed.

Lemma filter_rev {A : Type} (p : A -> bool) (l : list A) :
  filter p (rev l) = rev (filter p l).
Proof.
  induction l as [|x l IH]; simpl; [reflexivity|].
  rewrite filter_app, IH. simpl. destruct (p x); simpl.
  - reflexivity.
  - now rewrite app_nil_r.
Qed.

Lemma sort_values_descending_perm {A : Type} (S : Sorting) (key : A -> Q) (l : list A) :
  Permutation l (sort_values S key false l).
Proof.
  unfold sort_values.
  eapply perm_trans; [apply Permutation_rev|].
  eapply perm_trans; [apply argsort_perm|].
  apply Permutation_rev.
Qed.

Lemma sort_values_descending_sorted {A : Type} (S : Sorting) (key : A -> Q) (l : list A) :
  StronglySorted (fun x y => Qle (key y) (key x)) (sort_values S key false l).
Proof.
  unfold sort_values.
  apply (StronglySorted_rev (fun x y => Qle (key x) (key y))), argsort_sorted.
Qed.

Lemma sort_values_descending_stable {A : Type} (S : Sorting) (key : A -> Q) (l : list A) :
  stable S ->
  forall v, filter (fun x => Qeq_bool (key x) v) (sort_values S key false l)
            = filter (fun x => Qeq_bool (key x) v) l.
Proof.
  intros St v. unfold sort_values.
  now rewrite filter_rev, St, filter_rev, rev_involutive.
Qed.

Lemma sort_values_ascending_perm {A : Type} (S : Sorting) (key : A -> Q) (l : list A) :
  Permutation l (sort_values S key true l).
Proof. apply argsort_perm. Qed.

Lemma insert_by_stable {A : Type} (key : A -> Q) (v : Q) (x : A) (l : list A) :
  filter (fun z => Qeq_bool (key z) v) (insert_by key Qle_bool x l)
  = filter (fun z => Qeq_bool (key z) v) (x :: l).
Proof.
  induction l as [|y l IH]; [reflexivity|].
  simpl insert_by. destruct (Qle_bool (key x) (key y)) eqn:E; [reflexivity|].
  simpl in *. rewrite IH.
  destruct (Qeq_bool (key x) v) eqn:Ex; [|reflexivity].
  destruct (Qeq_bool (key y) v) eqn:Ey; [|reflexivity].
  exfalso. apply Qeq_bool_eq in Ex, Ey.
  assert (L : Qle (key x) (key y)).
  { rewrite Ex, Ey. apply Qle_refl. }
  apply Qle_bool_iff in L. congruence.
Qed.

Lemma stable_sorting_stable : stable stable_sorting.
Proof.
  intros A key l v. simpl.
  induction l as [|x l IH]; [reflexivity|].
  simpl insertion_sort. rewrite insert_by_stable. simpl. now rewrite IH.
Qed.

Lemma get_dir_fold_lookup (S : Sorting) (gt : list GrnRecord) (regulators : list Py.value)
  (acc : dict Py.value (list Py.value)) (reg : Py.value) :
  dict_get Py.eqb
    (fold_left
       (fun dir reg =>
          dict_set dir reg
            (map regulated_gene
               (sort_values S regulator_effect false
                  (filter (fun r => Py.eqb (regulator_gene r) reg) gt))))
       regulators acc) reg
  = if Py.mem reg regulators
    then Some (map regulated_gene
                 (sort_values S regulator_effect false (records_of gt reg)))
    else dict_get Py.eqb acc reg.
Proof.
  revert acc. induction regulators as [|r rs IH]; intro acc; simpl; [reflexivity|].
  rewrite IH. destruct (Py.mem reg rs) eqn:E.
  - now rewrite orb_true_r.
  - rewrite orb_false_r. unfold dict_set. simpl.
    rewrite (Bool.eq_true_iff_eq (Py.eqb r reg) (Py.eqb reg r)).
    + destruct (Py.eqb reg r) eqn:Er; [|reflexivity].
      apply py_eqb_eq in Er. now subst.
    + rewrite !py_eqb_eq. split; congruence.
Qed.

Lemma get_dir_lookup (S : Sorting) (gt : list GrnRecord) (regulators : list Py.value)
  (reg : Py.value) :
  dict_get Py.eqb (get_dir S gt regulators) reg
  = if Py.mem reg regulators
    then Some (map regulated_gene
                 (sort_values S regulator_effect false (records_of gt reg)))
    else None.
Proof. unfold get_dir. now rewrite get_dir_fold_lookup. Qed.

(** C4 (as amended): for every sort that pandas may run, [get_dir] maps each
    regulator of the list to the regulated genes of its rows, ordered by
    effect, largest first; rows of equal effect keep their input order
    whenever that sort is stable; a regulator without rows is mapped to the
    empty list. *)
Theorem get_dir_orders_by_effect (S : Sorting) (gt : list GrnRecord)
  (regulators : list Py.value) (reg : Py.value) :
  In reg regulators ->
  exists rows,
    dict_get Py.eqb (get_dir S gt regulators) reg = Some (map regulated_gene rows)
    /\ Permutation (records_of gt reg) rows
    /\ StronglySorted
         (fun a b => Qle (regulator_effect b) (regulator_effect a)) rows
    /\ (stable S ->
        forall v, filter (fun r => Qeq_bool (regulator_effect r) v) rows
                  = filter (fun r => Qeq_bool (regulator_effect r) v) (records_of gt reg))
    /\ ((forall r, In r gt -> regulator_gene r <> reg) -> rows = []).
Proof.
  intro Hin.
  exists (sort_values S regulator_effect false (records_of gt reg)).
  split; [|split; [|split; [|split]]].
  - rewrite get_dir_lookup. apply mem_In in Hin. now rewrite Hin.
  - apply sort_values_descending_perm.
  - apply sort_values_descending_sorted.
  - intro St. now apply sort_values_descending_stable.
  - intro Hno.
    assert (E : records_of gt reg = []).
    { unfold records_of. induction gt as [|r gt IH]; [reflexivity|]. simpl.
      destruct (Py.eqb (regulator_gene r) reg) eqn:Er.
      - apply py_eqb_eq in Er. exfalso. apply (Hno r); [now left | assumption].
      - apply IH. intros r' Hr'. apply Hno. now right. }
    apply Permutation_nil. rewrite <- E at 1. apply sort_values_descending_perm.
Qed.

Definition tied_gt : list GrnRecord :=
  [ mkGrn (Py.Int 1) (Py.Int 11) (1 # 2);
    mkGrn (Py.Int 1) (Py.Int 12) (1 # 2);
    mkGrn (Py.Int 1) (Py.Int 13) (9 # 10) ].

(** C4, at a ground truth of three rows of one regulator, two of them of
    equal effect, with the stable sort. *)
Lemma get_dir_orders_by_effect_witness :
  In (Py.Int 1) [Py.Int 1; Py.Int 2]
  /\ exists rows,
      dict_get Py.eqb (get_dir stable_sorting tied_gt [Py.Int 1; Py.Int 2]) (Py.Int 1)
      = Some (map regulated_gene rows)
      /\ Permutation (records_of tied_gt (Py.Int 1)) rows
      /\ StronglySorted
           (fun a b => Qle (regulator_effect b) (regulator_effect a)) rows
      /\ (stable stable_sorting ->
          forall v, filter (fun r => Qeq_bool (regulator_effect r) v) rows
                    = filter (fun r => Qeq_bool (regulator_effect r) v)
                        (records_of tied_gt (Py.Int 1)))
      /\ ((forall r, In r tied_gt -> regulator_gene r <> Py.Int 1) -> rows = []).
Proof.
  split; [simpl; now left|].
  apply (get_dir_orders_by_effect stable_sorting tied_gt [Py.Int 1; Py.Int 2] (Py.Int 1)).
  simpl. now left.
Defined.

(** C4, counterexample: two rows of one regulator have the same effect; with
    a sort that is not stable, the row that comes second in the input comes
    first in the result of [get_dir], where a stable sort keeps the input
    order. *)
Lemma get_dir_ties_not_in_input_order :
  dict_get Py.eqb (get_dir unstable_sorting tied_gt [Py.Int 1]) (Py.Int 1)
  = Some [Py.Int 13; Py.Int 12; Py.Int 11]
  /\ dict_get Py.eqb (get_dir stable_sorting tied_gt [Py.Int 1]) (Py.Int 1)
     = Some [Py.Int 13; Py.Int 11; Py.Int 12].
Proof. split; vm_compute; reflexivity. Qed.


(** ** The store *)

Lemma set_nth_length {A : Type} (n : nat) (x : A) (l : list A) :
  List.length (set_nth n x l) = List.length l.
Proof.
  revert n. induction l as [|y l IH]; intros [|n]; simpl; auto.
Qed.

Lemma set_nth_hit {A : Type} (n : nat) (x : A) (l : list A) :
  n < List.length l -> nth_error (set_nth n x l) n = Some x.
Proof.
  revert n. induction l as [|y l IH]; intros [|n] Hn; simpl in *; try lia.
  - reflexivity.
  - apply IH. lia.
Qed.

Lemma set_nth_miss {A : Type} (n m : nat) (x : A) (l : list A) :
  m <> n -> nth_error (set_nth n x l) m = nth_error l m.
Proof.
  revert n m. induction l as [|y l IH]; intros [|n] [|m] Hnm; simpl; auto.
  congruence.
Qed.

Lemma set_nth_twice {A : Type} (n : nat) (x y : A) (l : list A) :
  set_nth n y (set_nth n x l) = set_nth n y l.
Proof.
  revert n. induction l as [|z l IH]; intros [|n]; simpl; auto.
  now rewrite IH.
Qed.

Lemma set_nth_same {A : Type} (n : nat) (x : A) (l : list A) :
  nth_error l n = Some x -> set_nth n x l = l.
Proof.
  revert n. induction l as [|z l IH]; intros [|n] Hn; simpl in *; try discriminate.
  - congruence.
  - now rewrite IH.
Qed.

Lemma nth_error_in_range {A : Type} (n : nat) (x : A) (l : list A) :
  nth_error l n = Some x -> n < List.length l.
Proof. intro E. apply nth_error_Some. congruence. Qed.

Definition with_names (s : Store) (nl : list (list string)) : Store :=
  mkStore nl (id_lists s) (rdb_frames s) (grn_frames s) (lr_frames s) (random_state s).

Definition with_ids (s : Store) (il : list (list Py.value)) : Store :=
  mkStore (name_lists s) il (rdb_frames s) (grn_frames s) (lr_frames s) (random_state s).

Definition with_random (s : Store) (tape : list nat) : Store :=
  mkStore (name_lists s) (id_lists s) (rdb_frames s) (grn_frames s) (lr_frames s) tape.

Lemma with_names_same (s : Store) : with_names s (name_lists s) = s.
Proof. now destruct s. Qed.

Lemma with_ids_same (s : Store) : with_ids s (id_lists s) = s.
Proof. now destruct s. Qed.

Lemma with_random_same (s : Store) : with_random s (random_state s) = s.
Proof. now destruct s. Qed.

Lemma bind_returns {A B : Type} (m : M A) (k : A -> M B) (s s' : Store) (a : A) :
  m s = (inr a, s') -> bind m k s = k a s'.
Proof. intro E. unfold bind. now rewrite E. Qed.

Lemma bind_raises {A B : Type} (m : M A) (k : A -> M B) (s s' : Store) (e : Py.exn) :
  m s = (inl e, s') -> bind m k s = (inl e, s').
Proof. intro E. unfold bind. now rewrite E. Qed.

(** A computation that returns went through each of its two halves. *)
Lemma bind_inv {A B : Type} (m : M A) (k : A -> M B) (s s' : Store) (b : B) :
  bind m k s = (inr b, s') ->
  exists a s1, m s = (inr a, s1) /\ k a s1 = (inr b, s').
Proof.
  unfold bind. destruct (m s) as [[e|a] s1]; intro E; [discriminate|].
  now exists a, s1.
Qed.

Lemma load_names_eq (r : ref) (s : Store) (l : list string) :
  nth_error (name_lists s) r = Some l -> load_names r s = (inr l, s).
Proof. intro E. unfold load_names. now rewrite E. Qed.

Lemma load_ids_eq (r : ref) (s : Store) (l : list Py.value) :
  nth_error (id_lists s) r = Some l -> load_ids r s = (inr l, s).
Proof. intro E. unfold load_ids. now rewrite E. Qed.

Lemma load_rdb_eq (r : ref) (s : Store) (f : RankingDB) :
  nth_error (rdb_frames s) r = Some f -> load_rdb r s = (inr f, s).
Proof. intro E. unfold load_rdb. now rewrite E. Qed.

Lemma load_grn_eq (r : ref) (s : Store) (f : list GrnRecord) :
  nth_error (grn_frames s) r = Some f -> load_grn r s = (inr f, s).
Proof. intro E. unfold load_grn. now rewrite E. Qed.

Lemma load_lr_eq (r : ref) (s : Store) (f : list LrRecord) :
  nth_error (lr_frames s) r = Some f -> load_lr r s = (inr f, s).
Proof. intro E. unfold load_lr. now rewrite E. Qed.

Lemma load_names_inv (r : ref) (s s' : Store) (l : list string) :
  load_names r s = (inr l, s') -> nth_error (name_lists s) r = Some l /\ s' = s.
Proof.
  unfold load_names. destruct (nth_error (name_lists s) r); intro E; inversion E; auto.
Qed.

Lemma load_ids_inv (r : ref) (s s' : Store) (l : list Py.value) :
  load_ids r s = (inr l, s') -> nth_error (id_lists s) r = Some l /\ s' = s.
Proof.
  unfold load_ids. destruct (nth_error (id_lists s) r); intro E; inversion E; auto.
Qed.

Lemma load_rdb_inv (r : ref) (s s' : Store) (f : RankingDB) :
  load_rdb r s = (inr f, s') -> nth_error (rdb_frames s) r = Some f /\ s' = s.
Proof.
  unfold load_rdb. destruct (nth_error (rdb_frames s) r); intro E; inversion E; auto.
Qed.

Lemma load_grn_inv (r : ref) (s s' : Store) (f : list GrnRecord) :
  load_grn r s = (inr f, s') -> nth_error (grn_frames s) r = Some f /\ s' = s.
Proof.
  unfold load_grn. destruct (nth_error (grn_frames s) r); intro E; inversion E; auto.
Qed.

Lemma load_lr_inv (r : ref) (s s' : Store) (f : list LrRecord) :
  load_lr r s = (inr f, s') -> nth_error (lr_frames s) r = Some f /\ s' = s.
Proof.
  unfold load_lr. destruct (nth_error (lr_frames s) r); intro E; inversion E; auto.
Qed.

Lemma extend_names_eq (r : ref) (s : Store) (l xs : list string) :
  nth_error (name_lists s) r = Some l ->
  extend_names r xs s = (inr tt, with_names s (set_nth r (l ++ xs) (name_lists s))).
Proof.
  intro E. unfold extend_names. now rewrite (bind_returns _ _ _ _ _ (load_names_eq _ _ _ E)).
Qed.

Lemma append_name_eq (r : ref) (s : Store) (l : list string) (x : string) :
  nth_error (name_lists s) r = Some l ->
  append_name r x s = (inr tt, with_names s (set_nth r (l ++ [x]) (name_lists s))).
Proof.
  intro E. unfold append_name. now rewrite (bind_returns _ _ _ _ _ (load_names_eq _ _ _ E)).
Qed.

Lemma extend_ids_eq (r : ref) (s : Store) (l xs : list Py.value) :
  nth_error (id_lists s) r = Some l ->
  extend_ids r xs s = (inr tt, with_ids s (set_nth r (l ++ xs) (id_lists s))).
Proof.
  intro E. unfold extend_ids. now rewrite (bind_returns _ _ _ _ _ (load_ids_eq _ _ _ E)).
Qed.

(** *** What a computation leaves in place *)

(** [Shape s s']: the same objects exist in [s'] as in [s], and the
    dataframes are the same. *)
Record Shape (s s' : Store) : Prop := mkShape {
  shape_names : List.length (name_lists s') = List.length (name_lists s);
  shape_ids : List.length (id_lists s') = List.length (id_lists s);
  shape_rdb : rdb_frames s' = rdb_frames s;
  shape_grn : grn_frames s' = grn_frames s;
  shape_lr : lr_frames s' = lr_frames s
}.

(** [Frame tn ti s s']: from [s] to [s'] no list of [s] other than the list
    of names [tn] and the list of identifiers [ti] was changed, and no
    dataframe was. *)
Record Frame (tn ti : ref) (s s' : Store) : Prop := mkFrame {
  frame_names_le : List.length (name_lists s) <= List.length (name_lists s');
  frame_ids_le : List.length (id_lists s) <= List.length (id_lists s');
  frame_names : forall r, r <> tn -> r < List.length (name_lists s) ->
                          nth_error (name_lists s') r = nth_error (name_lists s) r;
  frame_ids : forall r, r <> ti -> r < List.length (id_lists s) ->
                        nth_error (id_lists s') r = nth_error (id_lists s) r;
  frame_rdb : rdb_frames s' = rdb_frames s;
  frame_grn : grn_frames s' = grn_frames s;
  frame_lr : lr_frames s' = lr_frames s
}.

Lemma Shape_refl (s : Store) : Shape s s.
Proof. now constructor. Qed.

Lemma Shape_trans (s1 s2 s3 : Store) : Shape s1 s2 -> Shape s2 s3 -> Shape s1 s3.
Proof. intros [] []. constructor; congruence. Qed.

Lemma Frame_refl (tn ti : ref) (s : Store) : Frame tn ti s s.
Proof. constructor; auto. Qed.

Lemma Frame_trans (tn ti : ref) (s1 s2 s3 : Store) :
  Frame tn ti s1 s2 -> Frame tn ti s2 s3 -> Frame tn ti s1 s3.
Proof.
  intros [a1 b1 c1 d1 e1 f1 g1] [a2 b2 c2 d2 e2 f2 g2].
  constructor; try congruence; try lia.
  - intros r Hr Hlt. rewrite c2, c1; auto. lia.
  - intros r Hr Hlt. rewrite d2, d1; auto. lia.
Qed.

Definition preserves {A : Type} (P : Store -> Store -> Prop) (m : M A) : Prop :=
  forall s, P s (snd (m s)).

Lemma preserves_bind {A B : Type} (P : Store -> Store -> Prop) (m : M A) (k : A -> M B) :
  (forall s1 s2 s3, P s1 s2 -> P s2 s3 -> P s1 s3) ->
  preserves P m -> (forall a, preserves P (k a)) -> preserves P (bind m k).
Proof.
  intros Tr Hm Hk s. unfold bind.
  specialize (Hm s). destruct (m s) as [[e|a] s1]; simpl in *; [assumption|].
  eapply Tr; [exact Hm | apply Hk].
Qed.

Lemma preserves_pure {A : Type} (P : Store -> Store -> Prop) (m : M A) :
  (forall s, P s s) -> (forall s, snd (m s) = s) -> preserves P m.
Proof. intros Rf E s. rewrite E. apply Rf. Qed.

Lemma store_names_shape (r : ref) (l : list string) : preserves Shape (store_names r l).
Proof. intro s. constructor; simpl; auto using set_nth_length. Qed.

Lemma store_ids_shape (r : ref) (l : list Py.value) : preserves Shape (store_ids r l).
Proof. intro s. constructor; simpl; auto using set_nth_length. Qed.

Lemma store_names_frame (tn ti : ref) (l : list string) :
  preserves (Frame tn ti) (store_names tn l).
Proof.
  intro s. constructor; simpl; auto; try (rewrite set_nth_length; lia).
  intros r Hr _. now apply set_nth_miss.
Qed.

Lemma store_ids_frame (tn ti : ref) (l : list Py.value) :
  preserves (Frame tn ti) (store_ids ti l).
Proof.
  intro s. constructor; simpl; auto; try (rewrite set_nth_length; lia).
  intros r Hr _. now apply set_nth_miss.
Qed.

Lemma randbelow_shape (n : nat) : preserves Shape (randbelow n).
Proof. intro s. unfold randbelow. destruct (random_state s); now constructor. Qed.

Lemma randbelow_frame (tn ti : ref) (n : nat) : preserves (Frame tn ti) (randbelow n).
Proof.
  intro s. unfold randbelow. destruct (random_state s); constructor; simpl; auto.
Qed.

Lemma load_names_pure (r : ref) (s : Store) : snd (load_names r s) = s.
Proof. reflexivity. Qed.

Lemma load_ids_pure (r : ref) (s : Store) : snd (load_ids r s) = s.
Proof. reflexivity. Qed.

Lemma lookup_pure {A : Type} (o : option A) (e : Py.exn) (s : Store) :
  snd (lookup o e s) = s.
Proof. now destruct o. Qed.

Ltac preserved :=
  repeat first
    [ apply preserves_bind; [first [exact Shape_trans | apply Frame_trans] | | intro]
    | apply store_names_shape | apply store_ids_shape
    | apply store_names_frame | apply store_ids_frame
    | apply randbelow_shape | apply randbelow_frame
    | apply preserves_pure;
      [first [exact Shape_refl | apply Frame_refl]
      | intro; first [reflexivity | apply lookup_pure]] ].

Lemma append_name_shape (r : ref) (x : string) : preserves Shape (append_name r x).
Proof. unfold append_name. preserved. Qed.

Lemma extend_names_shape (r : ref) (xs : list string) : preserves Shape (extend_names r xs).
Proof. unfold extend_names. preserved. Qed.

Lemma extend_ids_shape (r : ref) (xs : list Py.value) : preserves Shape (extend_ids r xs).
Proof. unfold extend_ids. preserved. Qed.

Lemma extend_names_frame (tn ti : ref) (xs : list string) :
  preserves (Frame tn ti) (extend_names tn xs).
Proof. unfold extend_names. preserved. Qed.

Lemma extend_ids_frame (tn ti : ref) (xs : list Py.value) :
  preserves (Frame tn ti) (extend_ids ti xs).
Proof. unfold extend_ids. preserved. Qed.

Lemma draw_shape {A : Type} (pool : list A) (k : nat) : preserves Shape (draw pool k).
Proof.
  revert pool. induction k as [|k IH]; intro pool; simpl; preserved.
  destruct (nth_error pool a); preserved. apply IH.
Qed.

Lemma draw_frame {A : Type} (tn ti : ref) (pool : list A) (k : nat) :
  preserves (Frame tn ti) (draw pool k).
Proof.
  revert pool. induction k as [|k IH]; intro pool; simpl; preserved.
  destruct (nth_error pool a); preserved. apply IH.
Qed.

Lemma sample_frame {A : Type} (tn ti : ref) (pool : list A) (k : nat) :
  preserves (Frame tn ti) (sample pool k).
Proof.
  unfold sample. destruct (Nat.ltb (List.length pool) k); [preserved | apply draw_frame].
Qed.

(** ** The target loop *)

(** The names in [total_name] when the loop over the candidate names ends. *)
Fixpoint claim (names : list string) (stop : nat) (cols : list string) : list string :=
  match cols with
  | [] => names
  | tg :: cols' =>
      let names' := if Py.mem_str tg names then names else names ++ [tg] in
      if Nat.eqb (List.length names') stop then names' else claim names' stop cols'
  end.

Lemma for_tg_run (tn : ref) (stop : nat) (cols : list string) :
  forall (s : Store) (names : list string),
    nth_error (name_lists s) tn = Some names ->
    for_tg tn stop cols s
    = (inr tt, with_names s (set_nth tn (claim names stop cols) (name_lists s))).
Proof.
  induction cols as [|tg cols IH]; intros s names Hn.
  - simpl. unfold ret. now rewrite (set_nth_same _ _ _ Hn), with_names_same.
  - cbn [for_tg claim].
    rewrite (bind_returns _ _ _ _ _ (load_names_eq _ _ _ Hn)).
    destruct (Py.mem_str tg names) eqn:Em.
    + rewrite (bind_returns _ _ s s tt eq_refl).
      rewrite (bind_returns _ _ _ _ _ (load_names_eq _ _ _ Hn)).
      destruct (Nat.eqb (List.length names) stop).
      * unfold ret. now rewrite (set_nth_same _ _ _ Hn), with_names_same.
      * now apply IH.
    + rewrite (bind_returns _ _ _ _ _ (append_name_eq _ _ _ tg Hn)).
      assert (Hn' : nth_error
                      (name_lists (with_names s (set_nth tn (names ++ [tg]) (name_lists s))))
                      tn = Some (names ++ [tg])).
      { simpl. apply set_nth_hit. eapply nth_error_in_range, Hn. }
      rewrite (bind_returns _ _ _ _ _ (load_names_eq _ _ _ Hn')).
      destruct (Nat.eqb (List.length (names ++ [tg])) stop); [reflexivity|].
      rewrite (IH _ _ Hn'). simpl. unfold with_names. simpl.
      now rewrite set_nth_twice.
Qed.

Lemma for_tg_shape (tn : ref) (stop : nat) (cols : list string) :
  preserves Shape (for_tg tn stop cols).
Proof.
  induction cols as [|tg cols IH]; cbn [for_tg]; preserved.
  - destruct (Py.mem_str tg a); [preserved | apply append_name_shape].
  - destruct (Nat.eqb (List.length a1) stop); [preserved | apply IH].
Qed.

Section TargetLoop.
Variable S : Sorting.
Variable tf_id_dir : dict Py.value string.

(** The contents of [total_name] and [total_id] when the loop over the TFs
    ends, or the exception it raises. *)
Fixpoint target_lists (db : RankingDB) (tf_motif_dir : dict string string)
  (grn_dir : dict Py.value (list Py.value)) (tfs : list Py.value)
  (names : list string) (ids : list Py.value)
  : Py.exn + (list string * list Py.value) :=
  match tfs with
  | [] => inr (names, ids)
  | tf :: tfs' =>
      match dict_get Py.eqb tf_id_dir tf with
      | None => inl Py.KeyError
      | Some tf_name =>
          match dict_get String.eqb tf_motif_dir tf_name with
          | None => inl Py.KeyError
          | Some one_motif =>
              match sorted_columns S db one_motif with
              | inl e => inl e
              | inr sorted_sub =>
                  match dict_get Py.eqb grn_dir tf with
                  | None => inl Py.KeyError
                  | Some targets =>
                      target_lists db tf_motif_dir grn_dir tfs'
                        (claim names (List.length names + List.length targets) sorted_sub)
                        (ids ++ targets)
                  end
              end
          end
      end
  end.

Lemma for_tf_run (rdb : ref) (db : RankingDB) (tf_motif_dir : dict string string)
  (grn_dir : dict Py.value (list Py.value)) (tn ti : ref) (tfs : list Py.value) :
  forall (s : Store) (names : list string) (ids : list Py.value),
    nth_error (name_lists s) tn = Some names ->
    nth_error (id_lists s) ti = Some ids ->
    (tfs <> [] -> nth_error (rdb_frames s) rdb = Some db) ->
    match target_lists db tf_motif_dir grn_dir tfs names ids with
    | inr (names', ids') =>
        for_tf S tf_id_dir rdb tf_motif_dir grn_dir tn ti tfs s
        = (inr tt, with_ids (with_names s (set_nth tn names' (name_lists s)))
                            (set_nth ti ids' (id_lists s)))
    | inl e =>
        fst (for_tf S tf_id_dir rdb tf_motif_dir grn_dir tn ti tfs s) = inl e
    end.
Proof.
  induction tfs as [|tf tfs IH]; intros s names ids Hn Hi Hdb.
  - simpl. unfold ret.
    rewrite (set_nth_same _ _ _ Hn), with_names_same.
    now rewrite (set_nth_same _ _ _ Hi), with_ids_same.
  - assert (Hdb' : nth_error (rdb_frames s) rdb = Some db) by (apply Hdb; discriminate).
    cbn [for_tf target_lists].
    rewrite (bind_returns _ _ _ _ _ (load_names_eq _ _ _ Hn)).
    destruct (dict_get Py.eqb tf_id_dir tf) as [tf_name|]; [|reflexivity].
    rewrite (bind_returns _ _ s s tf_name eq_refl).
    destruct (dict_get String.eqb tf_motif_dir tf_name) as [one_motif|]; [|reflexivity].
    rewrite (bind_returns _ _ s s one_motif eq_refl).
    rewrite (bind_returns _ _ _ _ _ (load_rdb_eq _ _ _ Hdb')).
    destruct (sorted_columns S db one_motif) as [e|sorted_sub] eqn:Ec.
    { unfold bind at 1. unfold lift. reflexivity. }
    rewrite (bind_returns _ _ s s sorted_sub eq_refl).
    destruct (dict_get Py.eqb grn_dir tf) as [targets|]; [|reflexivity].
    rewrite (bind_returns _ _ s s targets eq_refl).
    rewrite (bind_returns _ _ _ _ _ (extend_ids_eq _ _ _ targets Hi)).
    set (s1 := with_ids s (set_nth ti (ids ++ targets) (id_lists s))).
    assert (Hn1 : nth_error (name_lists s1) tn = Some names) by exact Hn.
    rewrite (bind_returns _ _ _ _ _
               (for_tg_run tn (List.length names + List.length targets) sorted_sub s1 names Hn1)).
    set (names1 := claim names (List.length names + List.length targets) sorted_sub).
    set (s2 := with_names s1 (set_nth tn names1 (name_lists s1))).
    assert (Hn2 : nth_error (name_lists s2) tn = Some names1).
    { simpl. apply set_nth_hit. eapply nth_error_in_range, Hn. }
    assert (Hi2 : nth_error (id_lists s2) ti = Some (ids ++ targets)).
    { simpl. apply set_nth_hit. eapply nth_error_in_range, Hi. }
    specialize (IH s2 names1 (ids ++ targets) Hn2 Hi2 (fun _ => Hdb')).
    destruct (target_lists db tf_motif_dir grn_dir tfs names1 (ids ++ targets))
      as [e|[names' ids']]; [exact IH|].
    rewrite IH. unfold with_ids, with_names. simpl.
    now rewrite !set_nth_twice.
Qed.

Lemma for_tf_shape (rdb : ref) (tf_motif_dir : dict string string)
  (grn_dir : dict Py.value (list Py.value)) (tn ti : ref) (tfs : list Py.value) :
  preserves Shape (for_tf S tf_id_dir rdb tf_motif_dir grn_dir tn ti tfs).
Proof.
  induction tfs as [|tf tfs IH]; cbn [for_tf]; preserved.
  - apply for_tg_shape.
  - apply IH.
Qed.

End TargetLoop.

(** ** Sampling on a tape *)

Definition next_below (tape : list nat) (n : nat) : nat * list nat :=
  match tape with
  | [] => (O, [])
  | r :: tape' => (Nat.modulo r n, tape')
  end.

Fixpoint draw_from {A : Type} (pool : list A) (k : nat) (tape : list nat)
  : list A * list nat :=
  match k with
  | O => ([], tape)
  | Datatypes.S k' =>
      let (j, tape1) := next_below tape (List.length pool) in
      match nth_error pool j with
      | None => ([], tape1)
      | Some x =>
          let (rest, tape2) := draw_from (remove_nth j pool) k' tape1 in
          (x :: rest, tape2)
      end
  end.

Definition sample_from {A : Type} (population : list A) (k : nat) (tape : list nat)
  : Py.exn + (list A * list nat) :=
  if Nat.ltb (List.length population) k then inl Py.ValueError
  else inr (draw_from population k tape).

Lemma randbelow_run (n : nat) (s : Store) :
  randbelow n s
  = (inr (fst (next_below (random_state s) n)),
     with_random s (snd (next_below (random_state s) n))).
Proof.
  unfold randbelow, next_below. destruct (random_state s) eqn:E; simpl.
  - now rewrite <- E, with_random_same.
  - reflexivity.
Qed.

Lemma draw_run {A : Type} (k : nat) :
  forall (pool : list A) (s : Store),
    draw pool k s
    = (inr (fst (draw_from pool k (random_state s))),
       with_random s (snd (draw_from pool k (random_state s)))).
Proof.
  induction k as [|k IH]; intros pool s.
  - simpl. unfold ret. now rewrite with_random_same.
  - cbn [draw draw_from].
    rewrite (bind_returns _ _ _ _ _ (randbelow_run (List.length pool) s)).
    destruct (next_below (random_state s) (List.length pool)) as [j tape1].
    cbn [fst snd].
    destruct (nth_error pool j) as [x|]; [|reflexivity].
    rewrite (bind_returns _ _ _ _ _ (IH (remove_nth j pool) (with_random s tape1))).
    simpl random_state.
    destruct (draw_from (remove_nth j pool) k tape1) as [rest tape2]. reflexivity.
Qed.

Lemma sample_run {A : Type} (pool : list A) (k : nat) (s : Store) :
  sample pool k s
  = match sample_from pool k (random_state s) with
    | inl e => (inl e, s)
    | inr (l, tape) => (inr l, with_random s tape)
    end.
Proof.
  unfold sample, sample_from. destruct (Nat.ltb (List.length pool) k); [reflexivity|].
  rewrite draw_run. now destruct (draw_from pool k (random_state s)).
Qed.

Lemma remove_nth_perm {A : Type} (j : nat) (x : A) (pool : list A) :
  nth_error pool j = Some x -> Permutation pool (x :: remove_nth j pool).
Proof.
  revert j. induction pool as [|y pool IH]; intros [|j] E; simpl in *; try discriminate.
  - injection E as ->. apply Permutation_refl.
  - eapply perm_trans; [apply perm_skip, IH, E | apply perm_swap].
Qed.

Lemma draw_from_incl {A : Type} (k : nat) :
  forall (pool : list A) (tape : list nat) (x : A),
    In x (fst (draw_from pool k tape)) -> In x pool.
Proof.
  induction k as [|k IH]; intros pool tape x; simpl; [tauto|].
  destruct (next_below tape (List.length pool)) as [j tape1].
  destruct (nth_error pool j) as [y|] eqn:E; simpl; [|tauto].
  destruct (draw_from (remove_nth j pool) k tape1) as [rest tape2] eqn:Ed. simpl.
  intros [<- | Hin].
  - eapply nth_error_In, E.
  - apply (Permutation_in x (Permutation_sym (remove_nth_perm j y pool E))).
    right. apply (IH _ tape1). now rewrite Ed.
Qed.

Lemma draw_from_NoDup {A : Type} (k : nat) :
  forall (pool : list A) (tape : list nat),
    NoDup pool -> NoDup (fst (draw_from pool k tape)).
Proof.
  induction k as [|k IH]; intros pool tape Hnd; simpl; [constructor|].
  destruct (next_below tape (List.length pool)) as [j tape1].
  destruct (nth_error pool j) as [y|] eqn:E; simpl; [|constructor].
  pose proof (Permutation_NoDup (remove_nth_perm j y pool E) Hnd) as Hnd'.
  inversion Hnd' as [|? ? Hy Hrest]; subst.
  specialize (IH (remove_nth j pool) tape1 Hrest).
  pose proof (draw_from_incl k (remove_nth j pool) tape1) as Hincl.
  destruct (draw_from (remove_nth j pool) k tape1) as [rest tape2]. simpl in *.
  constructor; [|assumption].
  intro Hin. apply Hy. now apply Hincl.
Qed.

Lemma next_below_lt (tape : list nat) (n : nat) :
  0 < n -> fst (next_below tape n) < n.
Proof.
  intro Hn. destruct tape; simpl; [assumption|].
  apply Nat.mod_upper_bound. lia.
Qed.

Lemma remove_nth_length {A : Type} (j : nat) (pool : list A) :
  j < List.length pool -> Datatypes.S (List.length (remove_nth j pool)) = List.length pool.
Proof.
  revert j. induction pool as [|y pool IH]; intros [|j] Hj; simpl in *; try lia.
  rewrite IH; lia.
Qed.

Lemma draw_from_length {A : Type} (k : nat) :
  forall (pool : list A) (tape : list nat),
    k <= List.length pool -> List.length (fst (draw_from pool k tape)) = k.
Proof.
  induction k as [|k IH]; intros pool tape Hk; simpl; [reflexivity|].
  pose proof (next_below_lt tape (List.length pool) ltac:(lia)) as Hj.
  destruct (next_below tape (List.length pool)) as [j tape1]. simpl in Hj.
  destruct (nth_error pool j) as [y|] eqn:E.
  - pose proof (remove_nth_length j pool Hj) as Hl.
    specialize (IH (remove_nth j pool) tape1 ltac:(lia)).
    destruct (draw_from (remove_nth j pool) k tape1) as [rest tape2]. simpl in *.
    now rewrite IH.
  - apply nth_error_None in E. lia.
Qed.

(** What [sample] returns: as many names as asked, all different when the
    population has no duplicate, all of the population. *)
Lemma sample_from_returns {A : Type} (pool : list A) (k : nat) (tape tape' : list nat)
  (l : list A) :
  sample_from pool k tape = inr (l, tape') ->
  List.length l = k /\ (forall x, In x l -> In x pool) /\ (NoDup pool -> NoDup l).
Proof.
  unfold sample_from. destruct (Nat.ltb (List.length pool) k) eqn:E; [discriminate|].
  apply Nat.ltb_ge in E. intro Hd. injection Hd as Hd.
  assert (El : l = fst (draw_from pool k tape)) by now rewrite Hd.
  subst l. split; [|split].
  - now apply draw_from_length.
  - apply draw_from_incl.
  - apply draw_from_NoDup.
Qed.

Lemma sample_from_raises {A : Type} (pool : list A) (k : nat) (tape : list nat) :
  List.length pool < k -> sample_from pool k tape = inl Py.ValueError.
Proof.
  intro Hlt. unfold sample_from. apply Nat.ltb_lt in Hlt. now rewrite Hlt.
Qed.

(** ** The two parts on the contents of the lists *)

Section Tables.
Variable S : Sorting.
Variable H : Hashing.
Variable tf_id_dir : dict Py.value string.
Variable niche_mouse : list (string * string).

(** [name_df1] after the removal of the receptors. *)
Definition name_df1_of (lr : list LrRecord) (names1 : list string)
  (ids1 : list Py.value) : Py.exn + Table :=
  match DataFrame ids1 names1 with
  | inl e => inl e
  | inr raw =>
      inr (drop_isin (iter_ids H (set_ids (map receptor lr)))
             (astype_str (drop_duplicates raw)))
  end.

Definition part_one_table (db : RankingDB) (gt : list GrnRecord) (lr : list LrRecord)
  (tfs : list Py.value) (tf_motif_dir : dict string string)
  (names0 : list string) (ids0 : list Py.value) : Py.exn + Table :=
  match target_lists S tf_id_dir db tf_motif_dir (get_dir S gt tfs) tfs names0 ids0 with
  | inl e => inl e
  | inr (names1, ids1) => name_df1_of lr names1 ids1
  end.

(** The last frame and its assertion. *)
Definition final_table (ids : list Py.value) (names : list string) : Py.exn + Table :=
  match DataFrame ids names with
  | inl e => inl e
  | inr raw =>
      if no_duplicated (astype_str (drop_duplicates raw))
      then inr (astype_str (drop_duplicates raw))
      else inl Py.AssertionError
  end.

Definition ligand_pool (names : list string) : list string :=
  iter_names H (set_minus (set_names (map fst niche_mouse)) (set_names names)).

Definition receptor_pool (names : list string) : list string :=
  iter_names H (set_minus (set_names (map snd niche_mouse)) (set_names names)).

Definition ligand_ids_of (lr : list LrRecord) : list Py.value :=
  iter_ids H (set_ids (map ligand lr)).

Definition receptor_ids_of (lr : list LrRecord) : list Py.value :=
  iter_ids H (set_ids (map receptor lr)).

Definition part_two_table (db : RankingDB) (lr : list LrRecord)
  (names2 : list string) (ids2 : list Py.value) (noise_ids : list Py.value)
  (tape : list nat) : Py.exn + Table :=
  match sample_from (rest_rdb_names H db names2) (List.length noise_ids) tape with
  | inl e => inl e
  | inr (noise_genes_names, tape1) =>
      let names3 := names2 ++ noise_genes_names in
      match sample_from (ligand_pool names3) (List.length (ligand_ids_of lr)) tape1 with
      | inl e => inl e
      | inr (ligand_genes_names, tape2) =>
          let names4 := names3 ++ ligand_genes_names in
          match sample_from (receptor_pool names4)
                  (List.length (receptor_ids_of lr)) tape2 with
          | inl e => inl e
          | inr (receptor_names, tape3) =>
              final_table
                (((ids2 ++ noise_ids) ++ ligand_ids_of lr) ++ receptor_ids_of lr)
                (names4 ++ receptor_names)
          end
      end
  end.

Definition assign_table (db : RankingDB) (gt : list GrnRecord) (lr : list LrRecord)
  (tfs : list Py.value) (tf_motif_dir : dict string string)
  (names0 : list string) (ids0 : list Py.value) (noise_ids : list Py.value)
  (tape : list nat) : Py.exn + Table :=
  match part_one_table db gt lr tfs tf_motif_dir names0 ids0 with
  | inl e => inl e
  | inr name_df1 =>
      part_two_table db lr (map snd name_df1)
        (map (fun r => Py.Str (fst r)) name_df1) noise_ids tape
  end.

(** The store that [part_one] leaves when it returns: the two lists of the
    caller hold what the loop made of them, and two lists are new. *)
Definition store_after_part_one (s : Store) (tn ti : ref) (names1 : list string)
  (ids1 : list Py.value) (name_df1 : Table) : Store :=
  mkStore (set_nth tn names1 (name_lists s) ++ [map snd name_df1])
          (set_nth ti ids1 (id_lists s) ++ [map (fun r => Py.Str (fst r)) name_df1])
          (rdb_frames s) (grn_frames s) (lr_frames s) (random_state s).

Lemma part_one_run (tfs : list Py.value) (rdb : ref) (tf_motif_dir : dict string string)
  (grn_gt lr_gt tn ti : ref) (s : Store) (db : RankingDB) (gt : list GrnRecord)
  (lr : list LrRecord) (names0 : list string) (ids0 : list Py.value) :
  nth_error (grn_frames s) grn_gt = Some gt ->
  nth_error (lr_frames s) lr_gt = Some lr ->
  nth_error (name_lists s) tn = Some names0 ->
  nth_error (id_lists s) ti = Some ids0 ->
  (tfs <> [] -> nth_error (rdb_frames s) rdb = Some db) ->
  match target_lists S tf_id_dir db tf_motif_dir (get_dir S gt tfs) tfs names0 ids0 with
  | inl e =>
      fst (part_one S H tf_id_dir tfs rdb tf_motif_dir grn_gt lr_gt tn ti s) = inl e
  | inr (names1, ids1) =>
      match name_df1_of lr names1 ids1 with
      | inl e =>
          fst (part_one S H tf_id_dir tfs rdb tf_motif_dir grn_gt lr_gt tn ti s) = inl e
      | inr name_df1 =>
          part_one S H tf_id_dir tfs rdb tf_motif_dir grn_gt lr_gt tn ti s
          = (inr (List.length (name_lists s), List.length (id_lists s)),
             store_after_part_one s tn ti names1 ids1 name_df1)
      end
  end.
Proof.
  intros Hgt Hlr Hn Hi Hdb. unfold part_one.
  rewrite (bind_returns _ _ _ _ _ (load_grn_eq _ _ _ Hgt)).
  pose proof (for_tf_run S tf_id_dir rdb db tf_motif_dir (get_dir S gt tfs) tn ti tfs
                s names0 ids0 Hn Hi Hdb) as Hloop.
  destruct (target_lists S tf_id_dir db tf_motif_dir (get_dir S gt tfs) tfs names0 ids0)
    as [e|[names1 ids1]].
  - unfold bind at 1.
    destruct (for_tf S tf_id_dir rdb tf_motif_dir (get_dir S gt tfs) tn ti tfs s)
      as [[e'|[]] s1]; simpl in Hloop; [simpl; congruence | discriminate].
  - rewrite (bind_returns _ _ _ _ _ Hloop).
    set (s1 := with_ids (with_names s (set_nth tn names1 (name_lists s)))
                        (set_nth ti ids1 (id_lists s))).
    assert (Hi1 : nth_error (id_lists s1) ti = Some ids1).
    { simpl. apply set_nth_hit. eapply nth_error_in_range, Hi. }
    assert (Hn1 : nth_error (name_lists s1) tn = Some names1).
    { simpl. apply set_nth_hit. eapply nth_error_in_range, Hn. }
    rewrite (bind_returns _ _ _ _ _ (load_ids_eq _ _ _ Hi1)).
    rewrite (bind_returns _ _ _ _ _ (load_names_eq _ _ _ Hn1)).
    unfold name_df1_of.
    destruct (DataFrame ids1 names1) as [e|raw]; [reflexivity|].
    rewrite (bind_returns _ _ s1 s1 raw eq_refl).
    assert (Hlr1 : nth_error (lr_frames s1) lr_gt = Some lr) by exact Hlr.
    rewrite (bind_returns _ _ _ _ _ (load_lr_eq _ _ _ Hlr1)).
    unfold bind, new_names, new_ids, ret, store_after_part_one. simpl.
    now rewrite !set_nth_length.
Qed.

Lemma part_two_run (rdb lr_gt tn ti : ref) (noise_ids : list Py.value) (s : Store)
  (db : RankingDB) (lr : list LrRecord) (names2 : list string) (ids2 : list Py.value) :
  nth_error (rdb_frames s) rdb = Some db ->
  nth_error (lr_frames s) lr_gt = Some lr ->
  nth_error (name_lists s) tn = Some names2 ->
  nth_error (id_lists s) ti = Some ids2 ->
  fst (part_two H niche_mouse rdb lr_gt tn ti noise_ids s)
  = part_two_table db lr names2 ids2 noise_ids (random_state s).
Proof.
  intros Hdb Hlr Hn Hi. unfold part_two, part_two_table.
  pose proof (nth_error_in_range _ _ _ Hn) as Rn.
  pose proof (nth_error_in_range _ _ _ Hi) as Ri.
  rewrite (bind_returns _ _ _ _ _ (load_rdb_eq _ _ _ Hdb)).
  rewrite (bind_returns _ _ _ _ _ (load_names_eq _ _ _ Hn)).
  unfold bind at 1. rewrite sample_run.
  destruct (sample_from (rest_rdb_names H db names2) (List.length noise_ids)
              (random_state s)) as [e|[noise_genes_names tape1]]; [reflexivity|].
  set (s1 := with_random s tape1).
  assert (Hn1 : nth_error (name_lists s1) tn = Some names2) by exact Hn.
  rewrite (bind_returns _ _ _ _ _ (extend_names_eq _ _ _ noise_genes_names Hn1)).
  set (s2 := with_names s1 _).
  assert (Hi2 : nth_error (id_lists s2) ti = Some ids2) by exact Hi.
  rewrite (bind_returns _ _ _ _ _ (extend_ids_eq _ _ _ noise_ids Hi2)).
  set (s3 := with_ids s2 _).
  assert (Hn3 : nth_error (name_lists s3) tn = Some (names2 ++ noise_genes_names)).
  { simpl. now apply set_nth_hit. }
  assert (Hi3 : nth_error (id_lists s3) ti = Some (ids2 ++ noise_ids)).
  { simpl. now apply set_nth_hit. }
  assert (Hlr3 : nth_error (lr_frames s3) lr_gt = Some lr) by exact Hlr.
  rewrite (bind_returns _ _ _ _ _ (load_names_eq _ _ _ Hn3)).
  rewrite (bind_returns _ _ _ _ _ (load_lr_eq _ _ _ Hlr3)).
  unfold bind at 1. rewrite sample_run. fold (ligand_pool (names2 ++ noise_genes_names)).
  fold (ligand_ids_of lr). change (random_state s3) with tape1.
  destruct (sample_from (ligand_pool (names2 ++ noise_genes_names))
              (List.length (ligand_ids_of lr)) tape1)
    as [e|[ligand_genes_names tape2]]; [reflexivity|].
  set (s4 := with_random s3 tape2).
  assert (Hn4 : nth_error (name_lists s4) tn = Some (names2 ++ noise_genes_names))
    by exact Hn3.
  rewrite (bind_returns _ _ _ _ _ (extend_names_eq _ _ _ ligand_genes_names Hn4)).
  set (s5 := with_names s4 _).
  assert (Hi5 : nth_error (id_lists s5) ti = Some (ids2 ++ noise_ids)) by exact Hi3.
  rewrite (bind_returns _ _ _ _ _ (extend_ids_eq _ _ _ (ligand_ids_of lr) Hi5)).
  set (s6 := with_ids s5 _).
  assert (Hn6 : nth_error (name_lists s6) tn
                = Some ((names2 ++ noise_genes_names) ++ ligand_genes_names)).
  { simpl. rewrite set_nth_twice. now apply set_nth_hit. }
  assert (Hi6 : nth_error (id_lists s6) ti
                = Some ((ids2 ++ noise_ids) ++ ligand_ids_of lr)).
  { simpl. rewrite set_nth_twice. now apply set_nth_hit. }
  assert (Hlr6 : nth_error (lr_frames s6) lr_gt = Some lr) by exact Hlr.
  rewrite (bind_returns _ _ _ _ _ (load_names_eq _ _ _ Hn6)).
  rewrite (bind_returns _ _ _ _ _ (load_lr_eq _ _ _ Hlr6)).
  unfold bind at 1. rewrite sample_run.
  fold (receptor_pool ((names2 ++ noise_genes_names) ++ ligand_genes_names)).
  fold (receptor_ids_of lr). change (random_state s6) with tape2.
  destruct (sample_from (receptor_pool ((names2 ++ noise_genes_names) ++ ligand_genes_names))
              (List.length (receptor_ids_of lr)) tape2)
    as [e|[receptor_names tape3]]; [reflexivity|].
  set (s7 := with_random s6 tape3).
  assert (Hn7 : nth_error (name_lists s7) tn
                = Some ((names2 ++ noise_genes_names) ++ ligand_genes_names)) by exact Hn6.
  rewrite (bind_returns _ _ _ _ _ (extend_names_eq _ _ _ receptor_names Hn7)).
  set (s8 := with_names s7 _).
  assert (Hi8 : nth_error (id_lists s8) ti
                = Some ((ids2 ++ noise_ids) ++ ligand_ids_of lr)) by exact Hi6.
  rewrite (bind_returns _ _ _ _ _ (extend_ids_eq _ _ _ (receptor_ids_of lr) Hi8)).
  set (s9 := with_ids s8 _).
  assert (Hn9 : nth_error (name_lists s9) tn
                = Some (((names2 ++ noise_genes_names) ++ ligand_genes_names)
                          ++ receptor_names)).
  { simpl. rewrite !set_nth_twice. now apply set_nth_hit. }
  assert (Hi9 : nth_error (id_lists s9) ti
                = Some (((ids2 ++ noise_ids) ++ ligand_ids_of lr) ++ receptor_ids_of lr)).
  { simpl. rewrite !set_nth_twice. now apply set_nth_hit. }
  rewrite (bind_returns _ _ _ _ _ (load_ids_eq _ _ _ Hi9)).
  rewrite (bind_returns _ _ _ _ _ (load_names_eq _ _ _ Hn9)).
  unfold final_table.
  destruct (DataFrame _ _) as [e|raw]; [reflexivity|].
  rewrite (bind_returns _ _ s9 s9 raw eq_refl).
  now destruct (no_duplicated (astype_str (drop_duplicates raw))).
Qed.

Lemma part_two_frame (rdb lr_gt tn ti : ref) (noise_ids : list Py.value) :
  preserves (Frame tn ti) (part_two H niche_mouse rdb lr_gt tn ti noise_ids).
Proof.
  unfold part_two. preserved; try apply sample_frame.
  destruct (no_duplicated _); preserved.
Qed.

End Tables.

(** ** The whole call *)

Lemma new_names_frame (tn ti : ref) (l : list string) :
  preserves (Frame tn ti) (new_names l).
Proof.
  intro s. constructor; simpl; auto.
  - rewrite length_app. lia.
  - intros r _ Hr. now apply nth_error_app1.
Qed.

Lemma new_ids_frame (tn ti : ref) (l : list Py.value) :
  preserves (Frame tn ti) (new_ids l).
Proof.
  intro s. constructor; simpl; auto.
  - rewrite length_app. lia.
  - intros r _ Hr. now apply nth_error_app1.
Qed.

Lemma Shape_Frame (tn ti : ref) (s s' : Store) :
  Shape s s' ->
  (forall r, r <> tn -> nth_error (name_lists s') r = nth_error (name_lists s) r) ->
  (forall r, r <> ti -> nth_error (id_lists s') r = nth_error (id_lists s) r) ->
  Frame tn ti s s'.
Proof.
  intros [a b c d e] Hn Hi. constructor; auto; lia.
Qed.

Lemma for_tg_frame (tn ti : ref) (stop : nat) (cols : list string) :
  preserves (Frame tn ti) (for_tg tn stop cols).
Proof.
  induction cols as [|tg cols IH]; cbn [for_tg]; preserved.
  - destruct (Py.mem_str tg a); preserved.
  - destruct (Nat.eqb (List.length a1) stop); [preserved | apply IH].
Qed.

Lemma for_tf_frame (S : Sorting) (tf_id_dir : dict Py.value string) (rdb : ref)
  (tf_motif_dir : dict string string) (grn_dir : dict Py.value (list Py.value))
  (tn ti : ref) (tfs : list Py.value) :
  preserves (Frame tn ti) (for_tf S tf_id_dir rdb tf_motif_dir grn_dir tn ti tfs).
Proof.
  induction tfs as [|tf tfs IH]; cbn [for_tf]; preserved.
  - apply for_tg_frame.
  - apply IH.
Qed.

Lemma part_one_frame (S : Sorting) (H : Hashing) (tf_id_dir : dict Py.value string)
  (tfs : list Py.value) (rdb : ref) (tf_motif_dir : dict string string)
  (grn_gt lr_gt tn ti : ref) :
  preserves (Frame tn ti) (part_one S H tf_id_dir tfs rdb tf_motif_dir grn_gt lr_gt tn ti).
Proof.
  unfold part_one. preserved.
  - apply for_tf_frame.
  - apply new_names_frame.
  - apply new_ids_frame.
Qed.

Section Call.
Variable S : Sorting.
Variable H : Hashing.
Variable tf_id_dir : dict Py.value string.
Variable niche_mouse : list (string * string).
Variables (tfs : list Py.value) (rdb : ref) (tf_motif_dir : dict string string).
Variables (grn_gt lr_gt total_name total_id : ref) (noise_ids : list Py.value).

Let call : M Table :=
  assign_gene_names_og S H tf_id_dir niche_mouse tfs rdb tf_motif_dir grn_gt lr_gt
    total_name total_id noise_ids.

(** The objects a call works on. *)
Record Objects (s : Store) (db : RankingDB) (gt : list GrnRecord) (lr : list LrRecord)
  (names0 : list string) (ids0 : list Py.value) : Prop := mkObjects {
  obj_rdb : nth_error (rdb_frames s) rdb = Some db;
  obj_grn : nth_error (grn_frames s) grn_gt = Some gt;
  obj_lr : nth_error (lr_frames s) lr_gt = Some lr;
  obj_names : nth_error (name_lists s) total_name = Some names0;
  obj_ids : nth_error (id_lists s) total_id = Some ids0
}.

Lemma nth_error_new {A : Type} (l : list A) (x : A) (n : nat) :
  n = List.length l -> nth_error (l ++ [x]) n = Some x.
Proof.
  intros ->. rewrite nth_error_app2 by lia. now rewrite Nat.sub_diag.
Qed.

(** The outcome of a call is the table computed on the contents of its
    objects and on the tape. *)
Lemma assign_run (s : Store) db gt lr names0 ids0 :
  Objects s db gt lr names0 ids0 ->
  fst (call s)
  = assign_table S H tf_id_dir niche_mouse db gt lr tfs tf_motif_dir names0 ids0
      noise_ids (random_state s).
Proof.
  intros [Hdb Hgt Hlr Hn Hi]. unfold call, assign_gene_names_og, assign_table, part_one_table.
  pose proof (part_one_run S H tf_id_dir tfs rdb tf_motif_dir grn_gt lr_gt total_name
                total_id s db gt lr names0 ids0 Hgt Hlr Hn Hi (fun _ => Hdb)) as Hp.
  destruct (target_lists S tf_id_dir db tf_motif_dir (get_dir S gt tfs) tfs names0 ids0)
    as [e|[names1 ids1]].
  - unfold bind.
    destruct (part_one S H tf_id_dir tfs rdb tf_motif_dir grn_gt lr_gt total_name total_id s)
      as [[e'|r] s1]; simpl in *; congruence.
  - destruct (name_df1_of H lr names1 ids1) as [e|name_df1].
    + unfold bind.
      destruct (part_one S H tf_id_dir tfs rdb tf_motif_dir grn_gt lr_gt total_name total_id s)
        as [[e'|r] s1]; simpl in *; congruence.
    + rewrite (bind_returns _ _ _ _ _ Hp). cbn [fst snd].
      rewrite (part_two_run H niche_mouse rdb lr_gt _ _ noise_ids _ db lr
                 (map snd name_df1) (map (fun r => Py.Str (fst r)) name_df1)).
      * reflexivity.
      * exact Hdb.
      * exact Hlr.
      * simpl. apply nth_error_new. now rewrite set_nth_length.
      * simpl. apply nth_error_new. now rewrite set_nth_length.
Qed.

(** A call that returns had its five objects in the store; it returns the
    table computed on their contents, and leaves the lists of the caller as
    the target loop made them. *)
Lemma assign_returns (s s' : Store) (name_df : Table) :
  call s = (inr name_df, s') ->
  exists db gt lr names0 ids0 names1 ids1 name_df1,
    Objects s db gt lr names0 ids0
    /\ target_lists S tf_id_dir db tf_motif_dir (get_dir S gt tfs) tfs names0 ids0
       = inr (names1, ids1)
    /\ name_df1_of H lr names1 ids1 = inr name_df1
    /\ part_two_table H niche_mouse db lr (map snd name_df1)
         (map (fun r => Py.Str (fst r)) name_df1) noise_ids (random_state s)
       = inr name_df
    /\ Frame (List.length (name_lists s)) (List.length (id_lists s))
         (store_after_part_one s total_name total_id names1 ids1 name_df1) s'.
Proof.
  intro Hcall. unfold call, assign_gene_names_og in Hcall.
  apply bind_inv in Hcall. destruct Hcall as [rebound [s1 [Hone Htwo]]].
  pose proof (part_one_frame S H tf_id_dir tfs rdb tf_motif_dir grn_gt lr_gt
                total_name total_id s) as F1.
  rewrite Hone in F1. simpl in F1.
  (* the objects of part one *)
  pose proof Hone as Hone'. unfold part_one in Hone'.
  apply bind_inv in Hone'. destruct Hone' as [gt [sa [Hgt Hk]]].
  apply load_grn_inv in Hgt. destruct Hgt as [Hgt ->].
  apply bind_inv in Hk. destruct Hk as [[] [sb [Hloop Hk]]].
  pose proof (for_tf_shape S tf_id_dir rdb tf_motif_dir (get_dir S gt tfs)
                total_name total_id tfs s) as Sh.
  rewrite Hloop in Sh. simpl in Sh. destruct Sh as [Shn Shi _ _ Shlr].
  apply bind_inv in Hk. destruct Hk as [ids1' [sc [Hi Hk]]].
  apply load_ids_inv in Hi. destruct Hi as [Hi ->].
  apply bind_inv in Hk. destruct Hk as [names1' [sc [Hn Hk]]].
  apply load_names_inv in Hn. destruct Hn as [Hn ->].
  apply bind_inv in Hk. destruct Hk as [raw [sc [Hraw Hk]]].
  assert (sc = sb) as -> by (unfold lift in Hraw; congruence).
  apply bind_inv in Hk. destruct Hk as [lr [sd [Hlr _]]].
  apply load_lr_inv in Hlr. destruct Hlr as [Hlr _]. rewrite Shlr in Hlr.
  apply nth_error_in_range in Hi. rewrite Shi in Hi.
  apply nth_error_in_range in Hn. rewrite Shn in Hn.
  destruct (nth_error (id_lists s) total_id) as [ids0|] eqn:Ei;
    [|apply nth_error_None in Ei; lia].
  destruct (nth_error (name_lists s) total_name) as [names0|] eqn:En;
    [|apply nth_error_None in En; lia].
  (* the ranking database is read by part two *)
  pose proof Htwo as Htwo'. unfold part_two in Htwo'.
  apply bind_inv in Htwo'. destruct Htwo' as [db [se [Hdb _]]].
  apply load_rdb_inv in Hdb. destruct Hdb as [Hdb _].
  rewrite (frame_rdb _ _ _ _ F1) in Hdb.
  exists db, gt, lr, names0, ids0.
  pose proof (part_one_run S H tf_id_dir tfs rdb tf_motif_dir grn_gt lr_gt total_name
                total_id s db gt lr names0 ids0 Hgt Hlr En Ei (fun _ => Hdb)) as Hp.
  destruct (target_lists S tf_id_dir db tf_motif_dir (get_dir S gt tfs) tfs names0 ids0)
    as [e|[names1 ids1]] eqn:Et; [rewrite Hone in Hp; discriminate|].
  destruct (name_df1_of H lr names1 ids1) as [e|name_df1] eqn:Ed;
    [rewrite Hone in Hp; discriminate|].
  rewrite Hone in Hp. injection Hp as -> ->.
  exists names1, ids1, name_df1.
  split; [now constructor|]. split; [reflexivity|]. split; [exact Ed|].
  cbn [fst snd] in Htwo.
  split.
  - pose proof (part_two_run H niche_mouse rdb lr_gt (List.length (name_lists s))
                  (List.length (id_lists s)) noise_ids
                  (store_after_part_one s total_name total_id names1 ids1 name_df1)
                  db lr (map snd name_df1) (map (fun r => Py.Str (fst r)) name_df1)) as Hr.
    rewrite Htwo in Hr. simpl in Hr. symmetry. apply Hr.
    + exact Hdb.
    + exact Hlr.
    + apply nth_error_new. now rewrite set_nth_length.
    + apply nth_error_new. now rewrite set_nth_length.
  - pose proof (part_two_frame H niche_mouse rdb lr_gt (List.length (name_lists s))
                  (List.length (id_lists s)) noise_ids
                  (store_after_part_one s total_name total_id names1 ids1 name_df1)) as F2.
    rewrite Htwo in F2. exact F2.
Qed.

End Call.

(** ** The names the target loop claims *)

Lemma claim_appends (cols : list string) :
  forall (names : list string) (stop : nat),
  exists added,
    claim names stop cols = names ++ added
    /\ NoDup added
    /\ (forall x, In x added -> In x cols /\ ~ In x names).
Proof.
  induction cols as [|tg cols IH]; intros names stop; cbn [claim].
  - exists []. rewrite app_nil_r. split; [reflexivity|]. split; [constructor | intros x []].
  - destruct (Py.mem_str tg names) eqn:Em.
    + destruct (Nat.eqb (List.length names) stop).
      * exists []. rewrite app_nil_r.
        split; [reflexivity|]. split; [constructor | intros x []].
      * destruct (IH names stop) as [added [E [Hnd Hin]]].
        exists added. split; [assumption|]. split; [assumption|].
        intros x Hx. destruct (Hin x Hx). split; [now right | assumption].
    + apply mem_str_not_In in Em.
      destruct (Nat.eqb (List.length (names ++ [tg])) stop).
      * exists [tg]. split; [reflexivity|]. split.
        -- constructor; [intros [] | constructor].
        -- intros x [<- | []]. split; [now left | assumption].
      * destruct (IH (names ++ [tg]) stop) as [added [E [Hnd Hin]]].
        exists (tg :: added). split; [now rewrite E, <- app_assoc|]. split.
        -- constructor; [|assumption].
           intro Hx. destruct (Hin tg Hx) as [_ Hn]. apply Hn, in_or_app. right. now left.
        -- intros x [<- | Hx]; [split; [now left | assumption]|].
           destruct (Hin x Hx) as [Hc Hn]. split; [now right|].
           intro Hx'. apply Hn, in_or_app. now left.
Qed.

Lemma NoDup_app_disjoint {A : Type} (l1 l2 : list A) :
  NoDup l1 -> NoDup l2 -> (forall x, In x l2 -> ~ In x l1) -> NoDup (l1 ++ l2).
Proof.
  induction l1 as [|a l1 IH]; intros H1 H2 Hd; simpl; [assumption|].
  inversion H1 as [|? ? Ha Hl1]; subst. constructor.
  - intro Hin. apply in_app_or in Hin. destruct Hin as [Hin | Hin]; [contradiction|].
    apply (Hd a Hin). now left.
  - apply IH; auto. intros x Hx Hx1. apply (Hd x Hx). now right.
Qed.

Lemma claim_NoDup (cols names : list string) (stop : nat) :
  NoDup names -> NoDup (claim names stop cols).
Proof.
  intro Hnd. destruct (claim_appends cols names stop) as [added [-> [Ha Hin]]].
  apply NoDup_app_disjoint; auto. intros x Hx. now destruct (Hin x Hx).
Qed.

(** The candidate names that are not in [names], each once. *)
Definition unclaimed (cols names : list string) : list string :=
  set_names (set_minus cols names).

Lemma claim_length_unclaimed (cols names : list string) (stop : nat) :
  List.length (claim names stop cols)
  <= List.length names + List.length (unclaimed cols names).
Proof.
  destruct (claim_appends cols names stop) as [added [-> [Ha Hin]]].
  rewrite length_app. apply Nat.add_le_mono_l.
  apply NoDup_incl_length; [assumption|].
  intros x Hx. destruct (Hin x Hx). apply set_names_In, set_minus_In. now split.
Qed.

Lemma claim_length_stop (cols : list string) :
  forall (names : list string) (stop : nat),
    List.length names < stop -> List.length (claim names stop cols) <= stop.
Proof.
  induction cols as [|tg cols IH]; intros names stop Hlt; cbn [claim]; [lia|].
  destruct (Py.mem_str tg names).
  - destruct (Nat.eqb (List.length names) stop) eqn:E; [lia | now apply IH].
  - destruct (Nat.eqb (List.length (names ++ [tg])) stop) eqn:E.
    + apply Nat.eqb_eq in E. lia.
    + apply Nat.eqb_neq in E. apply IH. rewrite length_app in *. simpl in *. lia.
Qed.

(** The regulated genes that the loop appends to [total_id]. *)
Definition targets_of (S : Sorting) (gt : list GrnRecord) (tfs : list Py.value)
  : list Py.value :=
  flat_map
    (fun tf => map regulated_gene (sort_values S regulator_effect false (records_of gt tf)))
    tfs.

Section TargetFacts.
Variable S : Sorting.
Variable tf_id_dir : dict Py.value string.
Variables (db : RankingDB) (tf_motif_dir : dict string string) (gt : list GrnRecord).
Variable all_tfs : list Py.value.

Lemma target_lists_app (grn_dir : dict Py.value (list Py.value)) (l1 l2 : list Py.value) :
  forall names ids,
    target_lists S tf_id_dir db tf_motif_dir grn_dir (l1 ++ l2) names ids
    = match target_lists S tf_id_dir db tf_motif_dir grn_dir l1 names ids with
      | inl e => inl e
      | inr (names1, ids1) =>
          target_lists S tf_id_dir db tf_motif_dir grn_dir l2 names1 ids1
      end.
Proof.
  induction l1 as [|tf l1 IH]; intros names ids; cbn [app target_lists]; [reflexivity|].
  destruct (dict_get Py.eqb tf_id_dir tf); [|reflexivity].
  destruct (dict_get String.eqb tf_motif_dir s); [|reflexivity].
  destruct (sorted_columns S db s0); [reflexivity|].
  destruct (dict_get Py.eqb grn_dir tf); [|reflexivity].
  apply IH.
Qed.

Lemma target_lists_returns (tfs : list Py.value) :
  forall names ids names1 ids1,
    incl tfs all_tfs ->
    target_lists S tf_id_dir db tf_motif_dir (get_dir S gt all_tfs) tfs names ids
    = inr (names1, ids1) ->
    ids1 = ids ++ targets_of S gt tfs
    /\ exists added,
        names1 = names ++ added
        /\ NoDup added
        /\ (forall x, In x added -> In x (gene_columns db) /\ ~ In x names).
Proof.
  induction tfs as [|tf tfs IH]; intros names ids names1 ids1 Hincl; cbn [target_lists].
  - intro E. injection E as <- <-. split; [simpl; now rewrite app_nil_r|].
    exists []. rewrite app_nil_r. split; [reflexivity|]. split; [constructor | intros x []].
  - destruct (dict_get Py.eqb tf_id_dir tf) as [tf_name|]; [|discriminate].
    destruct (dict_get String.eqb tf_motif_dir tf_name) as [one_motif|]; [|discriminate].
    destruct (sorted_columns S db one_motif) as [e|cols] eqn:Ec; [discriminate|].
    rewrite get_dir_lookup.
    assert (Hm : Py.mem tf all_tfs = true) by (apply mem_In, Hincl; now left).
    rewrite Hm. intro E.
    apply IH in E; [|intros x Hx; apply Hincl; now right].
    destruct E as [-> [added [-> [Hnd Hin]]]].
    split; [simpl; now rewrite app_assoc|].
    set (targets := map regulated_gene
                      (sort_values S regulator_effect false (records_of gt tf))) in *.
    destruct (claim_appends cols names (List.length names + List.length targets))
      as [added0 [E0 [Hnd0 Hin0]]].
    rewrite E0 in *.
    assert (Hcols : forall x, In x cols -> In x (gene_columns db)).
    { intros x Hx. unfold sorted_columns in Ec.
      destruct (filter _ (rank_rows db)) as [|first rest]; [discriminate|].
      injection Ec as <-.
      apply (Permutation_in x (Permutation_sym (sort_values_ascending_perm S _ _))) in Hx.
      apply filter_In in Hx. destruct Hx as [Hx Hnm].
      unfold columns in Hx. apply in_app_or in Hx. destruct Hx as [Hx | [<- | []]].
      - assumption.
      - discriminate. }
    exists (added0 ++ added). split; [now rewrite app_assoc|]. split.
    + apply NoDup_app_disjoint; auto.
      intros x Hx Hx0. destruct (Hin x Hx) as [_ Hn]. apply Hn, in_or_app. now right.
    + intros x Hx. apply in_app_or in Hx. destruct Hx as [Hx | Hx].
      * destruct (Hin0 x Hx). split; auto.
      * destruct (Hin x Hx) as [Hg Hn]. split; [assumption|].
        intro Hx'. apply Hn, in_or_app. now left.
Qed.

Lemma target_lists_NoDup (tfs : list Py.value) names ids names1 ids1 :
  incl tfs all_tfs ->
  target_lists S tf_id_dir db tf_motif_dir (get_dir S gt all_tfs) tfs names ids
  = inr (names1, ids1) ->
  NoDup names -> NoDup names1.
Proof.
  intros Hincl E Hnd.
  destruct (target_lists_returns tfs names ids names1 ids1 Hincl E)
    as [_ [added [-> [Ha Hin]]]].
  apply NoDup_app_disjoint; auto. intros x Hx. now destruct (Hin x Hx).
Qed.

(** When every TF has a regulated gene, the loop never appends more names
    than identifiers. *)
Lemma target_lists_lengths (tfs : list Py.value) :
  forall names ids names1 ids1,
    incl tfs all_tfs ->
    (forall t, In t tfs -> records_of gt t <> []) ->
    target_lists S tf_id_dir db tf_motif_dir (get_dir S gt all_tfs) tfs names ids
    = inr (names1, ids1) ->
    List.length names1 + List.length ids <= List.length ids1 + List.length names.
Proof.
  induction tfs as [|tf tfs IH]; intros names ids names1 ids1 Hincl Hrec; cbn [target_lists].
  - intro E. injection E as <- <-. lia.
  - destruct (dict_get Py.eqb tf_id_dir tf) as [tf_name|]; [|discriminate].
    destruct (dict_get String.eqb tf_motif_dir tf_name) as [one_motif|]; [|discriminate].
    destruct (sorted_columns S db one_motif) as [e|cols] eqn:Ec; [discriminate|].
    rewrite get_dir_lookup.
    assert (Hm : Py.mem tf all_tfs = true) by (apply mem_In, Hincl; now left).
    rewrite Hm. intro E.
    apply IH in E; [| intros x Hx; apply Hincl; now right
                     | intros x Hx; apply Hrec; now right].
    set (targets := map regulated_gene
                      (sort_values S regulator_effect false (records_of gt tf))) in *.
    assert (Hpos : 0 < List.length targets).
    { unfold targets. rewrite length_map.
      rewrite <- (Permutation_length (sort_values_descending_perm S regulator_effect _)).
      specialize (Hrec tf (or_introl eq_refl)).
      destruct (records_of gt tf); [congruence | simpl; lia]. }
    pose proof (claim_length_stop cols names (List.length names + List.length targets)
                  ltac:(lia)) as Hc.
    rewrite length_app in E. lia.
Qed.

End TargetFacts.

(** ** The frames *)

Lemma DataFrame_returns (ids : list Py.value) (names : list string) (raw : RawTable) :
  DataFrame ids names = inr raw ->
  raw = combine ids names /\ List.length ids = List.length names.
Proof.
  unfold DataFrame. destruct (Nat.eqb (List.length ids) (List.length names)) eqn:E;
    [|discriminate].
  apply Nat.eqb_eq in E. intro Hr. injection Hr as <-. now split.
Qed.

Lemma DataFrame_raises (ids : list Py.value) (names : list string) :
  List.length ids <> List.length names -> DataFrame ids names = inl Py.ValueError.
Proof.
  intro N. unfold DataFrame. apply Nat.eqb_neq in N. now rewrite N.
Qed.

Lemma map_fst_combine {A B : Type} (l1 : list A) (l2 : list B) :
  List.length l1 = List.length l2 -> map fst (combine l1 l2) = l1.
Proof.
  revert l2. induction l1 as [|a l1 IH]; intros [|b l2] E; simpl in *; try discriminate.
  - reflexivity.
  - f_equal. apply IH. lia.
Qed.

Lemma map_snd_combine {A B : Type} (l1 : list A) (l2 : list B) :
  List.length l1 = List.length l2 -> map snd (combine l1 l2) = l2.
Proof.
  revert l2. induction l1 as [|a l1 IH]; intros [|b l2] E; simpl in *; try discriminate.
  - reflexivity.
  - f_equal. apply IH. lia.
Qed.

Lemma combine_app {A B : Type} (ids more_ids : list A) (names more_names : list B) :
  List.length ids = List.length names ->
  combine (ids ++ more_ids) (names ++ more_names)
  = combine ids names ++ combine more_ids more_names.
Proof.
  revert names. induction ids as [|a ids IH]; intros [|b names] E; simpl in *;
    try discriminate.
  - reflexivity.
  - f_equal. apply IH. lia.
Qed.

Lemma drop_duplicates_seen_In (df : RawTable) :
  forall seen r, In r (drop_duplicates_seen seen df) -> In r df /\ ~ In (fst r) seen.
Proof.
  induction df as [|[i n] df IH]; intros seen r; simpl; [tauto|].
  destruct (Py.mem i seen) eqn:E.
  - intro Hr. destruct (IH _ _ Hr). auto.
  - apply mem_not_In in E. intros [<- | Hr]; [auto|].
    destruct (IH _ _ Hr) as [Hin Hs]. split; [auto|].
    intro Hx. apply Hs. now right.
Qed.

Lemma drop_duplicates_seen_ids (df : RawTable) :
  forall seen i,
    In i (map fst (drop_duplicates_seen seen df)) <-> In i (map fst df) /\ ~ In i seen.
Proof.
  induction df as [|[j n] df IH]; intros seen i; simpl; [tauto|].
  destruct (Py.mem j seen) eqn:E.
  - rewrite IH. apply mem_In in E. split; [tauto|].
    intros [[<- | Hin] Hs]; [contradiction | tauto].
  - apply mem_not_In in E. simpl. rewrite IH. simpl.
    destruct (value_eq_dec j i) as [<- | N]; [tauto|]. tauto.
Qed.

Lemma drop_duplicates_ids (df : RawTable) (i : Py.value) :
  In i (map fst (drop_duplicates df)) <-> In i (map fst df).
Proof. unfold drop_duplicates. rewrite drop_duplicates_seen_ids. simpl. tauto. Qed.

Lemma drop_duplicates_seen_names (df : RawTable) :
  forall seen, NoDup (map snd df) -> NoDup (map snd (drop_duplicates_seen seen df)).
Proof.
  induction df as [|[i n] df IH]; intros seen Hnd; simpl in *; [constructor|].
  inversion Hnd as [|? ? Hn Hrest]; subst.
  destruct (Py.mem i seen); [now apply IH|].
  simpl. constructor; [|now apply IH].
  intro Hin. apply Hn. apply in_map_iff in Hin. destruct Hin as [r [Er Hr]].
  apply drop_duplicates_seen_In in Hr. destruct Hr as [Hr _].
  apply in_map_iff. now exists r.
Qed.

Lemma drop_duplicates_seen_app (l1 l2 : RawTable) :
  forall seen, exists seen',
    drop_duplicates_seen seen (l1 ++ l2)
    = drop_duplicates_seen seen l1 ++ drop_duplicates_seen seen' l2.
Proof.
  induction l1 as [|[i n] l1 IH]; intro seen; simpl.
  - now exists seen.
  - destruct (Py.mem i seen).
    + apply IH.
    + destruct (IH (i :: seen)) as [seen' E]. exists seen'. now rewrite E.
Qed.

Lemma astype_str_names (df : RawTable) : map snd (astype_str df) = map snd df.
Proof. unfold astype_str. rewrite map_map. reflexivity. Qed.

Lemma astype_str_ids (df : RawTable) : map fst (astype_str df) = map Py.str (map fst df).
Proof. unfold astype_str. now rewrite !map_map. Qed.

Lemma astype_str_app (l1 l2 : RawTable) :
  astype_str (l1 ++ l2) = astype_str l1 ++ astype_str l2.
Proof. apply map_app. Qed.

Lemma NoDup_map_filter {A B : Type} (key : A -> B) (keep : A -> bool) (rows : list A)
  (Hnd : NoDup (map key rows)) : NoDup (map key (filter keep rows)).
Proof.
  induction rows as [|a rows IH]; simpl in *; [constructor|].
  inversion Hnd as [|? ? Ha Hl]; subst.
  destruct (keep a); simpl; [|now apply IH].
  constructor; [|now apply IH].
  intro Hin. apply Ha. apply in_map_iff in Hin. destruct Hin as [x [Ex Hx]].
  apply filter_In in Hx. apply in_map_iff. exists x. tauto.
Qed.

Lemma drop_isin_ids (values : list Py.value) (df : Table) (i : string) :
  In i (map fst (drop_isin values df))
  <-> In i (map fst df) /\ ~ In (Py.Str i) values.
Proof.
  unfold drop_isin. rewrite !in_map_iff. split.
  - intros [r [<- Hr]]. apply filter_In in Hr. destruct Hr as [Hr Hm].
    apply negb_true_iff, mem_not_In in Hm. split; [now exists r | assumption].
  - intros [[r [<- Hr]] Hn]. exists r. split; [reflexivity|].
    apply filter_In. split; [assumption|]. now apply negb_true_iff, mem_not_In.
Qed.

Lemma drop_isin_same_values (v1 v2 : list Py.value) (df : Table) :
  (forall x, In x v1 <-> In x v2) -> drop_isin v1 df = drop_isin v2 df.
Proof.
  intro Hv. unfold drop_isin. apply filter_ext. intro r. f_equal.
  apply Bool.eq_true_iff_eq. rewrite !mem_In. apply Hv.
Qed.

(** The rebinding of [total_id] and [total_name] to the columns of
    [name_df1] keeps its rows. *)
Lemma rebound_rows (df : Table) :
  combine (map (fun r => Py.Str (fst r)) df) (map snd df)
  = map (fun r => (Py.Str (fst r), snd r)) df.
Proof. induction df as [|r df IH]; simpl; [reflexivity | now rewrite IH]. Qed.

Lemma name_df1_names (H : Hashing) (lr : list LrRecord) (names1 : list string)
  (ids1 : list Py.value) (name_df1 : Table) :
  name_df1_of H lr names1 ids1 = inr name_df1 ->
  NoDup names1 -> NoDup (map snd name_df1).
Proof.
  unfold name_df1_of. destruct (DataFrame ids1 names1) as [e|raw] eqn:E; [discriminate|].
  intro Hd. injection Hd as <-. intro Hnd.
  apply DataFrame_returns in E. destruct E as [-> El].
  unfold drop_isin. apply NoDup_map_filter. rewrite astype_str_names.
  apply drop_duplicates_seen_names. now rewrite map_snd_combine.
Qed.

Lemma name_df1_ids (H : Hashing) (lr : list LrRecord) (names1 : list string)
  (ids1 : list Py.value) (name_df1 : Table) (i : string) :
  name_df1_of H lr names1 ids1 = inr name_df1 ->
  (In i (map fst name_df1)
   <-> In i (map Py.str ids1) /\ ~ In (Py.Str i) (map receptor lr)).
Proof.
  unfold name_df1_of. destruct (DataFrame ids1 names1) as [e|raw] eqn:E; [discriminate|].
  intro Hd. injection Hd as <-.
  apply DataFrame_returns in E. destruct E as [-> El].
  rewrite drop_isin_ids, iter_ids_In, set_ids_In, astype_str_ids.
  assert (Hids : In i (map Py.str (map fst (drop_duplicates (combine ids1 names1))))
                 <-> In i (map Py.str ids1)).
  { split; intro Hi; apply in_map_iff in Hi; destruct Hi as [x [Ex Hx]];
      apply in_map_iff; exists x; (split; [assumption|]).
    - apply (proj1 (drop_duplicates_ids _ _)) in Hx.
      now rewrite map_fst_combine in Hx.
    - apply (proj2 (drop_duplicates_ids _ _)). now rewrite map_fst_combine. }
  tauto.
Qed.

Lemma name_df1_same_hashing (H1 H2 : Hashing) (lr : list LrRecord)
  (names1 : list string) (ids1 : list Py.value) :
  name_df1_of H1 lr names1 ids1 = name_df1_of H2 lr names1 ids1.
Proof.
  unfold name_df1_of. destruct (DataFrame ids1 names1); [reflexivity|].
  f_equal. apply drop_isin_same_values. intro x. now rewrite !iter_ids_In.
Qed.

(** ** The noise, ligand and receptor names *)

Lemma sample_from_fresh (pool names : list string) (k : nat) (tape tape' : list nat)
  (l : list string) :
  sample_from pool k tape = inr (l, tape') ->
  NoDup pool -> (forall x, In x pool -> ~ In x names) ->
  NoDup names -> NoDup (names ++ l).
Proof.
  intros Hs Hp Hd Hn. apply sample_from_returns in Hs. destruct Hs as [_ [Hin Hnd]].
  apply NoDup_app_disjoint; auto.
Qed.

Section PartTwoFacts.
Variable H : Hashing.
Variable niche_mouse : list (string * string).

Lemma pool_NoDup (universe names : list string) :
  NoDup (iter_names H (set_minus (set_names universe) (set_names names))).
Proof.
  eapply Permutation_NoDup; [apply iter_names_perm|].
  apply set_minus_NoDup, NoDup_nodup.
Qed.

Lemma pool_fresh (universe names : list string) (x : string) :
  In x (iter_names H (set_minus (set_names universe) (set_names names))) -> ~ In x names.
Proof.
  rewrite iter_names_In, set_minus_In, !set_names_In. tauto.
Qed.

Lemma rest_rdb_names_In (db : RankingDB) (names : list string) (x : string) :
  In x (rest_rdb_names H db names)
  <-> In x (columns db) /\ ~ In x (Py.chars "motifs") /\ ~ In x names.
Proof.
  unfold rest_rdb_names.
  rewrite iter_names_In, !set_minus_In, !set_names_In. tauto.
Qed.

Lemma rest_rdb_names_NoDup (db : RankingDB) (names : list string) :
  NoDup (rest_rdb_names H db names).
Proof.
  unfold rest_rdb_names. eapply Permutation_NoDup; [apply iter_names_perm|].
  apply set_minus_NoDup, set_minus_NoDup, NoDup_nodup.
Qed.

(** What part two appended when it returns. *)
Lemma part_two_returns (db : RankingDB) (lr : list LrRecord) (names2 : list string)
  (ids2 noise_ids : list Py.value) (tape : list nat) (name_df : Table) :
  part_two_table H niche_mouse db lr names2 ids2 noise_ids tape = inr name_df ->
  exists noise_genes_names ligand_genes_names receptor_names,
    name_df
    = astype_str
        (drop_duplicates
           (combine (((ids2 ++ noise_ids) ++ ligand_ids_of H lr) ++ receptor_ids_of H lr)
                    (((names2 ++ noise_genes_names) ++ ligand_genes_names)
                       ++ receptor_names)))
    /\ List.length (((ids2 ++ noise_ids) ++ ligand_ids_of H lr) ++ receptor_ids_of H lr)
       = List.length (((names2 ++ noise_genes_names) ++ ligand_genes_names)
                        ++ receptor_names)
    /\ List.length noise_genes_names = List.length noise_ids
    /\ (forall x, In x noise_genes_names -> In x (rest_rdb_names H db names2))
    /\ (NoDup names2 ->
        NoDup (((names2 ++ noise_genes_names) ++ ligand_genes_names) ++ receptor_names)).
Proof.
  unfold part_two_table.
  destruct (sample_from (rest_rdb_names H db names2) (List.length noise_ids) tape)
    as [e|[noise_genes_names tape1]] eqn:E1; [discriminate|].
  destruct (sample_from (ligand_pool H niche_mouse (names2 ++ noise_genes_names))
              (List.length (ligand_ids_of H lr)) tape1)
    as [e|[ligand_genes_names tape2]] eqn:E2; [discriminate|].
  destruct (sample_from
              (receptor_pool H niche_mouse
                 ((names2 ++ noise_genes_names) ++ ligand_genes_names))
              (List.length (receptor_ids_of H lr)) tape2)
    as [e|[receptor_names tape3]] eqn:E3; [discriminate|].
  unfold final_table.
  destruct (DataFrame _ _) as [e|raw] eqn:Ed; [discriminate|].
  destruct (no_duplicated (astype_str (drop_duplicates raw))); [|discriminate].
  intro Ht. injection Ht as <-.
  apply DataFrame_returns in Ed. destruct Ed as [-> El].
  exists noise_genes_names, ligand_genes_names, receptor_names.
  split; [reflexivity|]. split; [exact El|].
  pose proof (sample_from_returns _ _ _ _ _ E1) as [L1 [I1 _]].
  split; [exact L1|]. split; [exact I1|].
  intro Hnd.
  eapply sample_from_fresh; [exact E3 | apply pool_NoDup | apply pool_fresh |].
  eapply sample_from_fresh; [exact E2 | apply pool_NoDup | apply pool_fresh |].
  eapply sample_from_fresh; [exact E1 | apply rest_rdb_names_NoDup | | exact Hnd].
  intros x Hx. apply rest_rdb_names_In in Hx. tauto.
Qed.

End PartTwoFacts.

(** ** C1: the names of the table *)

(** C1 (as amended): when the names the caller seeded [total_name] with are
    pairwise different, a call that returns yields a table whose names are
    pairwise different: no two rows, of whatever phase, have the same name. *)
Theorem names_injective (S : Sorting) (H : Hashing) (tf_id_dir : dict Py.value string)
  (niche_mouse : list (string * string)) (tfs : list Py.value) (rdb : ref)
  (tf_motif_dir : dict string string) (grn_gt lr_gt total_name total_id : ref)
  (noise_ids : list Py.value) (s s' : Store) (name_df : Table) (names0 : list string) :
  assign_gene_names_og S H tf_id_dir niche_mouse tfs rdb tf_motif_dir grn_gt lr_gt
    total_name total_id noise_ids s = (inr name_df, s') ->
  nth_error (name_lists s) total_name = Some names0 ->
  NoDup names0 ->
  NoDup (map snd name_df).
Proof.
  intros Hcall Hseed Hnd.
  apply assign_returns in Hcall.
  destruct Hcall as (db & gt & lr & names0' & ids0 & names1 & ids1 & name_df1
                     & Hobj & Ht & Hd & Hp & _).
  destruct Hobj as [_ _ _ Hn _]. rewrite Hseed in Hn. injection Hn as <-.
  apply (target_lists_NoDup S tf_id_dir db tf_motif_dir gt tfs tfs) in Ht;
    [| apply incl_refl | exact Hnd].
  apply name_df1_names in Hd; [|exact Ht].
  apply part_two_returns in Hp.
  destruct Hp as (nn & ln & rn & -> & El & _ & _ & Hfresh).
  rewrite astype_str_names. apply drop_duplicates_seen_names.
  rewrite map_snd_combine by exact El. now apply Hfresh.
Qed.

(** ** C2: the identifiers of the table *)

Lemma table_ids (ids : list Py.value) (names : list string) (i : string) :
  List.length ids = List.length names ->
  (In i (map fst (astype_str (drop_duplicates (combine ids names))))
   <-> In i (map Py.str ids)).
Proof.
  intro El. rewrite astype_str_ids.
  split; intro Hi; apply in_map_iff in Hi; destruct Hi as [x [Ex Hx]];
    apply in_map_iff; exists x; (split; [assumption|]).
  - apply (proj1 (drop_duplicates_ids _ _)) in Hx. now rewrite map_fst_combine in Hx.
  - apply (proj2 (drop_duplicates_ids _ _)). now rewrite map_fst_combine.
Qed.

Lemma targets_of_In (S : Sorting) (gt : list GrnRecord) (tfs : list Py.value)
  (x : Py.value) :
  In x (targets_of S gt tfs)
  <-> In x (map regulated_gene (filter (fun r => Py.mem (regulator_gene r) tfs) gt)).
Proof.
  unfold targets_of. rewrite in_flat_map, in_map_iff. split.
  - intros [tf [Htf Hx]]. apply in_map_iff in Hx. destruct Hx as [r [Er Hr]].
    apply (Permutation_in r (Permutation_sym (sort_values_descending_perm S _ _))) in Hr.
    apply filter_In in Hr. destruct Hr as [Hr Heq]. apply py_eqb_eq in Heq.
    exists r. split; [assumption|]. apply filter_In. split; [assumption|].
    apply mem_In. now rewrite Heq.
  - intros [r [Er Hr]]. apply filter_In in Hr. destruct Hr as [Hr Hm].
    apply mem_In in Hm. exists (regulator_gene r). split; [assumption|].
    apply in_map_iff. exists r. split; [assumption|].
    apply (Permutation_in r (sort_values_descending_perm S _ _)).
    apply filter_In. split; [assumption | apply py_eqb_refl].
Qed.

Lemma rebound_ids (df : Table) :
  map Py.str (map (fun r => Py.Str (fst r)) df) = map fst df.
Proof. rewrite map_map. reflexivity. Qed.

(** C2 (as amended): the identifiers of the table that a call returns are
    the string renderings of the identifiers the caller seeded [total_id]
    with (the TFs, in the script), of the regulated genes of the
    ground-truth rows whose regulator is in the list of TFs, of the noise
    identifiers, of the ligands and of the receptors: none is missing and
    none is extra. *)
Theorem identifiers_covered (S : Sorting) (H : Hashing) (tf_id_dir : dict Py.value string)
  (niche_mouse : list (string * string)) (tfs : list Py.value) (rdb : ref)
  (tf_motif_dir : dict string string) (grn_gt lr_gt total_name total_id : ref)
  (noise_ids : list Py.value) (s s' : Store) (name_df : Table)
  (ids0 : list Py.value) (gt : list GrnRecord) (lr : list LrRecord) :
  assign_gene_names_og S H tf_id_dir niche_mouse tfs rdb tf_motif_dir grn_gt lr_gt
    total_name total_id noise_ids s = (inr name_df, s') ->
  nth_error (id_lists s) total_id = Some ids0 ->
  nth_error (grn_frames s) grn_gt = Some gt ->
  nth_error (lr_frames s) lr_gt = Some lr ->
  forall i,
    In i (map fst name_df)
    <-> In i (map Py.str
                (ids0
                 ++ map regulated_gene
                      (filter (fun r => Py.mem (regulator_gene r) tfs) gt)
                 ++ noise_ids ++ map ligand lr ++ map receptor lr)).
Proof.
  intros Hcall Hids Hgt Hlr i.
  apply assign_returns in Hcall.
  destruct Hcall as (db & gt' & lr' & names0 & ids0' & names1 & ids1 & name_df1
                     & Hobj & Ht & Hd & Hp & _).
  destruct Hobj as [_ Hg Hl _ Hi].
  rewrite Hids in Hi. injection Hi as <-.
  rewrite Hgt in Hg. injection Hg as <-.
  rewrite Hlr in Hl. injection Hl as <-.
  apply (target_lists_returns S tf_id_dir db tf_motif_dir gt tfs tfs) in Ht;
    [| apply incl_refl].
  destruct Ht as [-> _].
  pose proof (fun j => name_df1_ids H lr names1 _ name_df1 j Hd) as Hdf1.
  apply part_two_returns in Hp.
  destruct Hp as (nn & ln & rn & -> & El & _).
  rewrite (table_ids _ _ i El).
  rewrite !map_app, !in_app_iff, rebound_ids, Hdf1, map_app, in_app_iff.
  unfold ligand_ids_of, receptor_ids_of.
  assert (Hlig : In i (map Py.str (iter_ids H (set_ids (map ligand lr))))
                 <-> In i (map Py.str (map ligand lr))).
  { rewrite !in_map_iff. split; intros [x [Ex Hx]]; exists x; (split; [assumption|]).
    - now apply set_ids_In, (iter_ids_In H).
    - now apply (iter_ids_In H), set_ids_In. }
  assert (Hrec : In i (map Py.str (iter_ids H (set_ids (map receptor lr))))
                 <-> In i (map Py.str (map receptor lr))).
  { rewrite !in_map_iff. split; intros [x [Ex Hx]]; exists x; (split; [assumption|]).
    - now apply set_ids_In, (iter_ids_In H).
    - now apply (iter_ids_In H), set_ids_In. }
  rewrite Hlig, Hrec.
  assert (Htg : In i (map Py.str (targets_of S gt tfs))
                <-> In i (map Py.str
                            (map regulated_gene
                               (filter (fun r => Py.mem (regulator_gene r) tfs) gt)))).
  { rewrite !in_map_iff. split; intros [x [Ex Hx]]; exists x; (split; [assumption|]).
    - now apply (proj1 (targets_of_In S gt tfs x)).
    - now apply (proj2 (targets_of_In S gt tfs x)). }
  rewrite Htg.
  destruct (in_dec value_eq_dec (Py.Str i) (map receptor lr)) as [Hin | Hout].
  - assert (In i (map Py.str (map receptor lr))).
    { apply in_map_iff. exists (Py.Str i). now split. }
    tauto.
  - tauto.
Qed.

(** ** A small run *)

(** The rank of a gene is its position in the order of the motif. *)
Fixpoint ex_position (order : list string) (g : string) : Z :=
  match order with
  | [] => 0
  | x :: rest => if String.eqb x g then 0 else 1 + ex_position rest g
  end.

(** A ranking database of four genes and two motifs. *)
Definition ex_rdb : RankingDB :=
  mkRdb ["a"; "b"; "c"; "d"]
        [ mkRankRow "m1" (ex_position ["a"; "b"; "c"; "d"]);
          mkRankRow "m2" (ex_position ["d"; "c"; "b"; "a"]) ].

Definition ex_niche : list (string * string) := [("L1", "R1"); ("L2", "R2")].

Definition ex_motif_dir : dict string string :=
  dict_zip ["Adf1"; "Aef1"] ["m1"; "m2"].

(** One TF, of identifier 1 and name Adf1, with two regulated genes. *)
Definition ex_tf_id_dir : dict Py.value string := dict_zip [Py.Int 1] ["Adf1"].

Definition ex_gt : list GrnRecord :=
  [ mkGrn (Py.Int 1) (Py.Int 11) (9 # 10); mkGrn (Py.Int 1) (Py.Int 12) (1 # 10) ].

Definition ex_lr : list LrRecord := [ mkLr (Py.Int 21) (Py.Int 22) ].

(** The store of a caller that holds one object of each kind, at reference 0. *)
Definition ex_store (names : list string) (ids : list Py.value) (gt : list GrnRecord)
  (lr : list LrRecord) (tape : list nat) : Store :=
  mkStore [names] [ids] [ex_rdb] [gt] [lr] tape.

Definition ex_call (S : Sorting) (H : Hashing) (tf_id_dir : dict Py.value string)
  (tfs noise_ids : list Py.value) : M Table :=
  assign_gene_names_og S H tf_id_dir ex_niche tfs 0 ex_motif_dir 0 0 0 0 noise_ids.

(** The script's way of calling, on the small run. *)
Definition ex_run (tape : list nat) : (Py.exn + Table) * Store :=
  ex_call stable_sorting insertion_order ex_tf_id_dir [Py.Int 1] [Py.Str "gene1"]
    (ex_store ["Adf1"] [Py.Int 1] ex_gt ex_lr tape).

Definition ex_table : Table :=
  [("1", "Adf1"); ("11", "a"); ("12", "b"); ("gene1", "c"); ("21", "L1"); ("22", "R1")].

Lemma ex_run_returns : ex_run [0; 0; 0] = (inr ex_table, snd (ex_run [0; 0; 0])).
Proof. vm_compute. reflexivity. Qed.

(** C1, at the small run. *)
Lemma names_injective_witness :
  ex_run [0; 0; 0] = (inr ex_table, snd (ex_run [0; 0; 0]))
  /\ nth_error (name_lists (ex_store ["Adf1"] [Py.Int 1] ex_gt ex_lr [0; 0; 0])) 0
     = Some ["Adf1"]
  /\ NoDup ["Adf1"]
  /\ NoDup (map snd ex_table).
Proof.
  assert (Hrun : ex_run [0; 0; 0] = (inr ex_table, snd (ex_run [0; 0; 0])))
    by (vm_compute; reflexivity).
  assert (Hnd : NoDup ["Adf1"]) by (constructor; [intros [] | constructor]).
  split; [exact Hrun|]. split; [reflexivity|]. split; [exact Hnd|].
  exact (names_injective stable_sorting insertion_order ex_tf_id_dir ex_niche [Py.Int 1]
           0 ex_motif_dir 0 0 0 0 [Py.Str "gene1"] _ _ ex_table ["Adf1"]
           Hrun eq_refl Hnd).
Defined.

(** The identifiers are strings, and gene 12 is regulated by the TF and is a
    receptor. *)
Definition ex_store_receptor : Store :=
  ex_store ["Adf1"] [Py.Str "1"]
    [ mkGrn (Py.Str "1") (Py.Str "11") (9 # 10);
      mkGrn (Py.Str "1") (Py.Str "12") (1 # 10) ]
    [mkLr (Py.Str "21") (Py.Str "12")] [0; 0; 0].

Definition ex_call_receptor : (Py.exn + Table) * Store :=
  ex_call stable_sorting insertion_order (dict_zip [Py.Str "1"] ["Adf1"])
    [Py.Str "1"] [Py.Str "gene1"] ex_store_receptor.

(** C1, counterexample.  First run: the caller gives two TFs the same name;
    the call returns, and its table binds the two identifiers to that name.
    Second run: the seeded names are different; the target loop claims the
    name [b] for gene 12 (the caller's [total_name] holds it after the
    call), line 340 drops the row of gene 12, a receptor, and the noise phase
    gives [b] to the noise gene. *)
Lemma names_shared_or_claimed_twice :
  (fst (ex_call stable_sorting insertion_order
          (dict_zip [Py.Int 1; Py.Int 2] ["Adf1"; "Adf1"]) [Py.Int 1; Py.Int 2] []
          (ex_store ["Adf1"; "Adf1"] [Py.Int 1; Py.Int 2]
             [ mkGrn (Py.Int 1) (Py.Int 11) (1 # 2); mkGrn (Py.Int 2) (Py.Int 12) (1 # 2) ]
             [] []))
   = inr [("1", "Adf1"); ("2", "Adf1"); ("11", "a"); ("12", "b")]
   /\ ~ NoDup (map snd [("1", "Adf1"); ("2", "Adf1"); ("11", "a"); ("12", "b")]))
  /\ (fst ex_call_receptor
      = inr [("1", "Adf1"); ("11", "a"); ("gene1", "b"); ("21", "L1"); ("12", "R1")]
      /\ nth_error (name_lists (snd ex_call_receptor)) 0 = Some ["Adf1"; "a"; "b"]).
Proof.
  split; split; try (vm_compute; reflexivity).
  simpl. intro Hnd. inversion Hnd as [|? ? Hn _]; subst. apply Hn. now left.
Qed.

(** C2, at the small run. *)
Lemma identifiers_covered_witness :
  ex_run [0; 0; 0] = (inr ex_table, snd (ex_run [0; 0; 0]))
  /\ nth_error (id_lists (ex_store ["Adf1"] [Py.Int 1] ex_gt ex_lr [0; 0; 0])) 0
     = Some [Py.Int 1]
  /\ nth_error (grn_frames (ex_store ["Adf1"] [Py.Int 1] ex_gt ex_lr [0; 0; 0])) 0
     = Some ex_gt
  /\ nth_error (lr_frames (ex_store ["Adf1"] [Py.Int 1] ex_gt ex_lr [0; 0; 0])) 0
     = Some ex_lr
  /\ forall i,
      In i (map fst ex_table)
      <-> In i (map Py.str
                  ([Py.Int 1]
                   ++ map regulated_gene
                        (filter (fun r => Py.mem (regulator_gene r) [Py.Int 1]) ex_gt)
                   ++ [Py.Str "gene1"] ++ map ligand ex_lr ++ map receptor ex_lr)).
Proof.
  assert (Hrun : ex_run [0; 0; 0] = (inr ex_table, snd (ex_run [0; 0; 0])))
    by (vm_compute; reflexivity).
  split; [exact Hrun|]. split; [reflexivity|]. split; [reflexivity|].
  split; [reflexivity|].
  exact (identifiers_covered stable_sorting insertion_order ex_tf_id_dir ex_niche
           [Py.Int 1] 0 ex_motif_dir 0 0 0 0 [Py.Str "gene1"] _ _ ex_table
           [Py.Int 1] ex_gt ex_lr Hrun eq_refl eq_refl eq_refl).
Defined.

(** C2, counterexample: the ground truth has a row whose regulator is not in
    the list of TFs; the call returns, and the regulated gene of that row has
    no row in the table. *)
Lemma regulated_gene_of_unlisted_regulator :
  In (Py.Int 13) (map regulated_gene (ex_gt ++ [mkGrn (Py.Int 2) (Py.Int 13) (1 # 2)]))
  /\ fst (ex_call stable_sorting insertion_order ex_tf_id_dir [Py.Int 1] [Py.Str "gene1"]
            (ex_store ["Adf1"] [Py.Int 1]
               (ex_gt ++ [mkGrn (Py.Int 2) (Py.Int 13) (1 # 2)]) ex_lr [0; 0; 0]))
     = inr ex_table
  /\ ~ In (Py.str (Py.Int 13)) (map fst ex_table).
Proof.
  split; [simpl; tauto|]. split; [vm_compute; reflexivity|].
  vm_compute. intros [E|[E|[E|[E|[E|[E|[]]]]]]]; discriminate.
Qed.

(** ** C3: a TF whose candidate names run out *)

(** C3 (as amended): the lists the caller seeded have the same length and
    every TF has a regulated gene; when the turn of a TF comes, fewer of its
    candidate names are unclaimed than it has regulated genes.  Then the call
    raises: the lists of names and of identifiers differ in length when the
    first frame is built, and no table is returned. *)
Theorem exhausted_candidates_raise (S : Sorting) (H : Hashing)
  (tf_id_dir : dict Py.value string) (niche_mouse : list (string * string))
  (tfs : list Py.value) (rdb : ref) (tf_motif_dir : dict string string)
  (grn_gt lr_gt total_name total_id : ref) (noise_ids : list Py.value) (s : Store)
  (db : RankingDB) (gt : list GrnRecord) (lr : list LrRecord)
  (names0 : list string) (ids0 : list Py.value)
  (before : list Py.value) (tf : Py.value) (after : list Py.value)
  (s1 : Store) (names1 : list string) (tf_name one_motif : string) (cols : list string) :
  nth_error (rdb_frames s) rdb = Some db ->
  nth_error (grn_frames s) grn_gt = Some gt ->
  nth_error (lr_frames s) lr_gt = Some lr ->
  nth_error (name_lists s) total_name = Some names0 ->
  nth_error (id_lists s) total_id = Some ids0 ->
  List.length names0 = List.length ids0 ->
  (forall t, In t tfs -> records_of gt t <> []) ->
  tfs = before ++ tf :: after ->
  for_tf S tf_id_dir rdb tf_motif_dir (get_dir S gt tfs) total_name total_id before s
  = (inr tt, s1) ->
  nth_error (name_lists s1) total_name = Some names1 ->
  dict_get Py.eqb tf_id_dir tf = Some tf_name ->
  dict_get String.eqb tf_motif_dir tf_name = Some one_motif ->
  sorted_columns S db one_motif = inr cols ->
  List.length (unclaimed cols names1) < List.length (records_of gt tf) ->
  exists e,
    fst (assign_gene_names_og S H tf_id_dir niche_mouse tfs rdb tf_motif_dir grn_gt
           lr_gt total_name total_id noise_ids s) = inl e.
Proof.
  intros Hdb Hgt Hlr Hn Hi Hlen Hrec Htfs Hloop Hn1 Hid Hmotif Hcols Hshort.
  rewrite (assign_run S H tf_id_dir niche_mouse tfs rdb tf_motif_dir grn_gt lr_gt
             total_name total_id noise_ids s db gt lr names0 ids0)
    by (constructor; assumption).
  unfold assign_table, part_one_table.
  assert (Hincl_b : incl before tfs).
  { rewrite Htfs. intros x Hx. apply in_or_app. now left. }
  assert (Hincl_a : incl after tfs).
  { rewrite Htfs. intros x Hx. apply in_or_app. right. now right. }
  assert (Hin_tf : In tf tfs).
  { rewrite Htfs. apply in_or_app. right. now left. }
  (* the TFs before *)
  pose proof (for_tf_run S tf_id_dir rdb db tf_motif_dir (get_dir S gt tfs)
                total_name total_id before s names0 ids0 Hn Hi (fun _ => Hdb)) as Hb.
  destruct (target_lists S tf_id_dir db tf_motif_dir (get_dir S gt tfs) before names0 ids0)
    as [e|[names1' ids1]] eqn:Eb.
  { rewrite Hloop in Hb. discriminate. }
  rewrite Hloop in Hb. injection Hb as ->.
  assert (names1' = names1) as ->.
  { simpl in Hn1. rewrite set_nth_hit in Hn1 by (eapply nth_error_in_range, Hn).
    congruence. }
  pose proof (target_lists_lengths S tf_id_dir db tf_motif_dir gt tfs before
                names0 ids0 names1 ids1 Hincl_b
                (fun t Ht => Hrec t (Hincl_b t Ht)) Eb) as Lb.
  (* the TF whose names run out *)
  replace (target_lists S tf_id_dir db tf_motif_dir (get_dir S gt tfs) tfs names0 ids0)
    with (target_lists S tf_id_dir db tf_motif_dir (get_dir S gt tfs)
            (before ++ tf :: after) names0 ids0) by now rewrite Htfs.
  rewrite target_lists_app, Eb. cbn [target_lists].
  rewrite Hid, Hmotif, Hcols, get_dir_lookup.
  apply mem_In in Hin_tf. rewrite Hin_tf.
  set (targets := map regulated_gene
                    (sort_values S regulator_effect false (records_of gt tf))).
  assert (Ltg : List.length targets = List.length (records_of gt tf)).
  { unfold targets. rewrite length_map. symmetry.
    apply Permutation_length, sort_values_descending_perm. }
  pose proof (claim_length_unclaimed cols names1
                (List.length names1 + List.length targets)) as Lc.
  (* the TFs after *)
  destruct (target_lists S tf_id_dir db tf_motif_dir (get_dir S gt tfs) after
              (claim names1 (List.length names1 + List.length targets) cols)
              (ids1 ++ targets)) as [e|[namesF idsF]] eqn:Ea.
  { now exists e. }
  pose proof (target_lists_lengths S tf_id_dir db tf_motif_dir gt tfs after
                _ _ namesF idsF Hincl_a
                (fun t Ht => Hrec t (Hincl_a t Ht)) Ea) as La.
  rewrite length_app in La.
  exists Py.ValueError. unfold name_df1_of.
  rewrite DataFrame_raises by lia. reflexivity.
Qed.

(** A TF with five regulated genes, for a database of four genes. *)
Definition ex_gt_five : list GrnRecord :=
  map (fun z => mkGrn (Py.Int 1) (Py.Int z) (1 # 2)) [11; 12; 13; 14; 15]%Z.

Definition ex_store_five : Store := ex_store ["Adf1"] [Py.Int 1] ex_gt_five [] [].

(** C3, at that TF: no TF comes before it, and four names are unclaimed at
    its turn, for five regulated genes. *)
Lemma exhausted_candidates_raise_witness :
  nth_error (rdb_frames ex_store_five) 0 = Some ex_rdb
  /\ nth_error (grn_frames ex_store_five) 0 = Some ex_gt_five
  /\ nth_error (lr_frames ex_store_five) 0 = Some []
  /\ nth_error (name_lists ex_store_five) 0 = Some ["Adf1"]
  /\ nth_error (id_lists ex_store_five) 0 = Some [Py.Int 1]
  /\ List.length ["Adf1"] = List.length [Py.Int 1]
  /\ (forall t, In t [Py.Int 1] -> records_of ex_gt_five t <> [])
  /\ [Py.Int 1] = [] ++ Py.Int 1 :: []
  /\ for_tf stable_sorting ex_tf_id_dir 0 ex_motif_dir
       (get_dir stable_sorting ex_gt_five [Py.Int 1]) 0 0 [] ex_store_five
     = (inr tt, ex_store_five)
  /\ nth_error (name_lists ex_store_five) 0 = Some ["Adf1"]
  /\ dict_get Py.eqb ex_tf_id_dir (Py.Int 1) = Some "Adf1"
  /\ dict_get String.eqb ex_motif_dir "Adf1" = Some "m1"
  /\ sorted_columns stable_sorting ex_rdb "m1" = inr ["a"; "b"; "c"; "d"]
  /\ List.length (unclaimed ["a"; "b"; "c"; "d"] ["Adf1"])
     < List.length (records_of ex_gt_five (Py.Int 1))
  /\ exists e,
      fst (assign_gene_names_og stable_sorting insertion_order ex_tf_id_dir ex_niche
             [Py.Int 1] 0 ex_motif_dir 0 0 0 0 [] ex_store_five) = inl e.
Proof.
  assert (Hrec : forall t, In t [Py.Int 1] -> records_of ex_gt_five t <> []).
  { intros t [<- | []]. vm_compute. discriminate. }
  assert (Hcols : sorted_columns stable_sorting ex_rdb "m1" = inr ["a"; "b"; "c"; "d"])
    by (vm_compute; reflexivity).
  assert (Hshort : List.length (unclaimed ["a"; "b"; "c"; "d"] ["Adf1"])
                   < List.length (records_of ex_gt_five (Py.Int 1)))
    by (vm_compute; lia).
  repeat (split; [first [reflexivity | exact Hrec | exact Hcols | exact Hshort]|]).
  exact (exhausted_candidates_raise stable_sorting insertion_order ex_tf_id_dir ex_niche
           [Py.Int 1] 0 ex_motif_dir 0 0 0 0 [] ex_store_five ex_rdb ex_gt_five []
           ["Adf1"] [Py.Int 1] [] (Py.Int 1) [] ex_store_five ["Adf1"] "Adf1" "m1"
           ["a"; "b"; "c"; "d"]
           eq_refl eq_refl eq_refl eq_refl eq_refl eq_refl Hrec eq_refl eq_refl eq_refl
           eq_refl eq_refl Hcols Hshort).
Defined.

(** C3, counterexample: the TF has five regulated genes and the database
    four candidate names; the call does not return a table without the fifth
    gene, it raises [ValueError]. *)
Lemma exhausted_candidates_do_not_degrade :
  fst (ex_call stable_sorting insertion_order ex_tf_id_dir [Py.Int 1] [] ex_store_five)
  = inl Py.ValueError.
Proof. vm_compute. reflexivity. Qed.

(** ** C7: a pool too small for the noise genes *)

(** C7: when the target part of a call has returned and the pool of unused
    names has fewer entries than there are noise identifiers, the call raises
    ([ValueError], from [sample]), and the script, which writes [name_df.csv]
    after the call, writes no file. *)
Theorem noise_pool_too_small (S : Sorting) (H : Hashing)
  (tf_id_dir : dict Py.value string) (niche_mouse : list (string * string))
  (tfs : list Py.value) (rdb : ref) (tf_motif_dir : dict string string)
  (grn_gt lr_gt total_name total_id : ref) (noise_ids : list Py.value)
  (s s1 : Store) (rebound : ref * ref) (db : RankingDB) (names : list string)
  (files : Files) :
  part_one S H tf_id_dir tfs rdb tf_motif_dir grn_gt lr_gt total_name total_id s
  = (inr rebound, s1) ->
  nth_error (rdb_frames s1) rdb = Some db ->
  nth_error (name_lists s1) (fst rebound) = Some names ->
  List.length (rest_rdb_names H db names) < List.length noise_ids ->
  fst (assign_gene_names_og S H tf_id_dir niche_mouse tfs rdb tf_motif_dir grn_gt
         lr_gt total_name total_id noise_ids s) = inl Py.ValueError
  /\ save_name_df
       (assign_gene_names_og S H tf_id_dir niche_mouse tfs rdb tf_motif_dir grn_gt
          lr_gt total_name total_id noise_ids) s files = files.
Proof.
  intros Hone Hdb Hn Hshort.
  assert (Hraise : fst (assign_gene_names_og S H tf_id_dir niche_mouse tfs rdb
                          tf_motif_dir grn_gt lr_gt total_name total_id noise_ids s)
                   = inl Py.ValueError).
  { unfold assign_gene_names_og. rewrite (bind_returns _ _ _ _ _ Hone).
    unfold part_two.
    rewrite (bind_returns _ _ _ _ _ (load_rdb_eq _ _ _ Hdb)).
    rewrite (bind_returns _ _ _ _ _ (load_names_eq _ _ _ Hn)).
    unfold bind at 1. rewrite sample_run, sample_from_raises by exact Hshort.
    reflexivity. }
  split; [exact Hraise|].
  unfold save_name_df.
  destruct (assign_gene_names_og S H tf_id_dir niche_mouse tfs rdb tf_motif_dir grn_gt
              lr_gt total_name total_id noise_ids s) as [[e|name_df] s2];
    [reflexivity | discriminate].
Qed.

(** Four noise genes, for the three names that the TF and its targets left. *)
Definition ex_noise_four : list Py.value :=
  [Py.Str "gene1"; Py.Str "gene2"; Py.Str "gene3"; Py.Str "gene4"].

Definition ex_store_one : Store := ex_store ["Adf1"] [Py.Int 1] ex_gt ex_lr [0; 0; 0].

Definition ex_part_one : (Py.exn + (ref * ref)) * Store :=
  part_one stable_sorting insertion_order ex_tf_id_dir [Py.Int 1] 0 ex_motif_dir
    0 0 0 0 ex_store_one.

(** C7, at the small run with four noise genes. *)
Lemma noise_pool_too_small_witness :
  ex_part_one = (inr (1, 1), snd ex_part_one)
  /\ nth_error (rdb_frames (snd ex_part_one)) 0 = Some ex_rdb
  /\ nth_error (name_lists (snd ex_part_one)) (fst (1, 1)) = Some ["Adf1"; "a"; "b"]
  /\ List.length (rest_rdb_names insertion_order ex_rdb ["Adf1"; "a"; "b"])
     < List.length ex_noise_four
  /\ fst (assign_gene_names_og stable_sorting insertion_order ex_tf_id_dir ex_niche
            [Py.Int 1] 0 ex_motif_dir 0 0 0 0 ex_noise_four ex_store_one)
     = inl Py.ValueError
  /\ save_name_df
       (assign_gene_names_og stable_sorting insertion_order ex_tf_id_dir ex_niche
          [Py.Int 1] 0 ex_motif_dir 0 0 0 0 ex_noise_four) ex_store_one []
     = [].
Proof.
  assert (Hone : ex_part_one = (inr (1, 1), snd ex_part_one))
    by (vm_compute; reflexivity).
  assert (Hdb : nth_error (rdb_frames (snd ex_part_one)) 0 = Some ex_rdb)
    by (vm_compute; reflexivity).
  assert (Hn : nth_error (name_lists (snd ex_part_one)) (fst (1, 1))
               = Some ["Adf1"; "a"; "b"]) by (vm_compute; reflexivity).
  assert (Hshort : List.length (rest_rdb_names insertion_order ex_rdb ["Adf1"; "a"; "b"])
                   < List.length ex_noise_four) by (vm_compute; lia).
  split; [exact Hone|]. split; [exact Hdb|]. split; [exact Hn|]. split; [exact Hshort|].
  exact (noise_pool_too_small stable_sorting insertion_order ex_tf_id_dir ex_niche
           [Py.Int 1] 0 ex_motif_dir 0 0 0 0 ex_noise_four ex_store_one
           (snd ex_part_one) (1, 1) ex_rdb ["Adf1"; "a"; "b"] []
           Hone Hdb Hn Hshort).
Defined.

(** ** C10: what the call leaves to its caller *)

(** C10: a call that returns leaves in the caller's [total_name] and
    [total_id] what the target loop appended to them (the names it claimed,
    the regulated genes of the TFs) and nothing of what the later phases
    added, which went to the rebound lists; the other lists of the caller
    and the three dataframes are as they were. *)
Theorem caller_lists_after_call (S : Sorting) (H : Hashing)
  (tf_id_dir : dict Py.value string) (niche_mouse : list (string * string))
  (tfs : list Py.value) (rdb : ref) (tf_motif_dir : dict string string)
  (grn_gt lr_gt total_name total_id : ref) (noise_ids : list Py.value)
  (s s' : Store) (name_df : Table) :
  assign_gene_names_og S H tf_id_dir niche_mouse tfs rdb tf_motif_dir grn_gt lr_gt
    total_name total_id noise_ids s = (inr name_df, s') ->
  exists gt names0 ids0 added s1,
    nth_error (grn_frames s) grn_gt = Some gt
    /\ nth_error (name_lists s) total_name = Some names0
    /\ nth_error (id_lists s) total_id = Some ids0
    /\ for_tf S tf_id_dir rdb tf_motif_dir (get_dir S gt tfs) total_name total_id tfs s
       = (inr tt, s1)
    /\ nth_error (name_lists s1) total_name = Some (names0 ++ added)
    /\ nth_error (id_lists s1) total_id = Some (ids0 ++ targets_of S gt tfs)
    /\ nth_error (name_lists s') total_name = Some (names0 ++ added)
    /\ nth_error (id_lists s') total_id = Some (ids0 ++ targets_of S gt tfs)
    /\ (forall r, r <> total_name -> r < List.length (name_lists s) ->
                  nth_error (name_lists s') r = nth_error (name_lists s) r)
    /\ (forall r, r <> total_id -> r < List.length (id_lists s) ->
                  nth_error (id_lists s') r = nth_error (id_lists s) r)
    /\ rdb_frames s' = rdb_frames s
    /\ grn_frames s' = grn_frames s
    /\ lr_frames s' = lr_frames s.
Proof.
  intro Hcall. apply assign_returns in Hcall.
  destruct Hcall as (db & gt & lr & names0 & ids0 & names1 & ids1 & name_df1
                     & Hobj & Ht & Hd & Hp & F).
  destruct Hobj as [Hdb Hgt Hlr Hn Hi].
  pose proof (for_tf_run S tf_id_dir rdb db tf_motif_dir (get_dir S gt tfs)
                total_name total_id tfs s names0 ids0 Hn Hi (fun _ => Hdb)) as Hloop.
  rewrite Ht in Hloop.
  apply (target_lists_returns S tf_id_dir db tf_motif_dir gt tfs tfs) in Ht;
    [| apply incl_refl].
  destruct Ht as [-> [added [-> _]]].
  pose proof (nth_error_in_range _ _ _ Hn) as Rn.
  pose proof (nth_error_in_range _ _ _ Hi) as Ri.
  destruct F as [Fnl Fil Fn Fi Frdb Fgrn Flr]. simpl in *.
  repeat rewrite length_app in *. repeat rewrite set_nth_length in *. simpl in *.
  exists gt, names0, ids0, added. eexists.
  split; [exact Hgt|]. split; [exact Hn|]. split; [exact Hi|]. split; [exact Hloop|].
  split; [simpl; now apply set_nth_hit|].
  split; [simpl; now apply set_nth_hit|].
  split.
  { rewrite Fn by lia. rewrite nth_error_app1 by (rewrite set_nth_length; lia).
    now apply set_nth_hit. }
  split.
  { rewrite Fi by lia. rewrite nth_error_app1 by (rewrite set_nth_length; lia).
    now apply set_nth_hit. }
  split.
  { intros r Hr Hlt. rewrite Fn by lia.
    rewrite nth_error_app1 by (rewrite set_nth_length; lia). now apply set_nth_miss. }
  split.
  { intros r Hr Hlt. rewrite Fi by lia.
    rewrite nth_error_app1 by (rewrite set_nth_length; lia). now apply set_nth_miss. }
  auto.
Qed.

(** C10, at the small run. *)
Lemma caller_lists_after_call_witness :
  ex_run [0; 0; 0] = (inr ex_table, snd (ex_run [0; 0; 0]))
  /\ exists gt names0 ids0 added s1,
      nth_error (grn_frames ex_store_one) 0 = Some gt
      /\ nth_error (name_lists ex_store_one) 0 = Some names0
      /\ nth_error (id_lists ex_store_one) 0 = Some ids0
      /\ for_tf stable_sorting ex_tf_id_dir 0 ex_motif_dir
           (get_dir stable_sorting gt [Py.Int 1]) 0 0 [Py.Int 1] ex_store_one
         = (inr tt, s1)
      /\ nth_error (name_lists s1) 0 = Some (names0 ++ added)
      /\ nth_error (id_lists s1) 0
         = Some (ids0 ++ targets_of stable_sorting gt [Py.Int 1])
      /\ nth_error (name_lists (snd (ex_run [0; 0; 0]))) 0 = Some (names0 ++ added)
      /\ nth_error (id_lists (snd (ex_run [0; 0; 0]))) 0
         = Some (ids0 ++ targets_of stable_sorting gt [Py.Int 1])
      /\ (forall r, r <> 0 -> r < List.length (name_lists ex_store_one) ->
                    nth_error (name_lists (snd (ex_run [0; 0; 0]))) r
                    = nth_error (name_lists ex_store_one) r)
      /\ (forall r, r <> 0 -> r < List.length (id_lists ex_store_one) ->
                    nth_error (id_lists (snd (ex_run [0; 0; 0]))) r
                    = nth_error (id_lists ex_store_one) r)
      /\ rdb_frames (snd (ex_run [0; 0; 0])) = rdb_frames ex_store_one
      /\ grn_frames (snd (ex_run [0; 0; 0])) = grn_frames ex_store_one
      /\ lr_frames (snd (ex_run [0; 0; 0])) = lr_frames ex_store_one.
Proof.
  assert (Hrun : ex_run [0; 0; 0] = (inr ex_table, snd (ex_run [0; 0; 0])))
    by (vm_compute; reflexivity).
  split; [exact Hrun|].
  exact (caller_lists_after_call stable_sorting insertion_order ex_tf_id_dir ex_niche
           [Py.Int 1] 0 ex_motif_dir 0 0 0 0 [Py.Str "gene1"] ex_store_one
           (snd (ex_run [0; 0; 0])) ex_table Hrun).
Defined.

(** ** C8: the names of the TFs *)

(** The name of the first row of identifier [i]. *)
Fixpoint name_of (df : Table) (i : string) : option string :=
  match df with
  | [] => None
  | (j, n) :: rest => if String.eqb j i then Some n else name_of rest i
  end.

(** The same on a frame that has not gone through [astype(str)]. *)
Fixpoint raw_name_of (df : RawTable) (i : string) : option string :=
  match df with
  | [] => None
  | (j, n) :: rest => if String.eqb (Py.str j) i then Some n else raw_name_of rest i
  end.

Lemma name_of_astype_str (df : RawTable) (i : string) :
  name_of (astype_str df) i = raw_name_of df i.
Proof.
  induction df as [|[j n] df IH]; simpl; [reflexivity|]. now rewrite IH.
Qed.

Lemma raw_name_of_drop_duplicates (df : RawTable) (i : string) :
  forall seen,
    (forall x, In x seen -> Py.str x <> i) ->
    raw_name_of (drop_duplicates_seen seen df) i = raw_name_of df i.
Proof.
  induction df as [|[j n] df IH]; intros seen Hseen; simpl; [reflexivity|].
  destruct (Py.mem j seen) eqn:Em.
  - apply mem_In in Em. apply Hseen in Em.
    apply String.eqb_neq in Em. rewrite Em. now apply IH.
  - simpl. destruct (String.eqb (Py.str j) i) eqn:Ej; [reflexivity|].
    apply IH. intros x [<- | Hx]; [now apply String.eqb_neq | now apply Hseen].
Qed.

Lemma name_of_drop_isin (values : list Py.value) (df : Table) (i : string) :
  ~ In (Py.Str i) values -> name_of (drop_isin values df) i = name_of df i.
Proof.
  intro Hout. induction df as [|[j n] df IH]; simpl; [reflexivity|].
  destruct (String.eqb j i) eqn:Ej.
  - apply String.eqb_eq in Ej. subst j.
    apply mem_not_In in Hout. rewrite Hout. simpl. now rewrite String.eqb_refl.
  - destruct (Py.mem (Py.Str j) values); simpl; [exact IH|]. now rewrite Ej.
Qed.

Lemma raw_name_of_app (l1 l2 : RawTable) (i n : string) :
  raw_name_of l1 i = Some n -> raw_name_of (l1 ++ l2) i = Some n.
Proof.
  induction l1 as [|[j m] l1 IH]; simpl; [discriminate|].
  destruct (String.eqb (Py.str j) i); auto.
Qed.

Lemma raw_name_of_rebound (df : Table) (i : string) :
  raw_name_of (combine (map (fun r => Py.Str (fst r)) df) (map snd df)) i = name_of df i.
Proof.
  induction df as [|[j n] df IH]; simpl; [reflexivity|]. now rewrite IH.
Qed.

Lemma raw_name_of_seed (p : nat) :
  forall (ids : list Py.value) (names : list string) (tf : Py.value) (name : string),
    nth_error ids p = Some tf ->
    nth_error names p = Some name ->
    (forall q x, q < p -> nth_error ids q = Some x -> Py.str x <> Py.str tf) ->
    raw_name_of (combine ids names) (Py.str tf) = Some name.
Proof.
  induction p as [|p IH]; intros [|j ids] [|n names] tf name Hi Hn Hbefore;
    simpl in *; try discriminate.
  - injection Hi as ->. injection Hn as ->. now rewrite String.eqb_refl.
  - assert (Hj : Py.str j <> Py.str tf) by (apply (Hbefore 0 j); [lia | reflexivity]).
    apply String.eqb_neq in Hj. rewrite Hj.
    apply IH; auto. intros q x Hq Hx. apply (Hbefore (Datatypes.S q) x); [lia | exact Hx].
Qed.

Lemma NoDup_map_nth_error {A B : Type} (f : A -> B) (l : list A) (p q : nat) (x y : A) :
  NoDup (map f l) -> nth_error l p = Some x -> nth_error l q = Some y ->
  f x = f y -> p = q.
Proof.
  intros Hnd Hp Hq E.
  apply (proj1 (NoDup_nth_error (map f l)) Hnd).
  - rewrite length_map. eapply nth_error_in_range, Hp.
  - rewrite !nth_error_map, Hp, Hq. simpl. now rewrite E.
Qed.

Lemma drop_duplicates_seen_NoDup (df : RawTable) :
  forall seen, NoDup (map fst (drop_duplicates_seen seen df)).
Proof.
  induction df as [|[j n] df IH]; intro seen; simpl; [constructor|].
  destruct (Py.mem j seen); [apply IH|].
  simpl. constructor; [|apply IH].
  intro Hin. apply drop_duplicates_seen_ids in Hin. destruct Hin as [_ Hs].
  apply Hs. now left.
Qed.

Lemma name_of_In (df : Table) (i n : string) : name_of df i = Some n -> In (i, n) df.
Proof.
  induction df as [|[j m] df IH]; simpl; [discriminate|].
  destruct (String.eqb j i) eqn:E.
  - apply String.eqb_eq in E. intro Hs. injection Hs as ->. subst. now left.
  - intro Hs. right. now apply IH.
Qed.

Lemma NoDup_keys_unique {A B : Type} (l : list (A * B)) (k : A) (a b : B) :
  NoDup (map fst l) -> In (k, a) l -> In (k, b) l -> a = b.
Proof.
  induction l as [|[k' c] l IH]; simpl; intros Hnd Ha Hb; [contradiction|].
  inversion Hnd as [|? ? Hk Hl]; subst.
  destruct Ha as [Ea | Ha], Hb as [Eb | Hb].
  - congruence.
  - injection Ea as -> ->. exfalso. apply Hk. apply in_map_iff. now exists (k, b).
  - injection Eb as -> ->. exfalso. apply Hk. apply in_map_iff. now exists (k, a).
  - now apply IH.
Qed.

(** The rows of the final table that come from the rebound lists have
    pairwise different identifiers. *)
Lemma rebound_rows_NoDup (df : Table) :
  NoDup (map fst (astype_str
                    (drop_duplicates
                       (combine (map (fun r => Py.Str (fst r)) df) (map snd df))))).
Proof.
  rewrite astype_str_ids.
  pose proof (drop_duplicates_seen_NoDup
                (combine (map (fun r => Py.Str (fst r)) df) (map snd df)) []) as Hnd.
  fold (drop_duplicates (combine (map (fun r => Py.Str (fst r)) df) (map snd df))) in Hnd.
  assert (Hstr : forall x,
             In x (map fst (drop_duplicates
                              (combine (map (fun r => Py.Str (fst r)) df) (map snd df))))
             -> exists j, x = Py.Str j).
  { intros x Hx. apply (proj1 (drop_duplicates_ids _ _)) in Hx.
    rewrite map_fst_combine in Hx by now rewrite !length_map.
    apply in_map_iff in Hx. destruct Hx as [r [<- _]]. now exists (fst r). }
  revert Hnd Hstr.
  generalize (map fst (drop_duplicates
                         (combine (map (fun r => Py.Str (fst r)) df) (map snd df)))).
  intro l. induction l as [|x l IH]; simpl; intros Hnd Hstr; [constructor|].
  inversion Hnd as [|? ? Hx Hl]; subst. constructor.
  - intro Hin. apply in_map_iff in Hin. destruct Hin as [y [Ey Hy]].
    destruct (Hstr x (or_introl eq_refl)) as [jx ->].
    destruct (Hstr y (or_intror Hy)) as [jy ->].
    simpl in Ey. subst jy. contradiction.
  - apply IH; auto.
Qed.

(** C8 (as amended): an identifier that the caller seeded once, with its
    name, and that is not a receptor of the ligand-receptor table as line 340
    compares them, has the caller's name in the first of its rows in the
    table; when its rendering is not that of a noise, ligand or receptor
    identifier either, it has no other row. *)
Theorem seeded_names_kept (S : Sorting) (H : Hashing) (tf_id_dir : dict Py.value string)
  (niche_mouse : list (string * string)) (tfs : list Py.value) (rdb : ref)
  (tf_motif_dir : dict string string) (grn_gt lr_gt total_name total_id : ref)
  (noise_ids : list Py.value) (s s' : Store) (name_df : Table)
  (names0 : list string) (ids0 : list Py.value) (lr : list LrRecord)
  (p : nat) (tf : Py.value) (name : string) :
  assign_gene_names_og S H tf_id_dir niche_mouse tfs rdb tf_motif_dir grn_gt lr_gt
    total_name total_id noise_ids s = (inr name_df, s') ->
  nth_error (name_lists s) total_name = Some names0 ->
  nth_error (id_lists s) total_id = Some ids0 ->
  nth_error (lr_frames s) lr_gt = Some lr ->
  NoDup (map Py.str ids0) ->
  nth_error ids0 p = Some tf ->
  nth_error names0 p = Some name ->
  ~ In (Py.Str (Py.str tf)) (map receptor lr) ->
  name_of name_df (Py.str tf) = Some name
  /\ (~ In (Py.str tf) (map Py.str (noise_ids ++ map ligand lr ++ map receptor lr)) ->
      forall n, In (Py.str tf, n) name_df -> n = name).
Proof.
  intros Hcall Hnames Hids Hlr Hnd Hp Hname Hrec.
  apply assign_returns in Hcall.
  destruct Hcall as (db & gt & lr' & names0' & ids0' & names1 & ids1 & name_df1
                     & Hobj & Ht & Hd & Hpt & _).
  destruct Hobj as [_ _ Hl Hn Hi].
  rewrite Hnames in Hn. injection Hn as <-.
  rewrite Hids in Hi. injection Hi as <-.
  rewrite Hlr in Hl. injection Hl as <-.
  apply (target_lists_returns S tf_id_dir db tf_motif_dir gt tfs tfs) in Ht;
    [| apply incl_refl].
  destruct Ht as [-> [added [-> _]]].
  set (k := Py.str tf) in *.
  (* the seeded row in the first frame *)
  assert (HA : raw_name_of (combine (ids0 ++ targets_of S gt tfs) (names0 ++ added)) k
               = Some name).
  { apply (raw_name_of_seed p).
    - rewrite nth_error_app1; [exact Hp | eapply nth_error_in_range, Hp].
    - rewrite nth_error_app1; [exact Hname | eapply nth_error_in_range, Hname].
    - intros q x Hq Hx E.
      pose proof (nth_error_in_range _ _ _ Hp) as Rp.
      rewrite nth_error_app1 in Hx by lia.
      pose proof (NoDup_map_nth_error Py.str ids0 q p x tf Hnd Hx Hp E). lia. }
  (* in [name_df1] *)
  assert (HB : name_of name_df1 k = Some name).
  { unfold name_df1_of in Hd.
    destruct (DataFrame (ids0 ++ targets_of S gt tfs) (names0 ++ added)) as [e|raw] eqn:Er;
      [discriminate|].
    injection Hd as <-. apply DataFrame_returns in Er. destruct Er as [-> _].
    rewrite name_of_drop_isin, name_of_astype_str.
    - unfold drop_duplicates. rewrite raw_name_of_drop_duplicates; [exact HA | intros x []].
    - rewrite iter_ids_In, set_ids_In. exact Hrec. }
  (* in the final frame *)
  apply part_two_returns in Hpt.
  destruct Hpt as (nn & ln & rn & -> & _).
  set (ids2 := map (fun r => Py.Str (fst r)) name_df1).
  set (names2 := map snd name_df1).
  assert (L2 : List.length ids2 = List.length names2)
    by (unfold ids2, names2; now rewrite !length_map).
  rewrite <- !app_assoc. rewrite (combine_app ids2 _ names2 _ L2).
  assert (HC : raw_name_of (drop_duplicates (combine ids2 names2)) k = Some name).
  { unfold drop_duplicates. rewrite raw_name_of_drop_duplicates by (intros x []).
    unfold ids2, names2. now rewrite raw_name_of_rebound. }
  split.
  - rewrite name_of_astype_str. unfold drop_duplicates.
    rewrite raw_name_of_drop_duplicates by (intros x []).
    apply raw_name_of_app.
    unfold ids2, names2. now rewrite raw_name_of_rebound.
  - intros Hother n Hin.
    unfold drop_duplicates in Hin.
    destruct (drop_duplicates_seen_app (combine ids2 names2)
                (combine (noise_ids ++ ligand_ids_of H lr ++ receptor_ids_of H lr)
                         (nn ++ ln ++ rn)) []) as [seen' E].
    rewrite E, astype_str_app in Hin. apply in_app_or in Hin.
    destruct Hin as [Hin | Hin].
    + rewrite <- name_of_astype_str in HC. apply name_of_In in HC.
      apply (NoDup_keys_unique _ k n name (rebound_rows_NoDup name_df1)); assumption.
    + exfalso. apply Hother.
      assert (Hk : In k (map fst (astype_str
                                    (drop_duplicates_seen seen'
                                       (combine (noise_ids ++ ligand_ids_of H lr
                                                   ++ receptor_ids_of H lr)
                                                (nn ++ ln ++ rn)))))).
      { apply in_map_iff. now exists (k, n). }
      rewrite astype_str_ids in Hk. apply in_map_iff in Hk.
      destruct Hk as [x [Ex Hx]].
      apply drop_duplicates_seen_ids in Hx. destruct Hx as [Hx _].
      apply in_map_iff in Hx. destruct Hx as [[x' m] [Ex' Hx]]. simpl in Ex'. subst x'.
      apply in_combine_l in Hx.
      apply in_map_iff. exists x. split; [exact Ex|].
      apply in_app_or in Hx. apply in_or_app. destruct Hx as [Hx | Hx]; [now left|].
      right. apply in_app_or in Hx. apply in_or_app.
      unfold ligand_ids_of, receptor_ids_of in Hx.
      rewrite !iter_ids_In, !set_ids_In in Hx. exact Hx.
Qed.

(** C8, at the TF of the small run. *)
Lemma seeded_names_kept_witness :
  ex_run [0; 0; 0] = (inr ex_table, snd (ex_run [0; 0; 0]))
  /\ nth_error (name_lists ex_store_one) 0 = Some ["Adf1"]
  /\ nth_error (id_lists ex_store_one) 0 = Some [Py.Int 1]
  /\ nth_error (lr_frames ex_store_one) 0 = Some ex_lr
  /\ NoDup (map Py.str [Py.Int 1])
  /\ nth_error [Py.Int 1] 0 = Some (Py.Int 1)
  /\ nth_error ["Adf1"] 0 = Some "Adf1"
  /\ ~ In (Py.Str (Py.str (Py.Int 1))) (map receptor ex_lr)
  /\ name_of ex_table (Py.str (Py.Int 1)) = Some "Adf1"
  /\ (~ In (Py.str (Py.Int 1))
          (map Py.str ([Py.Str "gene1"] ++ map ligand ex_lr ++ map receptor ex_lr)) ->
      forall n, In (Py.str (Py.Int 1), n) ex_table -> n = "Adf1").
Proof.
  assert (Hrun : ex_run [0; 0; 0] = (inr ex_table, snd (ex_run [0; 0; 0])))
    by (vm_compute; reflexivity).
  assert (Hnd : NoDup (map Py.str [Py.Int 1])) by (constructor; [intros [] | constructor]).
  assert (Hrec : ~ In (Py.Str (Py.str (Py.Int 1))) (map receptor ex_lr)).
  { simpl. intros [E | []]. discriminate. }
  split; [exact Hrun|]. split; [reflexivity|]. split; [reflexivity|].
  split; [reflexivity|]. split; [exact Hnd|]. split; [reflexivity|].
  split; [reflexivity|]. split; [exact Hrec|].
  exact (seeded_names_kept stable_sorting insertion_order ex_tf_id_dir ex_niche
           [Py.Int 1] 0 ex_motif_dir 0 0 0 0 [Py.Str "gene1"] ex_store_one
           (snd (ex_run [0; 0; 0])) ex_table ["Adf1"] [Py.Int 1] ex_lr 0 (Py.Int 1)
           "Adf1" Hrun eq_refl eq_refl eq_refl Hnd eq_refl eq_refl Hrec).
Defined.

(** C8, counterexample: the identifiers are strings and the TF is also a
    receptor of the ligand-receptor table; line 340 removes its seeded row,
    and the table binds it to a name sampled in the receptor phase. *)
Lemma tf_that_is_a_receptor :
  fst (ex_call stable_sorting insertion_order (dict_zip [Py.Str "1"] ["Adf1"])
         [Py.Str "1"] []
         (ex_store ["Adf1"] [Py.Str "1"] [mkGrn (Py.Str "1") (Py.Str "11") (9 # 10)]
            [mkLr (Py.Str "21") (Py.Str "1")] [0; 0; 0]))
  = inr [("11", "a"); ("21", "L1"); ("1", "R1")]
  /\ name_of [("11", "a"); ("21", "L1"); ("1", "R1")] (Py.str (Py.Str "1")) = Some "R1".
Proof. split; vm_compute; reflexivity. Qed.

(** ** C9: what a run owes to its runtime *)

(** The final table is the rows of the rebound lists, then rows of noise,
    ligand and receptor identifiers. *)
Lemma part_two_splits (H : Hashing) (niche_mouse : list (string * string))
  (db : RankingDB) (lr : list LrRecord) (name_df1 : Table) (noise_ids : list Py.value)
  (tape : list nat) (name_df : Table) :
  part_two_table H niche_mouse db lr (map snd name_df1)
    (map (fun r => Py.Str (fst r)) name_df1) noise_ids tape = inr name_df ->
  exists rest,
    name_df
    = astype_str
        (drop_duplicates
           (combine (map (fun r => Py.Str (fst r)) name_df1) (map snd name_df1)))
      ++ rest
    /\ forall i, In i (map fst rest) ->
                 In i (map Py.str (noise_ids ++ map ligand lr ++ map receptor lr)).
Proof.
  intro Hp. apply part_two_returns in Hp. destruct Hp as (nn & ln & rn & -> & _).
  rewrite <- !app_assoc.
  rewrite combine_app by now rewrite !length_map.
  unfold drop_duplicates.
  destruct (drop_duplicates_seen_app
              (combine (map (fun r => Py.Str (fst r)) name_df1) (map snd name_df1))
              (combine (noise_ids ++ ligand_ids_of H lr ++ receptor_ids_of H lr)
                       (nn ++ ln ++ rn)) []) as [seen' E].
  rewrite E, astype_str_app. eexists. split; [reflexivity|].
  intros i Hi. rewrite astype_str_ids in Hi. apply in_map_iff in Hi.
  destruct Hi as [x [Ex Hx]].
  apply drop_duplicates_seen_ids in Hx. destruct Hx as [Hx _].
  apply in_map_iff in Hx. destruct Hx as [[x' m] [Ex' Hx]]. simpl in Ex'. subst x'.
  apply in_combine_l in Hx.
  apply in_map_iff. exists x. split; [exact Ex|].
  apply in_app_or in Hx. apply in_or_app. destruct Hx as [Hx | Hx]; [now left|].
  right. apply in_app_or in Hx. apply in_or_app.
  unfold ligand_ids_of, receptor_ids_of in Hx.
  rewrite !iter_ids_In, !set_ids_In in Hx. exact Hx.
Qed.

(** C9 (as amended): two calls on objects of the same contents return the
    same outcome when they start from the same state of [random] and iterate
    sets in the same order; whatever the states of [random] and the orders
    of iteration, the tables of two calls that return start with the same
    rows, which hold every seeded or regulated identifier that line 340 does
    not defer to the receptor phase, and differ only in rows of noise, ligand
    and receptor identifiers. *)
Theorem reproducible_up_to_runtime (S : Sorting) (H1 H2 : Hashing)
  (tf_id_dir : dict Py.value string) (niche_mouse : list (string * string))
  (tfs : list Py.value) (rdb : ref) (tf_motif_dir : dict string string)
  (grn_gt lr_gt total_name total_id : ref) (noise_ids : list Py.value)
  (s1 s2 : Store) (db : RankingDB) (gt : list GrnRecord) (lr : list LrRecord)
  (names0 : list string) (ids0 : list Py.value) :
  Objects rdb grn_gt lr_gt total_name total_id s1 db gt lr names0 ids0 ->
  Objects rdb grn_gt lr_gt total_name total_id s2 db gt lr names0 ids0 ->
  (random_state s1 = random_state s2 ->
   fst (assign_gene_names_og S H1 tf_id_dir niche_mouse tfs rdb tf_motif_dir grn_gt
          lr_gt total_name total_id noise_ids s1)
   = fst (assign_gene_names_og S H1 tf_id_dir niche_mouse tfs rdb tf_motif_dir grn_gt
            lr_gt total_name total_id noise_ids s2))
  /\ forall t1 t2,
      fst (assign_gene_names_og S H1 tf_id_dir niche_mouse tfs rdb tf_motif_dir grn_gt
             lr_gt total_name total_id noise_ids s1) = inr t1 ->
      fst (assign_gene_names_og S H2 tf_id_dir niche_mouse tfs rdb tf_motif_dir grn_gt
             lr_gt total_name total_id noise_ids s2) = inr t2 ->
      exists first_rows rest1 rest2,
        t1 = first_rows ++ rest1
        /\ t2 = first_rows ++ rest2
        /\ (forall i, In i (map fst rest1) \/ In i (map fst rest2) ->
                      In i (map Py.str
                              (noise_ids ++ map ligand lr ++ map receptor lr)))
        /\ (forall x,
               In x (ids0 ++ map regulated_gene
                               (filter (fun r => Py.mem (regulator_gene r) tfs) gt)) ->
               ~ In (Py.Str (Py.str x)) (map receptor lr) ->
               In (Py.str x) (map fst first_rows)).
Proof.
  intros O1 O2. split.
  - intro Eseed.
    rewrite (assign_run S H1 tf_id_dir niche_mouse tfs rdb tf_motif_dir grn_gt lr_gt
               total_name total_id noise_ids s1 db gt lr names0 ids0 O1).
    rewrite (assign_run S H1 tf_id_dir niche_mouse tfs rdb tf_motif_dir grn_gt lr_gt
               total_name total_id noise_ids s2 db gt lr names0 ids0 O2).
    now rewrite Eseed.
  - intros t1 t2.
    rewrite (assign_run S H1 tf_id_dir niche_mouse tfs rdb tf_motif_dir grn_gt lr_gt
               total_name total_id noise_ids s1 db gt lr names0 ids0 O1).
    rewrite (assign_run S H2 tf_id_dir niche_mouse tfs rdb tf_motif_dir grn_gt lr_gt
               total_name total_id noise_ids s2 db gt lr names0 ids0 O2).
    unfold assign_table, part_one_table.
    destruct (target_lists S tf_id_dir db tf_motif_dir (get_dir S gt tfs) tfs names0 ids0)
      as [e|[names1 ids1]] eqn:Et; [discriminate|].
    rewrite (name_df1_same_hashing H2 H1).
    destruct (name_df1_of H1 lr names1 ids1) as [e|name_df1] eqn:Ed; [discriminate|].
    intros Ht1 Ht2.
    apply part_two_splits in Ht1. destruct Ht1 as [rest1 [-> Hr1]].
    apply part_two_splits in Ht2. destruct Ht2 as [rest2 [-> Hr2]].
    eexists. exists rest1, rest2.
    split; [reflexivity|]. split; [reflexivity|]. split.
    + intros i [Hi | Hi]; auto.
    + intros x Hx Hrec.
      apply table_ids; [now rewrite !length_map|].
      rewrite rebound_ids.
      apply (name_df1_ids H1 lr names1 ids1 name_df1 (Py.str x) Ed).
      split; [|exact Hrec].
      apply (target_lists_returns S tf_id_dir db tf_motif_dir gt tfs tfs) in Et;
        [| apply incl_refl].
      destruct Et as [-> _].
      apply in_map. apply in_app_or in Hx. apply in_or_app.
      destruct Hx as [Hx | Hx]; [now left | right].
      now apply (proj2 (targets_of_In S gt tfs x)).
Qed.


(** C9, at the small run, with the two orders of iteration. *)
Lemma reproducible_up_to_runtime_witness :
  Objects 0 0 0 0 0 ex_store_one ex_rdb ex_gt ex_lr ["Adf1"] [Py.Int 1]
  /\ Objects 0 0 0 0 0 ex_store_one ex_rdb ex_gt ex_lr ["Adf1"] [Py.Int 1]
  /\ (random_state ex_store_one = random_state ex_store_one ->
      fst (ex_call stable_sorting insertion_order ex_tf_id_dir [Py.Int 1]
             [Py.Str "gene1"] ex_store_one)
      = fst (ex_call stable_sorting insertion_order ex_tf_id_dir [Py.Int 1]
               [Py.Str "gene1"] ex_store_one))
  /\ forall t1 t2,
      fst (ex_call stable_sorting insertion_order ex_tf_id_dir [Py.Int 1]
             [Py.Str "gene1"] ex_store_one) = inr t1 ->
      fst (ex_call stable_sorting reverse_order ex_tf_id_dir [Py.Int 1]
             [Py.Str "gene1"] ex_store_one) = inr t2 ->
      exists first_rows rest1 rest2,
        t1 = first_rows ++ rest1
        /\ t2 = first_rows ++ rest2
        /\ (forall i, In i (map fst rest1) \/ In i (map fst rest2) ->
                      In i (map Py.str
                              ([Py.Str "gene1"] ++ map ligand ex_lr
                                 ++ map receptor ex_lr)))
        /\ (forall x,
               In x ([Py.Int 1]
                       ++ map regulated_gene
                            (filter (fun r => Py.mem (regulator_gene r) [Py.Int 1])
                               ex_gt)) ->
               ~ In (Py.Str (Py.str x)) (map receptor ex_lr) ->
               In (Py.str x) (map fst first_rows)).
Proof.
  assert (Hobj : Objects 0 0 0 0 0 ex_store_one ex_rdb ex_gt ex_lr ["Adf1"] [Py.Int 1])
    by (constructor; reflexivity).
  split; [exact Hobj|]. split; [exact Hobj|].
  exact (reproducible_up_to_runtime stable_sorting insertion_order reverse_order
           ex_tf_id_dir ex_niche [Py.Int 1] 0 ex_motif_dir 0 0 0 0
           [Py.Str "gene1"] ex_store_one ex_store_one ex_rdb ex_gt ex_lr ["Adf1"]
           [Py.Int 1] Hobj Hobj).
Defined.

(** C9, counterexample: the same objects, the same state of [random], and
    two orders of iteration of the sets of names and of identifiers, as two
    processes with different hash seeds have: the two tables differ. *)
Lemma same_seed_other_hash_order :
  fst (ex_call stable_sorting insertion_order ex_tf_id_dir [Py.Int 1] [Py.Str "gene1"]
         (ex_store ["Adf1"] [Py.Int 1] ex_gt ex_lr [0; 0; 0]))
  = inr [("1", "Adf1"); ("11", "a"); ("12", "b"); ("gene1", "c"); ("21", "L1");
         ("22", "R1")]
  /\ fst (ex_call stable_sorting reverse_order ex_tf_id_dir [Py.Int 1] [Py.Str "gene1"]
            (ex_store ["Adf1"] [Py.Int 1] ex_gt ex_lr [0; 0; 0]))
     = inr [("1", "Adf1"); ("11", "a"); ("12", "b"); ("gene1", "motifs"); ("21", "L2");
            ("22", "R2")].
Proof. split; vm_compute; reflexivity. Qed.

(** ** C5: the pool of the noise names *)

(** The label of the motif column is in the pool of the noise names unless
    it was claimed as a name: [set('motifs')] is the set of the letters of
    the label, not the label. *)
Lemma motifs_in_noise_pool (H : Hashing) (db : RankingDB) (names : list string) :
  ~ In "motifs" names -> In "motifs" (rest_rdb_names H db names).
Proof.
  intro Hout. apply rest_rdb_names_In. split; [|split].
  - unfold columns. apply in_or_app. right. now left.
  - simpl. intros [E|[E|[E|[E|[E|[E|[]]]]]]]; discriminate.
  - exact Hout.
Qed.

(** A gene whose name is one of those letters is never in the pool. *)
Lemma one_letter_gene_not_in_noise_pool (H : Hashing) (db : RankingDB)
  (names : list string) (g : string) :
  In g (Py.chars "motifs") -> ~ In g (rest_rdb_names H db names).
Proof. intros Hg Hin. apply rest_rdb_names_In in Hin. tauto. Qed.

(** C5, at the failing input: the small run with a generator whose first
    number is 2; the pool of the noise names is [c; d; motifs], and the
    noise gene is named [motifs]. *)
Lemma noise_gene_named_motifs :
  rest_rdb_names insertion_order ex_rdb ["Adf1"; "a"; "b"] = ["c"; "d"; "motifs"]
  /\ fst (ex_run [2; 0; 0])
     = inr [("1", "Adf1"); ("11", "a"); ("12", "b"); ("gene1", "motifs"); ("21", "L1");
            ("22", "R1")].
Proof. split; vm_compute; reflexivity. Qed.

(** ** C6: a regulated gene that is a receptor *)

(** C6, at the failing input: the identifiers are integers, as read from the
    ground-truth files, and gene 12 is regulated by the TF and is a receptor.
    Line 340 compares the strings of the frame with the integers of the
    ligand-receptor table and removes nothing: the table keeps the name that
    the target loop gave to gene 12, and has a second row for it, from the
    receptor phase. *)
Lemma integer_receptor_keeps_target_name :
  fst (ex_call stable_sorting insertion_order ex_tf_id_dir [Py.Int 1] [Py.Str "gene1"]
         (ex_store ["Adf1"] [Py.Int 1] ex_gt [mkLr (Py.Int 21) (Py.Int 12)] [0; 0; 0]))
  = inr [("1", "Adf1"); ("11", "a"); ("12", "b"); ("gene1", "c"); ("21", "L1");
         ("12", "R1")].
Proof. vm_compute. reflexivity. Qed.

(** With identifiers that are strings the same gene has one row, named in
    the receptor phase. *)
Lemma string_receptor_named_once :
  fst ex_call_receptor
  = inr [("1", "Adf1"); ("11", "a"); ("gene1", "b"); ("21", "L1"); ("12", "R1")].
Proof. vm_compute. reflexivity. Qed.

(** ** The script *)

(** The script is a call followed by the writing of the file: what holds of
    the one and of the other holds of the script. *)
Lemma script_is_a_call (S : Sorting) (H : Hashing) (inp : Inputs) (seed : list nat)
  (files : Files) :
  let grn_gt :=
    filter (fun r => negb (Py.eqb (regulator_gene r) (Py.Int 10))) (GRN_parameter inp) in
  let tfs := iter_ids H (set_ids (map regulator_gene grn_gt)) in
  script S H inp seed files
  = save_name_df
      (assign_gene_names_og S H (dict_zip tfs tf_names) (lr_network_mouse inp) tfs 0
         (dict_zip tf_names motif_names) 0 0 0 0
         (map Py.Str (filter (fun i => Py.contains "gene" i) (counts_index inp))))
      (mkStore [tf_names] [tfs] [rankings inp] [grn_gt] [LR_parameter inp] seed)
      files.
Proof. reflexivity. Qed.

(** The script writes [name_df.csv] or nothing. *)
Lemma script_writes (S : Sorting) (H : Hashing) (inp : Inputs) (seed : list nat)
  (files : Files) :
  script S H inp seed files = files
  \/ exists name_df, script S H inp seed files = ("name_df.csv", name_df) :: files.
Proof.
  unfold script, save_name_df.
  destruct (assign_gene_names_og _ _ _ _ _ _ _ _ _ _ _ _ _) as [[e|name_df] s'].
  - now left.
  - right. now exists name_df.
Qed.

(** ** A TF without regulated gene *)

(** For a TF without regulated gene the loop stops only if the first
    candidate is already claimed: otherwise the length it waits for is
    passed at the first append, and every unclaimed candidate is claimed. *)
Lemma claim_without_target :
  claim ["Adf1"] (List.length ["Adf1"] + 0) ["a"; "b"; "c"; "d"]
  = ["Adf1"; "a"; "b"; "c"; "d"].
Proof. reflexivity. Qed.

(** This is why the theorem of C3 asks every TF to have a regulated gene:
    here the first TF has none and claims the four names, the
    second has four regulated genes and finds no name left; the two lists
    have the same length again, the call returns, and the genes of the second
    TF are named in the order of the motif of the first. *)
Lemma names_of_a_tf_without_target :
  fst (ex_call stable_sorting insertion_order
         (dict_zip [Py.Int 1; Py.Int 2] ["Adf1"; "Aef1"]) [Py.Int 1; Py.Int 2] []
         (ex_store ["Adf1"; "Aef1"] [Py.Int 1; Py.Int 2]
            [ mkGrn (Py.Int 2) (Py.Int 21) (4 # 5); mkGrn (Py.Int 2) (Py.Int 22) (3 # 5);
              mkGrn (Py.Int 2) (Py.Int 23) (2 # 5); mkGrn (Py.Int 2) (Py.Int 24) (1 # 5) ]
            [] []))
  = inr [("1", "Adf1"); ("2", "Aef1"); ("21", "a"); ("22", "b"); ("23", "c"); ("24", "d")]
  /\ sorted_columns stable_sorting ex_rdb "m2" = inr ["d"; "c"; "b"; "a"].
Proof. split; vm_compute; reflexivity. Qed.

(** * Further properties of the code *)

(** ** The candidate names of a motif (source lines 324-325) *)

Lemma find_first_of_filter {A : Type} (keep : A -> bool) (rows : list A) :
  find keep rows = hd_error (filter keep rows).
Proof.
  induction rows as [|r rows IH]; simpl; [reflexivity|].
  destruct (keep r); [reflexivity | exact IH].
Qed.

Lemma StronglySorted_weaken {A : Type} (R R' : A -> A -> Prop) (rows : list A) :
  (forall a b, R a b -> R' a b) -> StronglySorted R rows -> StronglySorted R' rows.
Proof.
  intros Himp Hs. induction Hs as [|a rows Hs IH Ha]; constructor; auto.
  eapply Forall_impl; [|exact Ha]. intros b. apply Himp.
Qed.

Lemma gene_columns_without_motifs (db : RankingDB) :
  filter (fun c => negb (String.eqb c "motifs")) (columns db)
  = filter (fun c => negb (String.eqb c "motifs")) (gene_columns db).
Proof. unfold columns. rewrite filter_app. simpl. apply app_nil_r. Qed.

(** X1: for a motif that has no row in the ranking database the candidate
    names cannot be computed, [sub.index.values[0]] raises [IndexError];
    otherwise they are the gene columns of the database, the column [motifs]
    left out, each as often as it is a column, in the order of their ranks in
    the first row of the motif, smallest rank first. *)
Theorem sorted_columns_result (S : Sorting) (db : RankingDB) (one_motif : string) :
  match find (fun row => String.eqb (motifs row) one_motif) (rank_rows db) with
  | None => sorted_columns S db one_motif = inl Py.IndexError
  | Some first =>
      exists cols,
        sorted_columns S db one_motif = inr cols
        /\ Permutation
             (filter (fun c => negb (String.eqb c "motifs")) (gene_columns db)) cols
        /\ StronglySorted (fun a b => (rank first a <= rank first b)%Z) cols
  end.
Proof.
  rewrite find_first_of_filter. unfold sorted_columns.
  destruct (filter (fun row => String.eqb (motifs row) one_motif) (rank_rows db))
    as [|first rest]; simpl; [reflexivity|].
  eexists. split; [reflexivity|]. split.
  - rewrite <- gene_columns_without_motifs. apply sort_values_ascending_perm.
  - apply (StronglySorted_weaken
             (fun a b => Qle (inject_Z (rank first a)) (inject_Z (rank first b)))).
    + intros a b Hab. rewrite Zle_Qle. exact Hab.
    + apply argsort_sorted.
Qed.

(** ** The loop over the candidate names (source lines 329-333) *)

Lemma filter_unclaimed_snoc (cols names : list string) (c : string) :
  ~ In c cols ->
  filter (fun x => negb (Py.mem_str x (names ++ [c]))) cols
  = filter (fun x => negb (Py.mem_str x names)) cols.
Proof.
  intro Hc. apply filter_ext_in. intros x Hx. f_equal.
  apply Bool.eq_true_iff_eq. rewrite !mem_str_In, in_app_iff. simpl.
  split; [|tauto]. intros [Hn | [<- | []]]; [assumption | contradiction].
Qed.

Lemma claim_takes_first (cols : list string) :
  forall (names : list string) (top_num : nat),
    NoDup cols -> 0 < top_num ->
    claim names (List.length names + top_num) cols
    = names ++ firstn top_num (filter (fun c => negb (Py.mem_str c names)) cols).
Proof.
  induction cols as [|c cols IH]; intros names top_num Hnd Hpos; cbn [claim filter].
  - rewrite firstn_nil. now rewrite app_nil_r.
  - inversion Hnd as [|? ? Hc Hcols]; subst.
    destruct (Py.mem_str c names) eqn:Em; simpl negb; cbv iota.
    + destruct (Nat.eqb (List.length names) (List.length names + top_num)) eqn:E.
      * apply Nat.eqb_eq in E. lia.
      * now apply IH.
    + destruct (Nat.eqb (List.length (names ++ [c])) (List.length names + top_num)) eqn:E.
      * apply Nat.eqb_eq in E. rewrite length_app in E. simpl in E.
        assert (top_num = 1) as -> by lia. reflexivity.
      * apply Nat.eqb_neq in E. rewrite length_app in E. simpl in E.
        destruct top_num as [|k]; [lia|]. destruct k as [|k]; [lia|].
        replace (List.length names + Datatypes.S (Datatypes.S k))
          with (List.length (names ++ [c]) + Datatypes.S k)
          by (rewrite length_app; simpl; lia).
        rewrite IH by (auto; lia).
        rewrite filter_unclaimed_snoc by assumption.
        rewrite <- app_assoc. reflexivity.
Qed.

Lemma claim_past_stop (cols : list string) :
  forall (names : list string) (stop : nat),
    NoDup cols -> stop < List.length names ->
    claim names stop cols
    = names ++ filter (fun c => negb (Py.mem_str c names)) cols.
Proof.
  induction cols as [|c cols IH]; intros names stop Hnd Hlt; cbn [claim filter].
  - now rewrite app_nil_r.
  - inversion Hnd as [|? ? Hc Hcols]; subst.
    destruct (Py.mem_str c names) eqn:Em; simpl negb; cbv iota.
    + destruct (Nat.eqb (List.length names) stop) eqn:E;
        [apply Nat.eqb_eq in E; lia | now apply IH].
    + destruct (Nat.eqb (List.length (names ++ [c])) stop) eqn:E.
      * apply Nat.eqb_eq in E. rewrite length_app in E. simpl in E. lia.
      * rewrite IH by (auto; rewrite length_app; simpl; lia).
        rewrite filter_unclaimed_snoc by assumption.
        rewrite <- app_assoc. reflexivity.
Qed.

(** X2: for a TF that has regulated genes ([top_num] of them) and candidate
    names that are pairwise different, the loop appends to [total_name] the
    first [top_num] candidates, in rank order, that are not yet in it, or all
    of them when there are fewer, and nothing else. *)
Theorem for_tg_claims_best_ranked (total_name : ref) (top_num : nat) (cols : list string)
  (s : Store) (names : list string) :
  nth_error (name_lists s) total_name = Some names ->
  NoDup cols ->
  0 < top_num ->
  for_tg total_name (List.length names + top_num) cols s
  = (inr tt,
     with_names s
       (set_nth total_name
          (names ++ firstn top_num (filter (fun c => negb (Py.mem_str c names)) cols))
          (name_lists s))).
Proof.
  intros Hn Hnd Hpos. rewrite (for_tg_run _ _ _ _ _ Hn).
  now rewrite claim_takes_first.
Qed.

(** X2, for two regulated genes and the names of the small database, one of
    which is claimed. *)
Lemma for_tg_claims_best_ranked_witness :
  nth_error (name_lists (ex_store ["Adf1"; "b"] [] [] [] [])) 0 = Some ["Adf1"; "b"]
  /\ NoDup ["a"; "b"; "c"; "d"]
  /\ 0 < 2
  /\ for_tg 0 (List.length ["Adf1"; "b"] + 2) ["a"; "b"; "c"; "d"]
       (ex_store ["Adf1"; "b"] [] [] [] [])
     = (inr tt,
        with_names (ex_store ["Adf1"; "b"] [] [] [] [])
          (set_nth 0
             (["Adf1"; "b"]
                ++ firstn 2 (filter (fun c => negb (Py.mem_str c ["Adf1"; "b"]))
                               ["a"; "b"; "c"; "d"]))
             (name_lists (ex_store ["Adf1"; "b"] [] [] [] [])))).
Proof.
  assert (Hnd : NoDup ["a"; "b"; "c"; "d"]).
  { repeat constructor; simpl; intuition discriminate. }
  split; [reflexivity|]. split; [exact Hnd|]. split; [lia|].
  exact (for_tg_claims_best_ranked 0 2 ["a"; "b"; "c"; "d"]
           (ex_store ["Adf1"; "b"] [] [] [] []) ["Adf1"; "b"] eq_refl Hnd
           (Nat.lt_0_succ 1)).
Defined.

(** X3: for a TF without regulated gene ([top_num] is 0) the loop leaves
    [total_name] as it is when there is no candidate or the best-ranked
    candidate is already claimed; otherwise the length it waits for is
    passed at the first append and it appends every candidate that is not
    yet in [total_name]. *)
Theorem for_tg_without_target (total_name : ref) (cols : list string) (s : Store)
  (names : list string) :
  nth_error (name_lists s) total_name = Some names ->
  NoDup cols ->
  for_tg total_name (List.length names + 0) cols s
  = (inr tt,
     with_names s
       (set_nth total_name
          (match cols with
           | [] => names
           | c :: _ =>
               if Py.mem_str c names then names
               else names ++ filter (fun x => negb (Py.mem_str x names)) cols
           end)
          (name_lists s))).
Proof.
  intros Hn Hnd. rewrite (for_tg_run _ _ _ _ _ Hn). do 3 f_equal.
  rewrite Nat.add_0_r.
  destruct cols as [|c cols]; [reflexivity|]. cbn [claim].
  inversion Hnd as [|? ? Hc Hcols]; subst.
  destruct (Py.mem_str c names) eqn:Em.
  - now rewrite Nat.eqb_refl.
  - destruct (Nat.eqb (List.length (names ++ [c])) (List.length names)) eqn:E.
    + apply Nat.eqb_eq in E. rewrite length_app in E. simpl in E. lia.
    + rewrite claim_past_stop by (auto; rewrite length_app; simpl; lia).
      rewrite filter_unclaimed_snoc by assumption.
      cbn [filter]. rewrite Em. simpl. now rewrite <- app_assoc.
Qed.

(** X3, for the names of the small database, one of which is claimed. *)
Lemma for_tg_without_target_witness :
  nth_error (name_lists (ex_store ["Adf1"; "b"] [] [] [] [])) 0 = Some ["Adf1"; "b"]
  /\ NoDup ["a"; "b"; "c"; "d"]
  /\ for_tg 0 (List.length ["Adf1"; "b"] + 0) ["a"; "b"; "c"; "d"]
       (ex_store ["Adf1"; "b"] [] [] [] [])
     = (inr tt,
        with_names (ex_store ["Adf1"; "b"] [] [] [] [])
          (set_nth 0
             (if Py.mem_str "a" ["Adf1"; "b"] then ["Adf1"; "b"]
              else ["Adf1"; "b"]
                     ++ filter (fun x => negb (Py.mem_str x ["Adf1"; "b"]))
                          ["a"; "b"; "c"; "d"])
             (name_lists (ex_store ["Adf1"; "b"] [] [] [] [])))).
Proof.
  assert (Hnd : NoDup ["a"; "b"; "c"; "d"]).
  { repeat constructor; simpl; intuition discriminate. }
  split; [reflexivity|]. split; [exact Hnd|].
  exact (for_tg_without_target 0 ["a"; "b"; "c"; "d"]
           (ex_store ["Adf1"; "b"] [] [] [] []) ["Adf1"; "b"] eq_refl Hnd).
Defined.

(** ** The loop over the TFs (source lines 317-333) *)





Lemma bind_bind {A B C : Type} (m : M A) (k : A -> M B) (h : B -> M C) (s : Store) :
  bind (bind m k) h s = bind m (fun a => bind (k a) h) s.
Proof. unfold bind. now destruct (m s) as [[e|a] s1]. Qed.

Lemma bind_congr {A B : Type} (m : M A) (k k' : A -> M B) (s : Store) :
  (forall a s1, k a s1 = k' a s1) -> bind m k s = bind m k' s.
Proof. intro Hk. unfold bind. destruct (m s) as [[e|a] s1]; [reflexivity | apply Hk]. Qed.

(** The loop over a list of TFs that is given in two parts is the loop over
    the first part followed by the loop over the second. *)
Lemma for_tf_app (S : Sorting) (tf_id_dir : dict Py.value string) (rdb : ref)
  (tf_motif_dir : dict string string) (grn_dir : dict Py.value (list Py.value))
  (tn ti : ref) (first_tfs more_tfs : list Py.value) :
  forall s,
    for_tf S tf_id_dir rdb tf_motif_dir grn_dir tn ti (first_tfs ++ more_tfs) s
    = bind (for_tf S tf_id_dir rdb tf_motif_dir grn_dir tn ti first_tfs)
           (fun _ => for_tf S tf_id_dir rdb tf_motif_dir grn_dir tn ti more_tfs) s.
Proof.
  induction first_tfs as [|tf first_tfs IH]; intro s; cbn [app for_tf]; [reflexivity|].
  symmetry.
  do 8 (rewrite bind_bind; apply bind_congr; intros; cbv beta).
  symmetry. apply IH.
Qed.

(** X5: nothing is undone when the loop fails.  When the loop has gone
    through some TFs and the next one has no name in [tf_id_dir]
    ([KeyError]), or its name has no motif in [tf_motif_dir] ([KeyError]), or
    its motif has no row in the ranking database ([IndexError]), the
    exception leaves the objects as the earlier TFs made them: the lists of
    the caller keep what was appended for those. *)
Theorem target_loop_failure_keeps_appends (S : Sorting)
  (tf_id_dir : dict Py.value string) (rdb : ref) (db : RankingDB)
  (tf_motif_dir : dict string string) (grn_dir : dict Py.value (list Py.value))
  (total_name total_id : ref) (earlier later : list Py.value) (tf : Py.value)
  (s s1 : Store) (names0 : list string) (e : Py.exn) :
  nth_error (name_lists s) total_name = Some names0 ->
  nth_error (rdb_frames s) rdb = Some db ->
  for_tf S tf_id_dir rdb tf_motif_dir grn_dir total_name total_id earlier s
  = (inr tt, s1) ->
  match dict_get Py.eqb tf_id_dir tf with
  | None => e = Py.KeyError
  | Some tf_name =>
      match dict_get String.eqb tf_motif_dir tf_name with
      | None => e = Py.KeyError
      | Some one_motif =>
          find (fun row => String.eqb (motifs row) one_motif) (rank_rows db) = None
          /\ e = Py.IndexError
      end
  end ->
  for_tf S tf_id_dir rdb tf_motif_dir grn_dir total_name total_id
    (earlier ++ tf :: later) s
  = (inl e, s1).
Proof.
  intros Hn Hdb Hrun Hfail.
  rewrite for_tf_app, (bind_returns _ _ _ _ _ Hrun).
  pose proof (for_tf_shape S tf_id_dir rdb tf_motif_dir grn_dir total_name total_id
                earlier s) as Sh.
  rewrite Hrun in Sh. simpl in Sh. destruct Sh as [Shn _ Shdb _ _].
  destruct (nth_error (name_lists s1) total_name) as [names1|] eqn:En1.
  2:{ apply nth_error_None in En1. apply nth_error_in_range in Hn. lia. }
  cbn [for_tf]. rewrite (bind_returns _ _ _ _ _ (load_names_eq _ _ _ En1)).
  destruct (dict_get Py.eqb tf_id_dir tf) as [tf_name|]; [|now subst].
  rewrite (bind_returns _ _ s1 s1 tf_name eq_refl).
  destruct (dict_get String.eqb tf_motif_dir tf_name) as [one_motif|]; [|now subst].
  rewrite (bind_returns _ _ s1 s1 one_motif eq_refl).
  rewrite <- Shdb in Hdb.
  rewrite (bind_returns _ _ _ _ _ (load_rdb_eq _ _ _ Hdb)).
  destruct Hfail as [Hfind ->].
  apply bind_raises. unfold lift, sorted_columns.
  rewrite find_first_of_filter in Hfind.
  destruct (filter (fun row => String.eqb (motifs row) one_motif) (rank_rows db));
    [reflexivity | discriminate].
Qed.

(** X5, for the TF of the small run followed by a TF without name. *)
Lemma target_loop_failure_keeps_appends_witness :
  nth_error (name_lists (ex_store ["Adf1"] [Py.Int 1] ex_gt ex_lr [])) 0 = Some ["Adf1"]
  /\ nth_error (rdb_frames (ex_store ["Adf1"] [Py.Int 1] ex_gt ex_lr [])) 0 = Some ex_rdb
  /\ for_tf stable_sorting ex_tf_id_dir 0 ex_motif_dir
       (get_dir stable_sorting ex_gt [Py.Int 1; Py.Int 2]) 0 0 [Py.Int 1]
       (ex_store ["Adf1"] [Py.Int 1] ex_gt ex_lr [])
     = (inr tt, ex_store ["Adf1"; "a"; "b"] [Py.Int 1; Py.Int 11; Py.Int 12] ex_gt ex_lr [])
  /\ dict_get Py.eqb ex_tf_id_dir (Py.Int 2) = None
  /\ for_tf stable_sorting ex_tf_id_dir 0 ex_motif_dir
       (get_dir stable_sorting ex_gt [Py.Int 1; Py.Int 2]) 0 0
       ([Py.Int 1] ++ Py.Int 2 :: [])
       (ex_store ["Adf1"] [Py.Int 1] ex_gt ex_lr [])
     = (inl Py.KeyError,
        ex_store ["Adf1"; "a"; "b"] [Py.Int 1; Py.Int 11; Py.Int 12] ex_gt ex_lr []).
Proof.
  split; [reflexivity|]. split; [reflexivity|]. split; [reflexivity|].
  split; [reflexivity|].
  exact (target_loop_failure_keeps_appends stable_sorting ex_tf_id_dir 0 ex_rdb
           ex_motif_dir (get_dir stable_sorting ex_gt [Py.Int 1; Py.Int 2]) 0 0
           [Py.Int 1] [] (Py.Int 2) (ex_store ["Adf1"] [Py.Int 1] ex_gt ex_lr [])
           (ex_store ["Adf1"; "a"; "b"] [Py.Int 1; Py.Int 11; Py.Int 12] ex_gt ex_lr [])
           ["Adf1"] Py.KeyError eq_refl eq_refl eq_refl eq_refl).
Defined.

(** ** The exceptions of a call (source lines 305-386) *)




Lemma no_duplicated_names (df : Table) : NoDup (map snd df) -> no_duplicated df = true.
Proof.
  induction df as [|r df IH]; intro Hnd; simpl; [reflexivity|].
  inversion Hnd as [|? ? Hr Hdf]; subst. rewrite (IH Hdf), andb_true_r.
  apply negb_true_iff. destruct (existsb _ df) eqn:Ex; [|reflexivity].
  apply existsb_exists in Ex. destruct Ex as [r' [Hr' Hsame]].
  apply andb_true_iff in Hsame. destruct Hsame as [_ Hsame].
  apply String.eqb_eq in Hsame. exfalso. apply Hr. rewrite Hsame. now apply in_map.
Qed.


Section CallFacts.
Variable S : Sorting.
Variable H : Hashing.
Variable tf_id_dir : dict Py.value string.
Variable niche_mouse : list (string * string).



End CallFacts.



(** ** Where the names of the table come from *)

Lemma table_names_incl (ids : list Py.value) (names : list string) (n : string) :
  In n (map snd (astype_str (drop_duplicates (combine ids names)))) -> In n names.
Proof.
  rewrite astype_str_names. intro Hn. apply in_map_iff in Hn.
  destruct Hn as [[i n'] [<- Hr]]. unfold drop_duplicates in Hr.
  apply drop_duplicates_seen_In in Hr. destruct Hr as [Hr _].
  now apply in_combine_r in Hr.
Qed.

Lemma name_df1_names_incl (H : Hashing) (lr : list LrRecord) (names1 : list string)
  (ids1 : list Py.value) (name_df1 : Table) (n : string) :
  name_df1_of H lr names1 ids1 = inr name_df1 ->
  In n (map snd name_df1) -> In n names1.
Proof.
  unfold name_df1_of. destruct (DataFrame ids1 names1) as [e|raw] eqn:Ed; [discriminate|].
  intro E. injection E as <-. apply DataFrame_returns in Ed. destruct Ed as [-> _].
  intro Hn. apply (table_names_incl ids1). apply in_map_iff in Hn.
  destruct Hn as [r [<- Hr]]. unfold drop_isin in Hr. apply filter_In in Hr.
  apply in_map. tauto.
Qed.

Section Provenance.
Variable S : Sorting.
Variable H : Hashing.
Variable tf_id_dir : dict Py.value string.
Variable niche_mouse : list (string * string).

Lemma part_two_names (db : RankingDB) (lr : list LrRecord) (names2 : list string)
  (ids2 noise_ids : list Py.value) (tape : list nat) (name_df : Table) (n : string) :
  part_two_table H niche_mouse db lr names2 ids2 noise_ids tape = inr name_df ->
  In n (map snd name_df) ->
  In n names2
  \/ (In n (columns db) /\ ~ In n (Py.chars "motifs"))
  \/ In n (map fst niche_mouse)
  \/ In n (map snd niche_mouse).
Proof.
  unfold part_two_table.
  destruct (sample_from (rest_rdb_names H db names2) (List.length noise_ids) tape)
    as [e|[noise_genes_names tape1]] eqn:E1; [discriminate|].
  destruct (sample_from (ligand_pool H niche_mouse (names2 ++ noise_genes_names))
              (List.length (ligand_ids_of H lr)) tape1)
    as [e|[ligand_genes_names tape2]] eqn:E2; [discriminate|].
  destruct (sample_from
              (receptor_pool H niche_mouse
                 ((names2 ++ noise_genes_names) ++ ligand_genes_names))
              (List.length (receptor_ids_of H lr)) tape2)
    as [e|[receptor_names tape3]] eqn:E3; [discriminate|].
  unfold final_table.
  destruct (DataFrame _ _) as [e|raw] eqn:Ed; [discriminate|].
  destruct (no_duplicated (astype_str (drop_duplicates raw))); [|discriminate].
  intro Ht. injection Ht as <-.
  apply DataFrame_returns in Ed. destruct Ed as [-> _].
  intro Hn. apply table_names_incl in Hn.
  destruct (sample_from_returns _ _ _ _ _ E1) as [_ [I1 _]].
  destruct (sample_from_returns _ _ _ _ _ E2) as [_ [I2 _]].
  destruct (sample_from_returns _ _ _ _ _ E3) as [_ [I3 _]].
  apply in_app_or in Hn. destruct Hn as [Hn | Hn].
  - apply in_app_or in Hn. destruct Hn as [Hn | Hn].
    + apply in_app_or in Hn. destruct Hn as [Hn | Hn]; [now left|].
      right. left. apply I1 in Hn. apply (proj1 (rest_rdb_names_In _ _ _ _)) in Hn. tauto.
    + right. right. left. apply I2 in Hn. unfold ligand_pool in Hn.
      apply (proj1 (iter_names_In _ _ _)) in Hn.
      apply (proj1 (set_minus_In _ _ _)) in Hn. destruct Hn as [Hn _].
      exact (proj1 (set_names_In _ _) Hn).
  - right. right. right. apply I3 in Hn. unfold receptor_pool in Hn.
    apply (proj1 (iter_names_In _ _ _)) in Hn.
    apply (proj1 (set_minus_In _ _ _)) in Hn. destruct Hn as [Hn _].
    exact (proj1 (set_names_In _ _) Hn).
Qed.

End Provenance.

(** X7: every name of the table that a call returns is a name that the
    caller had put in [total_name], or a column of the ranking database, or
    a name of the column [from] or of the column [to] of the file of ligands
    and receptors: the call makes up no name. *)
Theorem table_names_come_from_the_inputs (S : Sorting) (H : Hashing)
  (tf_id_dir : dict Py.value string) (niche_mouse : list (string * string))
  (tfs : list Py.value) (rdb : ref) (tf_motif_dir : dict string string)
  (grn_gt lr_gt total_name total_id : ref) (noise_ids : list Py.value)
  (s s' : Store) (db : RankingDB) (gt : list GrnRecord) (lr : list LrRecord)
  (names0 : list string) (ids0 : list Py.value) (name_df : Table) (n : string) :
  Objects rdb grn_gt lr_gt total_name total_id s db gt lr names0 ids0 ->
  assign_gene_names_og S H tf_id_dir niche_mouse tfs rdb tf_motif_dir grn_gt lr_gt
    total_name total_id noise_ids s = (inr name_df, s') ->
  In n (map snd name_df) ->
  In n names0
  \/ In n (columns db)
  \/ In n (map fst niche_mouse)
  \/ In n (map snd niche_mouse).
Proof.
  intros Hobj Hcall Hn.
  pose proof (assign_run S H tf_id_dir niche_mouse tfs rdb tf_motif_dir grn_gt lr_gt
                total_name total_id noise_ids s db gt lr names0 ids0 Hobj) as Hrun.
  rewrite Hcall in Hrun. simpl in Hrun. symmetry in Hrun.
  unfold assign_table, part_one_table in Hrun.
  destruct (target_lists S tf_id_dir db tf_motif_dir (get_dir S gt tfs) tfs names0 ids0)
    as [e|[names1 ids1]] eqn:Et; [discriminate|].
  destruct (name_df1_of H lr names1 ids1) as [e|name_df1] eqn:Ed; [discriminate|].
  destruct (part_two_names H niche_mouse db lr _ _ noise_ids _ name_df n Hrun Hn)
    as [Hin | Hrest]; [|tauto].
  apply (name_df1_names_incl H lr names1 ids1 name_df1 n Ed) in Hin.
  destruct (target_lists_returns S tf_id_dir db tf_motif_dir gt tfs tfs
              names0 ids0 names1 ids1 (incl_refl _) Et) as [_ [added [-> [_ Hadd]]]].
  apply in_app_or in Hin. destruct Hin as [Hin | Hin]; [now left|].
  right. left. destruct (Hadd n Hin) as [Hg _].
  unfold columns. apply in_or_app. now left.
Qed.

(** X7, at the small run. *)
Lemma table_names_come_from_the_inputs_witness :
  Objects 0 0 0 0 0 ex_store_one ex_rdb ex_gt ex_lr ["Adf1"] [Py.Int 1]
  /\ ex_run [0; 0; 0] = (inr ex_table, snd (ex_run [0; 0; 0]))
  /\ In "c" (map snd ex_table)
  /\ (In "c" ["Adf1"]
      \/ In "c" (columns ex_rdb)
      \/ In "c" (map fst ex_niche)
      \/ In "c" (map snd ex_niche)).
Proof.
  assert (Hobj : Objects 0 0 0 0 0 ex_store_one ex_rdb ex_gt ex_lr ["Adf1"] [Py.Int 1])
    by (constructor; reflexivity).
  assert (Hrun : ex_run [0; 0; 0] = (inr ex_table, snd (ex_run [0; 0; 0])))
    by (vm_compute; reflexivity).
  assert (Hc : In "c" (map snd ex_table)) by (simpl; tauto).
  split; [exact Hobj|]. split; [exact Hrun|]. split; [exact Hc|].
  exact (table_names_come_from_the_inputs stable_sorting insertion_order ex_tf_id_dir
           ex_niche [Py.Int 1] 0 ex_motif_dir 0 0 0 0 [Py.Str "gene1"] ex_store_one _
           ex_rdb ex_gt ex_lr ["Adf1"] [Py.Int 1] ex_table "c" Hobj Hrun Hc).
Defined.

(** ** The dictionaries that the script zips (source lines 437-438) *)

Section DictFacts.
Context {K V : Type} (keq : K -> K -> bool).
Hypothesis keq_eq : forall a b, keq a b = true <-> a = b.

Lemma dict_zip_fold (pairs : list (K * V)) :
  forall acc : dict K V,
    fold_left (fun d kv => dict_set d (fst kv) (snd kv)) pairs acc = rev pairs ++ acc.
Proof.
  induction pairs as [|[k v] pairs IH]; intro acc; simpl; [reflexivity|].
  rewrite IH. unfold dict_set. simpl. now rewrite <- app_assoc.
Qed.

Lemma dict_zip_rev (ks : list K) (vs : list V) : dict_zip ks vs = rev (combine ks vs).
Proof. unfold dict_zip. rewrite dict_zip_fold. apply app_nil_r. Qed.

Lemma dict_get_bound (d : dict K V) (k : K) (v : V) :
  NoDup (map fst d) -> In (k, v) d -> dict_get keq d k = Some v.
Proof.
  induction d as [|[k' v'] d IH]; intros Hnd Hin; [destruct Hin|].
  simpl in *. inversion Hnd as [|? ? Hk' Hd]; subst.
  destruct Hin as [E | Hin].
  - injection E as -> ->. now rewrite (proj2 (keq_eq k k) eq_refl).
  - destruct (keq k' k) eqn:Ek; [|now apply IH].
    apply keq_eq in Ek. subst k'. exfalso. apply Hk'.
    apply in_map_iff. now exists (k, v).
Qed.

Lemma dict_get_unbound (d : dict K V) (k : K) :
  ~ In k (map fst d) -> dict_get keq d k = None.
Proof.
  induction d as [|[k' v'] d IH]; intro Hk; [reflexivity|]. simpl in *.
  destruct (keq k' k) eqn:Ek.
  - apply keq_eq in Ek. subst k'. exfalso. apply Hk. now left.
  - apply IH. intro Hin. apply Hk. now right.
Qed.

Lemma zipped_keys (ks : list K) :
  forall vs : list V, map fst (combine ks vs) = firstn (List.length vs) ks.
Proof.
  induction ks as [|k ks IH]; intros [|v vs]; simpl; try reflexivity.
  now rewrite IH.
Qed.

Lemma zipped_at (ks : list K) :
  forall (vs : list V) i k v,
    nth_error ks i = Some k -> nth_error vs i = Some v -> In (k, v) (combine ks vs).
Proof.
  induction ks as [|k0 ks IH]; intros [|v0 vs] [|i] k v Hk Hv; simpl in *;
    try discriminate.
  - left. congruence.
  - right. now apply (IH vs i).
Qed.

(** [dict(zip(ks, vs))[k]] for keys that are pairwise different: the value
    at the position of [k], and no entry when [vs] is shorter. *)
Lemma dict_zip_get (ks : list K) (vs : list V) (i : nat) (k : K) :
  NoDup ks -> nth_error ks i = Some k ->
  dict_get keq (dict_zip ks vs) k = nth_error vs i.
Proof.
  intros Hnd Hk. rewrite dict_zip_rev.
  assert (Hkeys : NoDup (firstn (List.length vs) ks)).
  { rewrite <- (firstn_skipn (List.length vs) ks) in Hnd.
    now apply NoDup_app_remove_r in Hnd. }
  destruct (nth_error vs i) as [v|] eqn:Ev.
  - apply dict_get_bound.
    + rewrite map_rev, zipped_keys. now apply NoDup_rev.
    + apply -> in_rev. now apply (zipped_at ks vs i).
  - apply dict_get_unbound. rewrite map_rev, zipped_keys. intro Hin.
    apply in_rev in Hin. apply In_nth_error in Hin. destruct Hin as [j Hj].
    rewrite nth_error_firstn in Hj. destruct (Nat.ltb j (List.length vs)) eqn:Ej;
      [|discriminate].
    apply Nat.ltb_lt in Ej. apply nth_error_None in Ev.
    assert (j = i); [|lia].
    apply (proj1 (NoDup_nth_error ks) Hnd).
    + apply nth_error_Some. congruence.
    + congruence.
Qed.

End DictFacts.

Lemma tf_names_NoDup : NoDup tf_names.
Proof. unfold tf_names. repeat constructor; simpl; intuition discriminate. Qed.

(** X8: the two dictionaries of the script pair by position.  When the list
    of TFs names no TF twice, the TF at position [i] is given the name at
    position [i] of [tf_names], and [tf_motif_dir[tf_id_dir[tf]]] is the
    motif at position [i] of [motif_names]; a TF at a position from 5 on has
    no entry in [tf_id_dir], since [zip] stops at the shorter list. *)
Theorem zipped_dictionaries_pair_by_position (tfs : list Py.value) (i : nat)
  (tf : Py.value) :
  NoDup tfs ->
  nth_error tfs i = Some tf ->
  dict_get Py.eqb (dict_zip tfs tf_names) tf = nth_error tf_names i
  /\ (forall tf_name,
         nth_error tf_names i = Some tf_name ->
         dict_get String.eqb (dict_zip tf_names motif_names) tf_name
         = nth_error motif_names i)
  /\ (5 <= i -> dict_get Py.eqb (dict_zip tfs tf_names) tf = None).
Proof.
  intros Hnd Htf.
  assert (Hget : dict_get Py.eqb (dict_zip tfs tf_names) tf = nth_error tf_names i)
    by (apply dict_zip_get; [exact py_eqb_eq | exact Hnd | exact Htf]).
  split; [exact Hget|]. split.
  - intros tf_name Hname.
    apply dict_zip_get; [exact String.eqb_eq | exact tf_names_NoDup | exact Hname].
  - intro Hi. rewrite Hget. apply nth_error_None. simpl. exact Hi.
Qed.

(** X8, for the third of three TFs. *)
Lemma zipped_dictionaries_pair_by_position_witness :
  NoDup [Py.Int 7; Py.Int 3; Py.Int 5]
  /\ nth_error [Py.Int 7; Py.Int 3; Py.Int 5] 2 = Some (Py.Int 5)
  /\ dict_get Py.eqb (dict_zip [Py.Int 7; Py.Int 3; Py.Int 5] tf_names) (Py.Int 5)
     = nth_error tf_names 2
  /\ (forall tf_name,
         nth_error tf_names 2 = Some tf_name ->
         dict_get String.eqb (dict_zip tf_names motif_names) tf_name
         = nth_error motif_names 2)
  /\ (5 <= 2 ->
      dict_get Py.eqb (dict_zip [Py.Int 7; Py.Int 3; Py.Int 5] tf_names) (Py.Int 5)
      = None).
Proof.
  assert (Hnd : NoDup [Py.Int 7; Py.Int 3; Py.Int 5]).
  { repeat constructor; simpl; intuition discriminate. }
  split; [exact Hnd|]. split; [reflexivity|].
  exact (zipped_dictionaries_pair_by_position [Py.Int 7; Py.Int 3; Py.Int 5] 2
           (Py.Int 5) Hnd eq_refl).
Defined.

(** ** A sixth regulator (source lines 423-446) *)

Lemma target_lists_unnamed_tf (S : Sorting) (tf_id_dir : dict Py.value string)
  (db : RankingDB) (tf_motif_dir : dict string string)
  (grn_dir : dict Py.value (list Py.value)) (earlier later : list Py.value)
  (tf : Py.value) (names : list string) (ids : list Py.value) :
  dict_get Py.eqb tf_id_dir tf = None ->
  exists e,
    target_lists S tf_id_dir db tf_motif_dir grn_dir (earlier ++ tf :: later) names ids
    = inl e.
Proof.
  intro Hnone. rewrite target_lists_app.
  destruct (target_lists S tf_id_dir db tf_motif_dir grn_dir earlier names ids)
    as [e|[names1 ids1]]; [now exists e|].
  exists Py.KeyError. cbn [target_lists]. now rewrite Hnone.
Qed.

(** X9: when the ground truth, the rows of regulator 10 left out, has more
    than five different regulators, the script writes no file: the
    dictionary [tf_id_dir] holds the first five TFs only, and the call
    raises at the latest when the loop reaches the sixth. *)
Theorem script_with_a_sixth_regulator_writes_nothing (S : Sorting) (H : Hashing)
  (inp : Inputs) (seed : list nat) (files : Files) :
  5 < List.length
        (set_ids
           (map regulator_gene
              (filter (fun r => negb (Py.eqb (regulator_gene r) (Py.Int 10)))
                 (GRN_parameter inp)))) ->
  script S H inp seed files = files.
Proof.
  intro Hsix. rewrite script_is_a_call. cbv zeta.
  set (grn_gt := filter (fun r => negb (Py.eqb (regulator_gene r) (Py.Int 10)))
                   (GRN_parameter inp)) in *.
  set (tfs := iter_ids H (set_ids (map regulator_gene grn_gt))).
  assert (Hnd : NoDup tfs).
  { eapply Permutation_NoDup; [apply iter_ids_perm | apply NoDup_nodup]. }
  assert (Hlen : 5 < List.length tfs).
  { unfold tfs. now rewrite <- (Permutation_length (iter_ids_perm H _)). }
  destruct (nth_error tfs 5) as [tf|] eqn:Etf; [|apply nth_error_None in Etf; lia].
  destruct (nth_error_split tfs 5 Etf) as [earlier [later [Esplit _]]].
  assert (Hnone : dict_get Py.eqb (dict_zip tfs tf_names) tf = None).
  { rewrite (dict_zip_get Py.eqb py_eqb_eq tfs tf_names 5 tf Hnd Etf). reflexivity. }
  set (noise_ids := map Py.Str (filter (fun i => Py.contains "gene" i) (counts_index inp))).
  set (s := mkStore [tf_names] [tfs] [rankings inp] [grn_gt] [LR_parameter inp] seed).
  assert (Hobj : Objects 0 0 0 0 0 s (rankings inp) grn_gt (LR_parameter inp) tf_names tfs)
    by (constructor; reflexivity).
  pose proof (assign_run S H (dict_zip tfs tf_names) (lr_network_mouse inp) tfs 0
                (dict_zip tf_names motif_names) 0 0 0 0 noise_ids s _ _ _ _ _ Hobj)
    as Hrun.
  destruct (target_lists_unnamed_tf S (dict_zip tfs tf_names) (rankings inp)
              (dict_zip tf_names motif_names) (get_dir S grn_gt tfs) earlier later tf
              tf_names tfs Hnone) as [e He].
  rewrite <- Esplit in He.
  unfold assign_table, part_one_table in Hrun. rewrite He in Hrun.
  unfold save_name_df.
  destruct (assign_gene_names_og S H (dict_zip tfs tf_names) (lr_network_mouse inp) tfs 0
              (dict_zip tf_names motif_names) 0 0 0 0 noise_ids s) as [[e'|name_df] s'];
    [reflexivity | discriminate].
Qed.

(** Six regulators, and a seventh of identifier 10. *)
Definition ex_six_regulators : list GrnRecord :=
  map (fun z => mkGrn (Py.Int z) (Py.Int (z + 100)) (1 # 2)) [1; 2; 3; 4; 5; 6; 10]%Z.

(** X9, for the small database and six regulators. *)
Lemma script_with_a_sixth_regulator_writes_nothing_witness :
  5 < List.length
        (set_ids
           (map regulator_gene
              (filter (fun r => negb (Py.eqb (regulator_gene r) (Py.Int 10)))
                 (GRN_parameter (mkInputs ["gene1"] ex_six_regulators ex_lr ex_rdb ex_niche)))))
  /\ script stable_sorting insertion_order
       (mkInputs ["gene1"] ex_six_regulators ex_lr ex_rdb ex_niche) [0; 0; 0] []
     = [].
Proof.
  assert (Hsix : 5 < List.length
                       (set_ids
                          (map regulator_gene
                             (filter (fun r => negb (Py.eqb (regulator_gene r) (Py.Int 10)))
                                (GRN_parameter
                                   (mkInputs ["gene1"] ex_six_regulators ex_lr ex_rdb
                                      ex_niche)))))).
  { vm_compute. lia. }
  split; [exact Hsix|].
  exact (script_with_a_sixth_regulator_writes_nothing stable_sorting insertion_order
           (mkInputs ["gene1"] ex_six_regulators ex_lr ex_rdb ex_niche) [0; 0; 0] []
           Hsix).
Defined.

(** ** What a [KeyError] or an [IndexError] of a call means *)






(** ** Identifiers that are strings *)

Definition is_string (v : Py.value) : Prop := exists t, v = Py.Str t.

Lemma NoDup_map_str (ids : list Py.value) :
  (forall x, In x ids -> is_string x) -> NoDup ids -> NoDup (map Py.str ids).
Proof.
  intros Hstr Hnd. induction Hnd as [|x ids Hx Hnd IH]; simpl; constructor.
  - intro Hin. apply in_map_iff in Hin. destruct Hin as [y [Hy Hyin]].
    destruct (Hstr x (or_introl eq_refl)) as [t ->].
    destruct (Hstr y (or_intror Hyin)) as [u ->].
    simpl in Hy. subst u. contradiction.
  - apply IH. intros y Hy. apply Hstr. now right.
Qed.

Lemma string_ids_table_NoDup (ids : list Py.value) (names : list string) :
  List.length ids = List.length names ->
  (forall x, In x ids -> is_string x) ->
  NoDup (map fst (astype_str (drop_duplicates (combine ids names)))).
Proof.
  intros Hlen Hstr. rewrite astype_str_ids. apply NoDup_map_str.
  - intros x Hx. apply Hstr. apply (proj1 (drop_duplicates_ids _ _)) in Hx.
    now rewrite map_fst_combine in Hx.
  - apply drop_duplicates_seen_NoDup.
Qed.

Lemma part_two_string_ids (H : Hashing) (niche_mouse : list (string * string))
  (db : RankingDB) (lr : list LrRecord) (name_df1 : Table) (noise_ids : list Py.value)
  (tape : list nat) (name_df : Table) :
  part_two_table H niche_mouse db lr (map snd name_df1)
    (map (fun r => Py.Str (fst r)) name_df1) noise_ids tape = inr name_df ->
  (forall x, In x (noise_ids ++ map ligand lr ++ map receptor lr) -> is_string x) ->
  NoDup (map fst name_df).
Proof.
  intros Htwo Hstr.
  destruct (part_two_returns H niche_mouse db lr _ _ noise_ids tape name_df Htwo)
    as [noise_genes_names [ligand_genes_names [receptor_names [-> [Hlen _]]]]].
  apply string_ids_table_NoDup; [exact Hlen|].
  intros x Hx. apply in_app_or in Hx. destruct Hx as [Hx | Hx].
  - apply in_app_or in Hx. destruct Hx as [Hx | Hx].
    + apply in_app_or in Hx. destruct Hx as [Hx | Hx].
      * apply in_map_iff in Hx. destruct Hx as [r [<- _]]. now exists (fst r).
      * apply Hstr, in_or_app. now left.
    + apply Hstr, in_or_app. right. apply in_or_app. left.
      unfold ligand_ids_of in Hx. apply (proj1 (iter_ids_In _ _ _)) in Hx.
      exact (proj1 (set_ids_In _ _) Hx).
  - apply Hstr, in_or_app. right. apply in_or_app. right.
    unfold receptor_ids_of in Hx. apply (proj1 (iter_ids_In _ _ _)) in Hx.
    exact (proj1 (set_ids_In _ _) Hx).
Qed.

(** X11: when the identifiers of the noise genes, of the ligands and of the
    receptors are strings, the table that a call returns has one row for
    each identifier: no identifier occurs in two rows.  (With integers it
    can: [drop_duplicates] runs before [astype(str)], and keeps both the
    integer 12 and the string ['12'].) *)
Theorem string_identifiers_have_one_row (S : Sorting) (H : Hashing)
  (tf_id_dir : dict Py.value string) (niche_mouse : list (string * string))
  (tfs : list Py.value) (rdb : ref) (tf_motif_dir : dict string string)
  (grn_gt lr_gt total_name total_id : ref) (noise_ids : list Py.value)
  (s s' : Store) (name_df : Table) (lr : list LrRecord) :
  assign_gene_names_og S H tf_id_dir niche_mouse tfs rdb tf_motif_dir grn_gt lr_gt
    total_name total_id noise_ids s = (inr name_df, s') ->
  nth_error (lr_frames s) lr_gt = Some lr ->
  (forall x, In x (noise_ids ++ map ligand lr ++ map receptor lr) ->
             exists t, x = Py.Str t) ->
  NoDup (map fst name_df).
Proof.
  intros Hcall Hlr Hstr.
  destruct (assign_returns S H tf_id_dir niche_mouse tfs rdb tf_motif_dir grn_gt lr_gt
              total_name total_id noise_ids s s' name_df Hcall)
    as (db & gt & lr' & names0 & ids0 & names1 & ids1 & name_df1
        & Hobj & _ & _ & Htwo & _).
  destruct Hobj as [_ _ Hlr' _ _]. rewrite Hlr in Hlr'. injection Hlr' as <-.
  exact (part_two_string_ids H niche_mouse db lr name_df1 noise_ids _ name_df Htwo Hstr).
Qed.

(** X11, at the run whose identifiers are strings. *)
Lemma string_identifiers_have_one_row_witness :
  ex_call_receptor
  = (inr [("1", "Adf1"); ("11", "a"); ("gene1", "b"); ("21", "L1"); ("12", "R1")],
     snd ex_call_receptor)
  /\ nth_error (lr_frames ex_store_receptor) 0 = Some [mkLr (Py.Str "21") (Py.Str "12")]
  /\ (forall x,
         In x ([Py.Str "gene1"] ++ map ligand [mkLr (Py.Str "21") (Py.Str "12")]
                 ++ map receptor [mkLr (Py.Str "21") (Py.Str "12")]) ->
         exists t, x = Py.Str t)
  /\ NoDup (map fst [("1", "Adf1"); ("11", "a"); ("gene1", "b"); ("21", "L1");
                     ("12", "R1")]).
Proof.
  assert (Hrun : ex_call_receptor
                 = (inr [("1", "Adf1"); ("11", "a"); ("gene1", "b"); ("21", "L1");
                         ("12", "R1")],
                    snd ex_call_receptor)) by (vm_compute; reflexivity).
  assert (Hstr : forall x,
             In x ([Py.Str "gene1"] ++ map ligand [mkLr (Py.Str "21") (Py.Str "12")]
                     ++ map receptor [mkLr (Py.Str "21") (Py.Str "12")]) ->
             exists t, x = Py.Str t).
  { simpl. intros x [<- | [<- | [<- | []]]]; eexists; reflexivity. }
  split; [exact Hrun|]. split; [reflexivity|]. split; [exact Hstr|].
  exact (string_identifiers_have_one_row stable_sorting insertion_order
           (dict_zip [Py.Str "1"] ["Adf1"]) ex_niche [Py.Str "1"] 0 ex_motif_dir
           0 0 0 0 [Py.Str "gene1"] ex_store_receptor _ _
           [mkLr (Py.Str "21") (Py.Str "12")] Hrun eq_refl Hstr).
Defined.

(** ** The two lists of the caller after a call *)

(** X12: after a call that returns, the caller's [total_name] and
    [total_id] have the same length, whatever their lengths were before:
    the first frame (line 337) is built from them, and pandas refuses
    columns of different lengths. *)
Theorem caller_lists_balanced (S : Sorting) (H : Hashing)
  (tf_id_dir : dict Py.value string) (niche_mouse : list (string * string))
  (tfs : list Py.value) (rdb : ref) (tf_motif_dir : dict string string)
  (grn_gt lr_gt total_name total_id : ref) (noise_ids : list Py.value)
  (s s' : Store) (name_df : Table) :
  assign_gene_names_og S H tf_id_dir niche_mouse tfs rdb tf_motif_dir grn_gt lr_gt
    total_name total_id noise_ids s = (inr name_df, s') ->
  exists names1 ids1,
    nth_error (name_lists s') total_name = Some names1
    /\ nth_error (id_lists s') total_id = Some ids1
    /\ List.length names1 = List.length ids1.
Proof.
  intro Hcall.
  destruct (assign_returns S H tf_id_dir niche_mouse tfs rdb tf_motif_dir grn_gt lr_gt
              total_name total_id noise_ids s s' name_df Hcall)
    as (db & gt & lr & names0 & ids0 & names1 & ids1 & name_df1
        & Hobj & _ & Hd & _ & F).
  destruct Hobj as [_ _ _ Hn Hi].
  pose proof (nth_error_in_range _ _ _ Hn) as Rn.
  pose proof (nth_error_in_range _ _ _ Hi) as Ri.
  destruct F as [_ _ Fn Fi _ _ _]. simpl in Fn, Fi.
  repeat rewrite length_app in *. repeat rewrite set_nth_length in *. simpl in *.
  exists names1, ids1. split; [|split].
  - rewrite Fn by lia. rewrite nth_error_app1 by (rewrite set_nth_length; lia).
    now apply set_nth_hit.
  - rewrite Fi by lia. rewrite nth_error_app1 by (rewrite set_nth_length; lia).
    now apply set_nth_hit.
  - unfold name_df1_of in Hd.
    destruct (DataFrame ids1 names1) as [e|raw] eqn:Ed; [discriminate|].
    apply DataFrame_returns in Ed. destruct Ed as [_ El]. now symmetry.
Qed.

(** X12, at the small run. *)
Lemma caller_lists_balanced_witness :
  ex_run [0; 0; 0] = (inr ex_table, snd (ex_run [0; 0; 0]))
  /\ exists names1 ids1,
      nth_error (name_lists (snd (ex_run [0; 0; 0]))) 0 = Some names1
      /\ nth_error (id_lists (snd (ex_run [0; 0; 0]))) 0 = Some ids1
      /\ List.length names1 = List.length ids1.
Proof.
  assert (Hrun : ex_run [0; 0; 0] = (inr ex_table, snd (ex_run [0; 0; 0])))
    by (vm_compute; reflexivity).
  split; [exact Hrun|].
  exact (caller_lists_balanced stable_sorting insertion_order ex_tf_id_dir ex_niche
           [Py.Int 1] 0 ex_motif_dir 0 0 0 0 [Py.Str "gene1"] _ _ ex_table Hrun).
Defined.

(** ** The lookups of the plot section (source lines 452-460) *)

(** [names_dir = dict(zip(name_df.id, name_df.name))]: the keys are the
    strings of the column [id]. *)
Definition names_dir (name_df : Table) : dict Py.value string :=
  dict_zip (map (fun r => Py.Str (fst r)) name_df) (map snd name_df).

(** [list(name_df[name_df.id.isin(tf_ids)].name)], the labels of the plot of
    the cell types. *)
Definition tf_labels (tf_ids : list Py.value) (name_df : Table) : list string :=
  map snd (filter (fun r => Py.mem (Py.Str (fst r)) tf_ids) name_df).

(** [for r in receptors: rn = names_dir[r]; plot_gene(..., rn, ...)]: the
    names that are plotted, and the exception that ends the loop if one
    does. *)
Fixpoint plotted_receptors (dir : dict Py.value string) (receptors : list Py.value)
  : list string * option Py.exn :=
  match receptors with
  | [] => ([], None)
  | r :: rest =>
      match dict_get Py.eqb dir r with
      | None => ([], Some Py.KeyError)
      | Some rn =>
          let (plotted, raised) := plotted_receptors dir rest in
          (rn :: plotted, raised)
      end
  end.

Definition is_integer (v : Py.value) : Prop := exists z, v = Py.Int z.

Lemma mem_string_among_integers (t : string) (values : list Py.value) :
  (forall x, In x values -> is_integer x) -> Py.mem (Py.Str t) values = false.
Proof.
  intro Hint. apply mem_not_In. intro Hin. destruct (Hint _ Hin) as [z Hz]. discriminate.
Qed.

Lemma names_dir_keys (name_df : Table) (k : Py.value) :
  In k (map fst (names_dir name_df)) -> is_string k.
Proof.
  unfold names_dir. rewrite dict_zip_rev, map_rev. intro Hin.
  apply in_rev in Hin. rewrite map_fst_combine in Hin by now rewrite !length_map.
  apply in_map_iff in Hin. destruct Hin as [r [<- _]]. now exists (fst r).
Qed.

(** X13: with integer identifiers in the ground-truth files the plot
    section finds nothing in the table, whose identifiers are strings: the
    list of labels of line 454 is empty whatever the table, and the loop of
    lines 458-460 raises [KeyError] at its first receptor, before any plot. *)
Theorem integer_identifiers_find_no_row (name_df : Table) (tf_ids : list Py.value)
  (r : Py.value) (receptors : list Py.value) :
  (forall x, In x tf_ids -> exists z, x = Py.Int z) ->
  (exists z, r = Py.Int z) ->
  tf_labels tf_ids name_df = []
  /\ plotted_receptors (names_dir name_df) (r :: receptors) = ([], Some Py.KeyError).
Proof.
  intros Hint [z ->]. split.
  - unfold tf_labels. induction name_df as [|row name_df IH]; [reflexivity|].
    cbn [filter]. now rewrite (mem_string_among_integers _ _ Hint).
  - cbn [plotted_receptors]. rewrite dict_get_unbound; [reflexivity | exact py_eqb_eq |].
    intro Hin. apply names_dir_keys in Hin. destruct Hin as [t Ht]. discriminate.
Qed.

(** X13, for the table of the small run. *)
Lemma integer_identifiers_find_no_row_witness :
  (forall x, In x [Py.Int 1] -> exists z, x = Py.Int z)
  /\ (exists z, Py.Int 22 = Py.Int z)
  /\ tf_labels [Py.Int 1] ex_table = []
  /\ plotted_receptors (names_dir ex_table) (Py.Int 22 :: []) = ([], Some Py.KeyError).
Proof.
  assert (Hint : forall x, In x [Py.Int 1] -> exists z, x = Py.Int z).
  { intros x [<- | []]. now exists 1%Z. }
  assert (Hr : exists z, Py.Int 22 = Py.Int z) by now exists 22%Z.
  split; [exact Hint|]. split; [exact Hr|].
  exact (integer_identifiers_find_no_row ex_table [Py.Int 1] (Py.Int 22) [] Hint Hr).
Defined.

Lemma names_dir_get (name_df : Table) (i n : string) :
  NoDup (map fst name_df) -> In (i, n) name_df ->
  dict_get Py.eqb (names_dir name_df) (Py.Str i) = Some n.
Proof.
  intros Hnd Hin. unfold names_dir. rewrite dict_zip_rev.
  apply dict_get_bound; [exact py_eqb_eq | |].
  - rewrite map_rev. apply NoDup_rev.
    rewrite map_fst_combine by now rewrite !length_map.
    rewrite <- (rebound_ids name_df) in Hnd.
    eapply NoDup_map_inv. exact Hnd.
  - apply -> in_rev. rewrite rebound_rows. apply in_map_iff. now exists (i, n).
Qed.

Lemma plotted_receptors_all (dir : dict Py.value string) (receptors : list Py.value) :
  (forall r, In r receptors -> dict_get Py.eqb dir r <> None) ->
  exists plotted,
    plotted_receptors dir receptors = (plotted, None)
    /\ Forall2 (fun r rn => dict_get Py.eqb dir r = Some rn) receptors plotted.
Proof.
  induction receptors as [|r rest IH]; intro Hall.
  - exists []. split; [reflexivity | constructor].
  - destruct IH as [plotted [Hrun Hall2]]; [intros x Hx; apply Hall; now right|].
    cbn [plotted_receptors].
    destruct (dict_get Py.eqb dir r) as [rn|] eqn:Er;
      [|exfalso; apply (Hall r); [now left | exact Er]].
    exists (rn :: plotted). rewrite Hrun. split; [reflexivity | now constructor].
Qed.

(** X14: when the identifiers of the noise genes, of the ligands and of the
    receptors are strings, the loop of lines 458-460 on the table that a
    call returned raises nothing: it finds a name for every receptor of the
    ground truth, the name of the one row of the table that has the
    identifier of the receptor. *)
Theorem string_receptors_are_plotted (S : Sorting) (H : Hashing)
  (tf_id_dir : dict Py.value string) (niche_mouse : list (string * string))
  (tfs : list Py.value) (rdb : ref) (tf_motif_dir : dict string string)
  (grn_gt lr_gt total_name total_id : ref) (noise_ids : list Py.value)
  (s s' : Store) (name_df : Table) (lr : list LrRecord) :
  assign_gene_names_og S H tf_id_dir niche_mouse tfs rdb tf_motif_dir grn_gt lr_gt
    total_name total_id noise_ids s = (inr name_df, s') ->
  nth_error (lr_frames s) lr_gt = Some lr ->
  (forall x, In x (noise_ids ++ map ligand lr ++ map receptor lr) ->
             exists t, x = Py.Str t) ->
  exists plotted,
    plotted_receptors (names_dir name_df) (iter_ids H (set_ids (map receptor lr)))
    = (plotted, None)
    /\ Forall2 (fun r rn => In (Py.str r, rn) name_df)
         (iter_ids H (set_ids (map receptor lr))) plotted.
Proof.
  intros Hcall Hlr Hstr.
  destruct (assign_returns S H tf_id_dir niche_mouse tfs rdb tf_motif_dir grn_gt lr_gt
              total_name total_id noise_ids s s' name_df Hcall)
    as (db & gt & lr' & names0 & ids0 & names1 & ids1 & name_df1
        & Hobj & _ & _ & Htwo & _).
  destruct Hobj as [_ _ Hlr' _ _]. rewrite Hlr in Hlr'. injection Hlr' as <-.
  pose proof (part_two_string_ids H niche_mouse db lr name_df1 noise_ids _ name_df
                Htwo Hstr) as Hnd.
  assert (Hrow : forall r, In r (iter_ids H (set_ids (map receptor lr))) ->
                           exists rn, In (Py.str r, rn) name_df).
  { intros r Hr.
    destruct (part_two_returns H niche_mouse db lr _ _ noise_ids _ name_df Htwo)
      as [noise_genes_names [ligand_genes_names [receptor_names [E [Hlen _]]]]].
    assert (Hid : In (Py.str r) (map fst name_df)).
    { rewrite E. apply (proj2 (table_ids _ _ _ Hlen)). apply in_map, in_or_app.
      now right. }
    apply in_map_iff in Hid. destruct Hid as [[i rn] [Hi Hin]]. simpl in Hi. subst i.
    now exists rn. }
  assert (Hget : forall r rn, In r (iter_ids H (set_ids (map receptor lr))) ->
                              (dict_get Py.eqb (names_dir name_df) r = Some rn
                               <-> In (Py.str r, rn) name_df)).
  { intros r rn Hr.
    assert (Hs : is_string r).
    { apply Hstr, in_or_app. right. apply in_or_app. right.
      apply (proj1 (iter_ids_In _ _ _)) in Hr. exact (proj1 (set_ids_In _ _) Hr). }
    destruct Hs as [t ->]. simpl. split.
    - intro Hd. destruct (Hrow (Py.Str t) Hr) as [rn' Hin]. simpl in Hin.
      rewrite (names_dir_get name_df t rn' Hnd Hin) in Hd. congruence.
    - now apply names_dir_get. }
  destruct (plotted_receptors_all (names_dir name_df)
              (iter_ids H (set_ids (map receptor lr)))) as [plotted [Hrun Hall]].
  { intros r Hr. destruct (Hrow r Hr) as [rn Hin].
    rewrite (proj2 (Hget r rn Hr) Hin). discriminate. }
  exists plotted. split; [exact Hrun|].
  clear Hrun Hrow. revert plotted Hall Hget.
  generalize (iter_ids H (set_ids (map receptor lr))).
  intro receptors.
  induction receptors as [|r rest IH]; intros plotted Hall Hget;
    inversion Hall as [|? rn ? plotted' Hd Hall']; subst; constructor.
  - apply (proj1 (Hget r rn (or_introl eq_refl)) Hd).
  - apply IH; [exact Hall'|]. intros x xn Hx. apply Hget. now right.
Qed.

(** X14, at the run whose identifiers are strings. *)
Lemma string_receptors_are_plotted_witness :
  ex_call_receptor
  = (inr [("1", "Adf1"); ("11", "a"); ("gene1", "b"); ("21", "L1"); ("12", "R1")],
     snd ex_call_receptor)
  /\ nth_error (lr_frames ex_store_receptor) 0 = Some [mkLr (Py.Str "21") (Py.Str "12")]
  /\ (forall x,
         In x ([Py.Str "gene1"] ++ map ligand [mkLr (Py.Str "21") (Py.Str "12")]
                 ++ map receptor [mkLr (Py.Str "21") (Py.Str "12")]) ->
         exists t, x = Py.Str t)
  /\ exists plotted,
      plotted_receptors
        (names_dir [("1", "Adf1"); ("11", "a"); ("gene1", "b"); ("21", "L1");
                    ("12", "R1")])
        (iter_ids insertion_order
           (set_ids (map receptor [mkLr (Py.Str "21") (Py.Str "12")])))
      = (plotted, None)
      /\ Forall2
           (fun r rn =>
              In (Py.str r, rn)
                 [("1", "Adf1"); ("11", "a"); ("gene1", "b"); ("21", "L1");
                  ("12", "R1")])
           (iter_ids insertion_order
              (set_ids (map receptor [mkLr (Py.Str "21") (Py.Str "12")])))
           plotted.
Proof.
  assert (Hrun : ex_call_receptor
                 = (inr [("1", "Adf1"); ("11", "a"); ("gene1", "b"); ("21", "L1");
                         ("12", "R1")],
                    snd ex_call_receptor)) by (vm_compute; reflexivity).
  assert (Hstr : forall x,
             In x ([Py.Str "gene1"] ++ map ligand [mkLr (Py.Str "21") (Py.Str "12")]
                     ++ map receptor [mkLr (Py.Str "21") (Py.Str "12")]) ->
             exists t, x = Py.Str t).
  { simpl. intros x [<- | [<- | [<- | []]]]; eexists; reflexivity. }
  split; [exact Hrun|]. split; [reflexivity|]. split; [exact Hstr|].
  exact (string_receptors_are_plotted stable_sorting insertion_order
           (dict_zip [Py.Str "1"] ["Adf1"]) ex_niche [Py.Str "1"] 0 ex_motif_dir
           0 0 0 0 [Py.Str "gene1"] ex_store_receptor _ _
           [mkLr (Py.Str "21") (Py.Str "12")] Hrun eq_refl Hstr).
Defined.

(** ** The TFs of the script and of [get_tg] (source lines 60-68, 423) *)

Lemma records_of_a_regulator (gt : list GrnRecord) (tf : Py.value) :
  In tf (map regulator_gene gt) -> records_of gt tf <> [].
Proof.
  intros Hin Hnil. apply in_map_iff in Hin. destruct Hin as [row [Hreg Hrow]].
  assert (Hrec : In row (records_of gt tf)).
  { unfold records_of. apply filter_In. split; [exact Hrow|]. now apply py_eqb_eq. }
  rewrite Hnil in Hrec. destruct Hrec.
Qed.

(** X15: a list of TFs that is read off the ground truth, as
    [list(set(grn_gt['regulator.gene']))] in the script and in [get_tg],
    names no TF twice, and [get_dir] maps each of its TFs to at least one
    regulated gene: for such a list [top_num] is never 0 in the loop. *)
Theorem tfs_of_the_ground_truth_regulate (S : Sorting) (H : Hashing)
  (gt : list GrnRecord) :
  NoDup (iter_ids H (set_ids (map regulator_gene gt)))
  /\ forall tf,
      In tf (iter_ids H (set_ids (map regulator_gene gt))) ->
      exists targets,
        dict_get Py.eqb (get_dir S gt (iter_ids H (set_ids (map regulator_gene gt)))) tf
        = Some targets
        /\ 0 < List.length targets.
Proof.
  split.
  - eapply Permutation_NoDup; [apply iter_ids_perm | apply NoDup_nodup].
  - intros tf Htf. rewrite get_dir_lookup, (proj2 (mem_In _ _) Htf).
    eexists. split; [reflexivity|].
    rewrite length_map,
      <- (Permutation_length (sort_values_descending_perm S regulator_effect _)).
    apply (proj1 (iter_ids_In _ _ _)) in Htf. apply (proj1 (set_ids_In _ _)) in Htf.
    apply records_of_a_regulator in Htf.
    destruct (records_of gt tf); [contradiction | simpl; lia].
Qed.

(** * The class [Simulator] (source lines 20-101) *)

Module Simulator.

(** The attributes that the methods below read or write; [None] is Python's
    [None].  Of the expression matrix [counts] the code reads the index. *)
Record t : Type := mk {
  tfs : option (list Py.value);
  receptors : option (list Py.value);
  ligands : option (list Py.value);
  targets : option (list Py.value);
  total_genes : option (list string);
  lr_gt : option (list LrRecord);
  grn_gt : option (list GrnRecord);
  counts : option (list string);
  noise_ids : option (list string);
  real_ids : option (list string)
}.

(** [__init__] *)
Definition init : t := mk None None None None None None None None None None.

(** [bool(df)] for a dataframe: pandas refuses, whatever the frame holds
    ("The truth value of a DataFrame is ambiguous"). *)
Definition DataFrame_bool (index : list string) : Py.exn + bool := inl Py.ValueError.

Section Methods.
Variable H : Hashing.

Definition get_lr (df : list LrRecord) (self : t) : t :=
  mk (tfs self)
     (Some (iter_ids H (set_ids (map receptor df))))
     (Some (iter_ids H (set_ids (map ligand df))))
     (targets self) (total_genes self) (Some df) (grn_gt self) (counts self)
     (noise_ids self) (real_ids self).

Definition get_tg (df : list GrnRecord) (self : t) : t :=
  mk (Some (iter_ids H (set_ids (map regulator_gene df))))
     (receptors self) (ligands self)
     (Some (iter_ids H (set_ids (map regulated_gene df))))
     (total_genes self) (lr_gt self) (Some df) (counts self)
     (noise_ids self) (real_ids self).

(** The assignments of the branch [if self.counts:]. *)
Definition recognized (index : list string) (self : t) : t :=
  mk (tfs self) (receptors self) (ligands self) (targets self)
     (Some index) (lr_gt self) (grn_gt self) (counts self)
     (Some (filter (fun i => Py.contains "gene" i) index))
     (Some (filter (fun i => negb (Py.contains "gene" i)) index)).

Definition recognize_ids (self : t) : (Py.exn + unit) * t :=
  match counts self with
  | None => (inl Py.ValueError, self)
  | Some index =>
      match DataFrame_bool index with
      | inl e => (inl e, self)
      | inr true => (inr tt, recognized index self)
      | inr false => (inl Py.ValueError, self)
      end
  end.

Definition set_counts (df : list string) (self : t) : t :=
  mk (tfs self) (receptors self) (ligands self) (targets self) (total_genes self)
     (lr_gt self) (grn_gt self) (Some df) (noise_ids self) (real_ids self).

Definition load_exp (df : list string) (self : t) : (Py.exn + unit) * t :=
  recognize_ids (set_counts df self).

(** The calls of a caller that goes on after an exception. *)
Inductive call : Type :=
| Get_lr (df : list LrRecord)
| Get_tg (df : list GrnRecord)
| Load_exp (df : list string)
| Recognize_ids.

Definition perform (c : call) (self : t) : (Py.exn + unit) * t :=
  match c with
  | Get_lr df => (inr tt, get_lr df self)
  | Get_tg df => (inr tt, get_tg df self)
  | Load_exp df => load_exp df self
  | Recognize_ids => recognize_ids self
  end.

Fixpoint session (calls : list call) (self : t) : t :=
  match calls with
  | [] => self
  | c :: rest => session rest (snd (perform c self))
  end.

End Methods.

Lemma perform_keeps_the_gene_lists (H : Hashing) (c : call) (self : t) :
  total_genes (snd (perform H c self)) = total_genes self
  /\ noise_ids (snd (perform H c self)) = noise_ids self
  /\ real_ids (snd (perform H c self)) = real_ids self.
Proof.
  destruct c as [df|df|df|]; cbn [perform].
  - simpl. auto.
  - simpl. auto.
  - unfold load_exp, recognize_ids. simpl. auto.
  - unfold recognize_ids. destruct (counts self); simpl; auto.
Qed.

(** X16: [load_exp] stores the matrix and then raises [ValueError], and
    [recognize_ids] raises [ValueError] whatever the object holds: the test
    [if self.counts:] asks a dataframe for a truth value, and without a
    matrix the [else] branch raises.  So no sequence of calls of [get_lr],
    [get_tg], [load_exp] and [recognize_ids] on a new object ever sets
    [total_genes], [noise_ids] or [real_ids]. *)
Theorem gene_index_is_never_recognized (H : Hashing) :
  (forall df self,
      load_exp df self = (inl Py.ValueError, set_counts df self))
  /\ (forall self, recognize_ids self = (inl Py.ValueError, self))
  /\ (forall calls,
         total_genes (session H calls init) = None
         /\ noise_ids (session H calls init) = None
         /\ real_ids (session H calls init) = None).
Proof.
  assert (Hrec : forall self, recognize_ids self = (inl Py.ValueError, self)).
  { intro self. unfold recognize_ids. now destruct (counts self). }
  split; [intros df self; apply Hrec|]. split; [exact Hrec|].
  intro calls.
  assert (Hinv : forall self,
             total_genes (session H calls self) = total_genes self
             /\ noise_ids (session H calls self) = noise_ids self
             /\ real_ids (session H calls self) = real_ids self).
  { induction calls as [|c calls IH]; intro self; [simpl; auto|].
    cbn [session]. destruct (IH (snd (perform H c self))) as [E1 [E2 E3]].
    destruct (perform_keeps_the_gene_lists H c self) as [F1 [F2 F3]].
    rewrite E1, E2, E3. auto. }
  exact (Hinv init).
Qed.

End Simulator.

(** ** [Simulator.assign_name_addition] (source lines 171-195) *)

(** The attributes [self.total_name] and [self.total_id] hold list objects,
    which [+=] extends in place; the method also binds the table it returns
    to [self.name_df]. *)
Definition assign_name_addition (H : Hashing) (rdb : ref) (total_name total_id : ref)
  (gene_id_list : list Py.value) : M Table :=
  db <- load_rdb rdb ;;
  names <- load_names total_name ;;
  noise_genes_names <- sample (rest_rdb_names H db names) (List.length gene_id_list) ;;
  extend_names total_name noise_genes_names ;;
  extend_ids total_id gene_id_list ;;
  ids <- load_ids total_id ;;
  names <- load_names total_name ;;
  raw <- lift (DataFrame ids names) ;;
  let name_df := astype_str (drop_duplicates raw) in
  if no_duplicated name_df then ret name_df else raise Py.AssertionError.

(** X17: [assign_name_addition] on an object whose [total_name] holds no
    name twice and is as long as its [total_id].  When the ranking database
    has fewer unused names than there are genes to name, [sample] raises
    [ValueError] and nothing is changed.  Otherwise the method returns: it
    has appended the genes to [total_id] and as many names to [total_name],
    which are columns of the database, are new and pairwise different, and
    the table is the frame of the two lists, first row of each identifier
    kept. *)
Theorem assign_name_addition_result (H : Hashing) (rdb total_name total_id : ref)
  (gene_id_list : list Py.value) (s : Store) (db : RankingDB)
  (names : list string) (ids : list Py.value) :
  nth_error (rdb_frames s) rdb = Some db ->
  nth_error (name_lists s) total_name = Some names ->
  nth_error (id_lists s) total_id = Some ids ->
  NoDup names ->
  List.length ids = List.length names ->
  (List.length (rest_rdb_names H db names) < List.length gene_id_list ->
   assign_name_addition H rdb total_name total_id gene_id_list s
   = (inl Py.ValueError, s))
  /\ (List.length gene_id_list <= List.length (rest_rdb_names H db names) ->
      exists noise_genes_names s',
        assign_name_addition H rdb total_name total_id gene_id_list s
        = (inr (astype_str
                  (drop_duplicates
                     (combine (ids ++ gene_id_list) (names ++ noise_genes_names)))),
           s')
        /\ nth_error (name_lists s') total_name = Some (names ++ noise_genes_names)
        /\ nth_error (id_lists s') total_id = Some (ids ++ gene_id_list)
        /\ List.length noise_genes_names = List.length gene_id_list
        /\ NoDup (names ++ noise_genes_names)
        /\ forall x, In x noise_genes_names -> In x (columns db) /\ ~ In x names).
Proof.
  intros Hdb Hn Hi Hnd Hlen.
  pose proof (nth_error_in_range _ _ _ Hn) as Rn.
  pose proof (nth_error_in_range _ _ _ Hi) as Ri.
  split.
  - intro Hfew. unfold assign_name_addition.
    rewrite (bind_returns _ _ _ _ _ (load_rdb_eq _ _ _ Hdb)).
    rewrite (bind_returns _ _ _ _ _ (load_names_eq _ _ _ Hn)).
    unfold bind at 1. rewrite sample_run.
    now rewrite (sample_from_raises _ _ _ Hfew).
  - intro Henough. unfold assign_name_addition.
    rewrite (bind_returns _ _ _ _ _ (load_rdb_eq _ _ _ Hdb)).
    rewrite (bind_returns _ _ _ _ _ (load_names_eq _ _ _ Hn)).
    unfold bind at 1. rewrite sample_run.
    destruct (sample_from (rest_rdb_names H db names) (List.length gene_id_list)
                (random_state s)) as [e|[noise_genes_names tape1]] eqn:Es.
    { unfold sample_from in Es.
      destruct (Nat.ltb _ _) eqn:El; [apply Nat.ltb_lt in El; lia | discriminate]. }
    destruct (sample_from_returns _ _ _ _ _ Es) as [Hk [Hin _]].
    assert (Hfresh : NoDup (names ++ noise_genes_names)).
    { eapply sample_from_fresh; [exact Es | apply rest_rdb_names_NoDup | | exact Hnd].
      intros x Hx. apply (proj1 (rest_rdb_names_In _ _ _ _)) in Hx. tauto. }
    set (s1 := with_random s tape1).
    assert (Hn1 : nth_error (name_lists s1) total_name = Some names) by exact Hn.
    rewrite (bind_returns _ _ _ _ _ (extend_names_eq _ _ _ noise_genes_names Hn1)).
    set (s2 := with_names s1 _).
    assert (Hi2 : nth_error (id_lists s2) total_id = Some ids) by exact Hi.
    rewrite (bind_returns _ _ _ _ _ (extend_ids_eq _ _ _ gene_id_list Hi2)).
    set (s3 := with_ids s2 _).
    assert (Hn3 : nth_error (name_lists s3) total_name = Some (names ++ noise_genes_names)).
    { simpl. now apply set_nth_hit. }
    assert (Hi3 : nth_error (id_lists s3) total_id = Some (ids ++ gene_id_list)).
    { simpl. now apply set_nth_hit. }
    rewrite (bind_returns _ _ _ _ _ (load_ids_eq _ _ _ Hi3)).
    rewrite (bind_returns _ _ _ _ _ (load_names_eq _ _ _ Hn3)).
    assert (Hlen3 : List.length (ids ++ gene_id_list)
                    = List.length (names ++ noise_genes_names)).
    { rewrite !length_app. lia. }
    assert (Hraw : DataFrame (ids ++ gene_id_list) (names ++ noise_genes_names)
                   = inr (combine (ids ++ gene_id_list) (names ++ noise_genes_names))).
    { unfold DataFrame. now rewrite Hlen3, Nat.eqb_refl. }
    rewrite Hraw.
    rewrite (bind_returns _ _ s3 s3
               (combine (ids ++ gene_id_list) (names ++ noise_genes_names)) eq_refl).
    rewrite no_duplicated_names.
    2:{ rewrite astype_str_names. unfold drop_duplicates.
        apply drop_duplicates_seen_names. now rewrite map_snd_combine. }
    exists noise_genes_names, s3.
    split; [reflexivity|]. split; [exact Hn3|]. split; [exact Hi3|].
    split; [exact Hk|]. split; [exact Hfresh|].
    intros x Hx. apply Hin in Hx. apply (proj1 (rest_rdb_names_In _ _ _ _)) in Hx. tauto.
Qed.

(** X17, for the small database, one name and one identifier in the lists
    and one gene to name. *)
Lemma assign_name_addition_result_witness :
  nth_error (rdb_frames (ex_store ["Adf1"] [Py.Int 1] [] [] [0])) 0 = Some ex_rdb
  /\ nth_error (name_lists (ex_store ["Adf1"] [Py.Int 1] [] [] [0])) 0 = Some ["Adf1"]
  /\ nth_error (id_lists (ex_store ["Adf1"] [Py.Int 1] [] [] [0])) 0 = Some [Py.Int 1]
  /\ NoDup ["Adf1"]
  /\ List.length [Py.Int 1] = List.length ["Adf1"]
  /\ List.length [Py.Str "gene1"]
     <= List.length (rest_rdb_names insertion_order ex_rdb ["Adf1"])
  /\ exists noise_genes_names s',
      assign_name_addition insertion_order 0 0 0 [Py.Str "gene1"]
        (ex_store ["Adf1"] [Py.Int 1] [] [] [0])
      = (inr (astype_str
                (drop_duplicates
                   (combine ([Py.Int 1] ++ [Py.Str "gene1"])
                      (["Adf1"] ++ noise_genes_names)))),
         s')
      /\ nth_error (name_lists s') 0 = Some (["Adf1"] ++ noise_genes_names)
      /\ nth_error (id_lists s') 0 = Some ([Py.Int 1] ++ [Py.Str "gene1"])
      /\ List.length noise_genes_names = List.length [Py.Str "gene1"]
      /\ NoDup (["Adf1"] ++ noise_genes_names)
      /\ forall x, In x noise_genes_names -> In x (columns ex_rdb) /\ ~ In x ["Adf1"].
Proof.
  assert (Hnd : NoDup ["Adf1"]) by (repeat constructor; simpl; tauto).
  assert (Hpool : List.length [Py.Str "gene1"]
                  <= List.length (rest_rdb_names insertion_order ex_rdb ["Adf1"])).
  { vm_compute. lia. }
  split; [reflexivity|]. split; [reflexivity|]. split; [reflexivity|].
  split; [exact Hnd|]. split; [reflexivity|]. split; [exact Hpool|].
  exact (proj2 (assign_name_addition_result insertion_order 0 0 0 [Py.Str "gene1"]
                  (ex_store ["Adf1"] [Py.Int 1] [] [] [0]) ex_rdb ["Adf1"] [Py.Int 1]
                  eq_refl eq_refl eq_refl Hnd eq_refl) Hpool).
Defined.
